(** * phyloslurm: the Phylobayes starter and governor

    A shallow embedding of [phylobayes_starter/start_phylobayes.py] and the
    properties of its naming, launch and convergence logic.

    Python values are embedded as follows: [str] as [string] (one [ascii] per
    code point, so the code points 0..255), [int] as [Z], lists as [list],
    [os.environ] and the file system as [gmap string string].  The effects
    of the script are kept explicit: the shell commands it issues, the
    seconds it sleeps, [sys.exit] and uncaught exceptions.  What it prints
    on standard output is not modelled. *)

From Stdlib Require Import ZArith Ascii String List Bool Lia.
From Stdlib Require Import DecimalString.
From Stdlib Require DecimalZ DecimalPos.
From Stdlib Require SpecFloat.
From stdpp Require Import base option gmap strings.

Local Open Scope Z_scope.

#[local] Set Warnings "-abstract-large-number".

(** ** Python string primitives *)

Module Py.

(** [str.isspace()] on one character, which is also what [\s] matches in a
    [str] pattern and what [str.rstrip()] removes: TAB, LF, VT, FF, CR,
    FS, GS, RS, US, space, NEL and NBSP. *)
Definition is_space (c : ascii) : bool :=
  let n := N_of_ascii c in
  ((9 <=? n) && (n <=? 13) || (28 <=? n) && (n <=? 32)
   || (n =? 133) || (n =? 160))%N.

(** [s.rstrip()] *)
Fixpoint rstrip (s : string) : string :=
  match s with
  | EmptyString => EmptyString
  | String c s' =>
      match rstrip s' with
      | EmptyString => if is_space c then EmptyString else String c EmptyString
      | r => String c r
      end
  end.

(** [s.lstrip()] *)
Fixpoint lstrip (s : string) : string :=
  match s with
  | EmptyString => EmptyString
  | String c s' => if is_space c then lstrip s' else s
  end.

(** [s.rstrip(c)] for a one-character argument *)
Fixpoint rstrip_char (c : ascii) (s : string) : string :=
  match s with
  | EmptyString => EmptyString
  | String d s' =>
      match rstrip_char c s' with
      | EmptyString => if Ascii.eqb d c then EmptyString else String d EmptyString
      | r => String d r
      end
  end.

(** [s.startswith(p)] *)
Definition startswith (s p : string) : bool := String.prefix p s.

(** [s.find(sub) != -1] *)
Fixpoint contains (sub s : string) : bool :=
  String.prefix sub s ||
  match s with
  | EmptyString => false
  | String _ s' => contains sub s'
  end.

(** [s.rfind(c)] for a one-character argument; [-1] when absent. *)
Fixpoint rfind_from (c : ascii) (s : string) (i acc : Z) : Z :=
  match s with
  | EmptyString => acc
  | String d s' => rfind_from c s' (i + 1) (if Ascii.eqb d c then i else acc)
  end.

Definition rfind (c : ascii) (s : string) : Z := rfind_from c s 0 (-1).

(** the slices [s[:i]], [s[i:]] and [s[i:j]] for indices [0 <= i <= j] *)
Definition slice_to (s : string) (i : Z) : string :=
  String.substring 0 (Z.to_nat i) s.

Definition slice_from (s : string) (i : Z) : string :=
  String.substring (Z.to_nat i) (String.length s - Z.to_nat i) s.

Definition slice (s : string) (i j : Z) : string :=
  String.substring (Z.to_nat i) (Z.to_nat j - Z.to_nat i) s.

(** every character of [s] is [c] (the test [s == c * len(s)]) *)
Fixpoint all_char (c : ascii) (s : string) : bool :=
  match s with
  | EmptyString => true
  | String d s' => Ascii.eqb d c && all_char c s'
  end.

(** [str(n)] for an [int] *)
Definition str (n : Z) : string := NilZero.string_of_int (Z.to_int n).

(** [re.sub(r"\s+", "", s)]: every whitespace character is dropped. *)
Fixpoint remove_spaces (s : string) : string :=
  match s with
  | EmptyString => EmptyString
  | String c s' => if is_space c then remove_spaces s' else String c (remove_spaces s')
  end.

(** [re.sub(r"-", "_", s)] *)
Fixpoint dash_to_underscore (s : string) : string :=
  match s with
  | EmptyString => EmptyString
  | String c s' =>
      String (if Ascii.eqb c "-" then "_"%char else c) (dash_to_underscore s')
  end.

(** [re.split("\s+", s)]: the pieces between the maximal runs of
    whitespace; a leading or trailing run leaves an empty piece.
    [in_run] tells that the previous character was whitespace, [cur] is the
    piece being read. *)
Fixpoint re_split_from (in_run : bool) (cur : string) (s : string) : list string :=
  match s with
  | EmptyString => [cur]
  | String c s' =>
      if is_space c then
        if in_run then re_split_from true cur s'
        else cur :: re_split_from true EmptyString s'
      else re_split_from false (cur +:+ String c EmptyString) s'
  end.

Definition re_split_spaces (s : string) : list string :=
  re_split_from false EmptyString s.

(** [str.splitlines()]: a line ends at LF, CR, CR LF, VT, FF, FS, GS, RS or
    NEL; the terminators are dropped and a final terminator opens no further
    line.  [cur] is the line being read, [pending] tells that it has begun. *)
Definition is_linebreak (c : ascii) : bool :=
  let n := N_of_ascii c in
  ((10 <=? n) && (n <=? 13) || (28 <=? n) && (n <=? 30) || (n =? 133))%N.

Fixpoint splitlines_from (cur : string) (pending : bool) (s : string) : list string :=
  match s with
  | EmptyString => if pending then [cur] else []
  | String c s' =>
      if Ascii.eqb c "013" then
        match s' with
        | String "010" s'' => cur :: splitlines_from EmptyString false s''
        | _ => cur :: splitlines_from EmptyString false s'
        end
      else if is_linebreak c then cur :: splitlines_from EmptyString false s'
      else splitlines_from (cur +:+ String c EmptyString) true s'
  end.

Definition splitlines (s : string) : list string :=
  splitlines_from EmptyString false s.

(** The number of lines a text file yields when iterated in text mode
    (universal newlines: a line ends at LF, CR or CR LF). *)
Fixpoint count_lines_from (pending : bool) (s : string) : Z :=
  match s with
  | EmptyString => if pending then 1 else 0
  | String c s' =>
      if Ascii.eqb c "010" then 1 + count_lines_from false s'
      else if Ascii.eqb c "013" then
        match s' with
        | String "010" s'' => 1 + count_lines_from false s''
        | _ => 1 + count_lines_from false s'
        end
      else count_lines_from true s'
  end.

Definition count_lines (s : string) : Z := count_lines_from false s.

(** [range(1, n + 1)] *)
Definition range1 (n : Z) : list Z :=
  map Z.of_nat (seq 1 (Z.to_nat n)).

(** [" ".join(l)] *)
Fixpoint join_spaces (l : list string) : string :=
  match l with
  | [] => EmptyString
  | [x] => x
  | x :: l' => x +:+ " " +:+ join_spaces l'
  end.

End Py.

(** ** [os.path] on POSIX *)

Module PosixPath.

(** [os.path.dirname(p)] *)
Definition dirname (p : string) : string :=
  let i := Py.rfind "/" p + 1 in
  let head := Py.slice_to p i in
  if negb (String.eqb head EmptyString) && negb (Py.all_char "/" head)
  then Py.rstrip_char "/" head
  else head.

(** [os.path.basename(p)] *)
Definition basename (p : string) : string :=
  let i := Py.rfind "/" p + 1 in
  Py.slice_from p i.

(** [os.path.splitext(p)[0]]: the extension starts at the last dot of the
    last component, unless only dots precede it there. *)
Definition splitext_root (p : string) : string :=
  let sepIndex := Py.rfind "/" p in
  let dotIndex := Py.rfind "." p in
  if sepIndex <? dotIndex then
    if Py.all_char "." (Py.slice p (sepIndex + 1) dotIndex) then p
    else Py.slice_to p dotIndex
  else p.

End PosixPath.

(** ** [PBStarter.create_tokens_from_filepath] and [generate_output_filename] *)

Definition create_tokens_from_filepath (filepath : string) : string * string * string :=
  let dirbase := PosixPath.dirname filepath in
  let filename := PosixPath.basename filepath in
  let basename := PosixPath.splitext_root filename in
  (dirbase, filename, basename).

Definition generate_output_filename
    (filepath pb_args : string) (processes chain_nr : Z) : string :=
  let '(dirbase, filename, basename) := create_tokens_from_filepath filepath in
  let pb_postfix := Py.dash_to_underscore (Py.remove_spaces pb_args) in
  let base := basename +:+ pb_postfix +:+ "_" +:+ Py.str processes in
  let return_path :=
    if negb (String.eqb dirbase EmptyString) then dirbase +:+ "/" +:+ base
    else base in
  if chain_nr =? 0 then return_path
  else return_path +:+ "_chain" +:+ Py.str chain_nr.

(** ** [shlex.split] *)

(** [shlex.split(s)] as the script calls it: POSIX mode, [whitespace_split]
    set, no comment characters.  The lexer of [shlex.read_token] is followed
    character by character; [None] stands for the [ValueError] it raises
    when the string ends inside a quotation ([No closing quotation]) or
    right after a backslash ([No escaped character]). *)
Module Shlex.

Definition squote : ascii := ascii_of_N 39.
Definition dquote : ascii := ascii_of_N 34.
Definition backslash : ascii := ascii_of_N 92.

(** [shlex.whitespace]: space, tab, carriage return, line feed. *)
Definition is_whitespace (c : ascii) : bool :=
  let n := N_of_ascii c in
  ((n =? 32) || (n =? 9) || (n =? 13) || (n =? 10))%N.

(** [shlex.quotes] *)
Definition is_quote (c : ascii) : bool := Ascii.eqb c squote || Ascii.eqb c dquote.

(** [shlex.escape] *)
Definition is_escape (c : ascii) : bool := Ascii.eqb c backslash.

(** [shlex.escapedquotes]: the quotes inside which a backslash escapes. *)
Definition is_escapedquote (c : ascii) : bool := Ascii.eqb c dquote.

(** The lexer's [state]: [' '] between words, ['a'] inside a word, a quote
    character inside a quotation, the escape character right after a
    backslash (with [escapedstate], the state to come back to: ['a'], here
    [None], or the quote of the enclosing quotation). *)
Inductive lexer_state : Set :=
  | Between
  | InWord
  | Quoted (q : ascii)
  | Escaped (escapedstate : option ascii).

(** The words read from [s] on, [token] being the word read so far. *)
Fixpoint read (state : lexer_state) (token : string) (s : string)
    : option (list string) :=
  match s with
  | EmptyString =>
      match state with
      | Between => Some []
      | InWord => Some [token]
      | Quoted _ => None
      | Escaped _ => None
      end
  | String nextchar s' =>
      match state with
      | Between =>
          if is_whitespace nextchar then read Between EmptyString s'
          else if is_escape nextchar then read (Escaped None) EmptyString s'
          else if is_quote nextchar then read (Quoted nextchar) EmptyString s'
          else read InWord (String nextchar EmptyString) s'
      | InWord =>
          if is_whitespace nextchar then cons token <$> read Between EmptyString s'
          else if is_quote nextchar then read (Quoted nextchar) token s'
          else if is_escape nextchar then read (Escaped None) token s'
          else read InWord (token +:+ String nextchar EmptyString) s'
      | Quoted q =>
          if Ascii.eqb nextchar q then read InWord token s'
          else if is_escape nextchar && is_escapedquote q
          then read (Escaped (Some q)) token s'
          else read (Quoted q) (token +:+ String nextchar EmptyString) s'
      | Escaped None =>
          read InWord (token +:+ String nextchar EmptyString) s'
      | Escaped (Some q) =>
          let token :=
            if negb (is_escape nextchar) && negb (Ascii.eqb nextchar q)
            then token +:+ String backslash EmptyString else token in
          read (Quoted q) (token +:+ String nextchar EmptyString) s'
      end
  end.

Definition split (s : string) : option (list string) := read Between EmptyString s.

(** The command line can be split into arguments. *)
Definition splits (cmd : string) : Prop := is_Some (split cmd).

(** The states the lexer can be in: a quotation is opened by a quote. *)
Definition reachable (state : lexer_state) : bool :=
  match state with
  | Quoted q | Escaped (Some q) => is_quote q
  | Between | InWord | Escaped None => true
  end.

(** The string holds neither a quote nor a backslash. *)
Fixpoint plain (s : string) : bool :=
  match s with
  | EmptyString => true
  | String c s' => negb (is_quote c) && negb (is_escape c) && plain s'
  end.

End Shlex.

(** ** Python exceptions, [sys.exit] and the governor's monad *)

(** The exceptions the script can raise in the modelled fragment; none of
    them is caught anywhere in the script. *)
Inductive exn : Set :=
  | TypeError | ValueError | IndexError | FileNotFoundError | ZeroDivisionError.

(** How a call ends: it returns, the process exits through [sys.exit(code)],
    an exception propagates, or the model's loop budget ran out
    ([start_pb_jobs_never_out_of_fuel] shows the last never happens). *)
Inductive outcome (A : Type) : Type :=
  | Ret (a : A)
  | Exit (code : Z)
  | Raise (e : exn)
  | OutOfFuel.
Arguments Ret {A} a.
Arguments Exit {A} code.
Arguments Raise {A} e.
Arguments OutOfFuel {A}.

Definition outcome_bind {A B} (f : A -> outcome B) (o : outcome A) : outcome B :=
  match o with
  | Ret a => f a
  | Exit c => Exit c
  | Raise e => Raise e
  | OutOfFuel => OutOfFuel
  end.

#[export] Instance outcome_ret : MRet outcome := @Ret.
#[export] Instance outcome_mbind : MBind outcome := @outcome_bind.

(** What the script has done so far: [clock] counts the seconds slept with
    [time.sleep(1)], [issued] lists the shell commands handed to
    [os.system], oldest first. *)
Record state : Type := mkState { clock : nat; issued : list string }.

(** The outside world as one call of a method finds it, read but not
    changed by the script: the environment variables, the files (path to
    content) at the time of the call, and the standard output of an
    external command ([subprocess.Popen(...).communicate()]) run at a given
    second.  [main] below gives every poll cycle files of its own. *)
Record world : Type := mkWorld {
  environ : gmap string string;
  files : gmap string string;
  proc_stdout : nat -> string -> string
}.

Definition M (A : Type) : Type := state -> outcome A * state.

Definition M_bind {A B} (f : A -> M B) (m : M A) : M B :=
  fun s =>
    match m s with
    | (Ret a, s') => f a s'
    | (Exit c, s') => (Exit c, s')
    | (Raise e, s') => (Raise e, s')
    | (OutOfFuel, s') => (OutOfFuel, s')
    end.

#[export] Instance M_ret : MRet M := fun A a s => (Ret a, s).
#[export] Instance M_mbind : MBind M := @M_bind.

Definition lift {A} (o : outcome A) : M A := fun s => (o, s).
Definition sys_exit {A} (code : Z) : M A := lift (Exit code).
Definition raise {A} (e : exn) : M A := lift (Raise e).

(** [os.system(cmd)] *)
Definition os_system (cmd : string) : M unit :=
  fun s => (Ret tt, mkState (clock s) (issued s ++ [cmd])).

(** [time.sleep(1)] *)
Definition sleep_1 : M unit :=
  fun s => (Ret tt, mkState (S (clock s)) (issued s)).

(** [subprocess.Popen(shlex.split(cmd), ...).communicate()[0]]:
    [shlex.split] raises [ValueError] on a command line that cannot be
    split, before any process is started; otherwise the result is what the
    command prints at the current second.  The world is asked with the
    command line as the script wrote it. *)
Definition popen (w : world) (cmd : string) : M string :=
  match Shlex.split cmd with
  | Some _ => fun s => (Ret (proc_stdout w (clock s) cmd), s)
  | None => raise ValueError
  end.

(** [os.path.exists(path)] *)
Definition path_exists (w : world) (path : string) : bool :=
  bool_decide (is_Some (files w !! path)).

(** [open(path)]: the content, or [FileNotFoundError]. *)
Definition open (w : world) (path : string) : M string :=
  match files w !! path with
  | Some content => mret content
  | None => raise FileNotFoundError
  end.

(** [for x in l: body(acc, x)], threading the loop's variables [acc]. *)
Fixpoint for_loop {A B} (l : list A) (body : B -> A -> M B) (acc : B) : M B :=
  match l with
  | [] => mret acc
  | x :: l' => acc' ← body acc x; for_loop l' body acc'
  end.

(** The same for a loop body that only parses. *)
Fixpoint for_pure {A B} (l : list A) (body : B -> A -> outcome B) (acc : B) : outcome B :=
  match l with
  | [] => Ret acc
  | x :: l' => acc' ← body acc x; for_pure l' body acc'
  end.

(** [l[i]] with Python's negative indices. *)
Definition py_index {A} (l : list A) (i : Z) : outcome A :=
  let n := Z.of_nat (length l) in
  let j := if i <? 0 then i + n else i in
  if (0 <=? j) && (j <? n) then
    match l !! Z.to_nat j with
    | Some x => Ret x
    | None => Raise IndexError
    end
  else Raise IndexError.

(** [min(l)] *)
Definition py_min (l : list Z) : outcome Z :=
  match l with
  | [] => Raise ValueError
  | x :: l' => Ret (fold_left Z.min l' x)
  end.

(** ** Python's [float] and [int] on strings *)

(** The script uses [float(s)] and the comparisons [<=] and [>=] of floats.
    [float_of_str s = None] stands for the [ValueError] that [float(s)]
    raises; [a >= b] is [float_le b a]. *)
Class PyFloat : Type := {
  float_t : Type;
  float_of_str : string -> option float_t;
  float_le : float_t -> float_t -> bool
}.

Definition py_float `{PyFloat} (s : string) : outcome float_t :=
  match float_of_str s with
  | Some x => Ret x
  | None => Raise ValueError
  end.

Module Numeral.

Definition digit_of (c : ascii) : option Z :=
  let n := N_of_ascii c in
  if ((48 <=? n) && (n <=? 57))%N then Some (Z.of_N n - 48) else None.

(** Reads a run of decimal digits in which single underscores may separate
    digits; returns the value read onto [acc], the number of digits and the
    rest of the string. *)
Fixpoint read_digits (acc cnt : Z) (s : string) : Z * Z * string :=
  match s with
  | EmptyString => (acc, cnt, s)
  | String c s' =>
      match digit_of c with
      | Some d => read_digits (10 * acc + d) (cnt + 1) s'
      | None =>
          if Ascii.eqb c "_" && (0 <? cnt) then
            match s' with
            | String c' _ =>
                if bool_decide (is_Some (digit_of c')) then read_digits acc cnt s'
                else (acc, cnt, s)
            | EmptyString => (acc, cnt, s)
            end
          else (acc, cnt, s)
      end
  end.

(** An optional sign: [true] for a minus. *)
Definition read_sign (s : string) : bool * string :=
  match s with
  | String "-" s' => (true, s')
  | String "+" s' => (false, s')
  | _ => (false, s)
  end.

(** The white space that [int] and [float] skip around a numeral: the
    ASCII white space of C ([\t], [\n], [\v], [\f], [\r] and the
    space), and the white space beyond ASCII (here U+0085 and U+00A0), which
    both turn into a space before they parse.  The separators U+001C to
    U+001F, which [str.strip] removes, are not skipped. *)
Definition is_space (c : ascii) : bool :=
  let n := N_of_ascii c in
  (((9 <=? n) && (n <=? 13)) || (n =? 32) || (n =? 133) || (n =? 160))%N.

Fixpoint rstrip (s : string) : string :=
  match s with
  | EmptyString => EmptyString
  | String c s' =>
      match rstrip s' with
      | EmptyString => if is_space c then EmptyString else String c EmptyString
      | r => String c r
      end
  end.

Fixpoint lstrip (s : string) : string :=
  match s with
  | EmptyString => EmptyString
  | String c s' => if is_space c then lstrip s' else s
  end.

Definition strip (s : string) : string := rstrip (lstrip s).

(** [sys.get_int_max_str_digits()]: CPython (3.11, and the later releases
    of 3.7 to 3.10) refuses to convert a string of more digits. *)
Definition int_max_str_digits : Z := 4300.

(** [int(s)] in base 10; [None] stands for [ValueError]. *)
Definition int_of_str (s : string) : option Z :=
  let '(neg, r) := read_sign (strip s) in
  let '(v, cnt, rest) := read_digits 0 0 r in
  if (0 <? cnt) && (cnt <=? int_max_str_digits) && String.eqb rest EmptyString
  then Some (if neg then - v else v) else None.

(** A decimal numeral [digits [. digits] [e [sign] digits]] as the pair
    (m, e) that stands for m * 10^e. *)
Definition read_decimal (s : string) : option (Z * Z) :=
  let '(ip, ic, r1) := read_digits 0 0 s in
  let '(m, fc, r2) :=
    match r1 with
    | String "." r => read_digits ip 0 r
    | _ => (ip, 0, r1)
    end in
  if ic + fc =? 0 then None
  else
    match r2 with
    | EmptyString => Some (m, - fc)
    | String c r3 =>
        if Ascii.eqb c "e" || Ascii.eqb c "E" then
          let '(eneg, r4) := read_sign r3 in
          let '(ev, ec, r5) := read_digits 0 0 r4 in
          if (0 <? ec) && String.eqb r5 EmptyString
          then Some (m, (if eneg then - ev else ev) - fc) else None
        else None
    end.

Definition lower (c : ascii) : ascii :=
  let n := N_of_ascii c in
  if ((65 <=? n) && (n <=? 90))%N then ascii_of_N (n + 32) else c.

Fixpoint lowercase (s : string) : string :=
  match s with
  | EmptyString => EmptyString
  | String c s' => String (lower c) (lowercase s')
  end.

End Numeral.

(** IEEE 754 binary64, as CPython's [float]: [float(s)] is the double
    nearest to the decimal numeral (ties to even), [<=] is the IEEE
    comparison (false on NaN). *)
Module Binary64.

Import SpecFloat.

Definition prec : Z := 53.
Definition emax : Z := 1024.

(** The double nearest to (-1)^neg * m * 10^e. *)
Definition of_decimal (neg : bool) (m e : Z) : spec_float :=
  match m with
  | Zpos p =>
      if 0 <=? e then binary_round prec emax neg (p * Z.to_pos (10 ^ e)) 0
      else SFdiv prec emax (S754_finite neg p 0)
                           (S754_finite false (Z.to_pos (10 ^ (- e))) 0)
  | _ => S754_zero neg
  end.

Definition of_str (s : string) : option spec_float :=
  let '(neg, r) := Numeral.read_sign (Numeral.strip s) in
  let word := Numeral.lowercase r in
  if String.eqb word "inf" || String.eqb word "infinity" then Some (S754_infinity neg)
  else if String.eqb word "nan" then Some S754_nan
  else
    match Numeral.read_decimal r with
    | Some (m, e) => Some (of_decimal neg m e)
    | None => None
    end.

Definition leb : spec_float -> spec_float -> bool := SFleb.

#[export] Instance py_float64 : PyFloat :=
  {| float_t := spec_float; float_of_str := of_str; float_le := leb |}.

End Binary64.

(** ** The [PBStarter] object *)

(** The attributes of [PBStarter] that [main] sets from the command line. *)
Record PBStarter `{PyFloat} : Type := mkPBStarter {
  BPCOMP_MAXDIFF : float_t;
  TRCOMP_EFFSIZE : float_t;
  TRCOMP_RELDIFF : float_t;
  MAX_SAMPLE_SIZE : Z;
  MIN_SAMPLE_SIZE : Z
}.

(** The scheduler job identifier, as both methods compute it:
    [SLURM_JOB_ID], replaced by the array job and task identifiers joined
    with an underscore when [SLURM_ARRAY_JOB_ID] is set. *)
Definition get_slurm_job_id (w : world) : outcome (option string) :=
  let slurm_job_id := environ w !! "SLURM_JOB_ID" in
  match environ w !! "SLURM_ARRAY_JOB_ID" with
  | Some array_job =>
      match environ w !! "SLURM_ARRAY_TASK_ID" with
      | Some array_task => Ret (Some (array_job +:+ "_" +:+ array_task))
      | None => Raise TypeError
      end
  | None => Ret slurm_job_id
  end.

(** The test [not slurm_job_id is None and slurm_job_id != "_"]: the
    identifier under which the script talks to the scheduler, if any. *)
Definition scheduler_id (slurm_job_id : option string) : option string :=
  match slurm_job_id with
  | Some id => if String.eqb id "_" then None else Some id
  | None => None
  end.

(** No scheduler identifier is present: the script runs the chains and the
    poll cycle without asking [sacct]. *)
Definition no_scheduler (w : world) : Prop :=
  exists slurm_job_id,
    get_slurm_job_id w = Ret slurm_job_id /\ scheduler_id slurm_job_id = None.

(** The first line of a command's output, [""] when there is none. *)
Definition first_line_of (out : string) : string :=
  match Py.splitlines out with
  | [] => EmptyString
  | l :: _ => l
  end.

Definition sacct_command (subtask_id : string) : string :=
  "sacct -n -j " +:+ subtask_id.

Definition subtask_id_of (slurm_job_id : string) (i : Z) : string :=
  slurm_job_id +:+ "." +:+ Py.str (i - 1).

(** ** [PBStarter.start_pb_jobs] *)

Definition pb_command (processes : Z) : string :=
  ("pb" +:+ (if 1 <? processes then "_mpi" else "")) +:+ " ".

Definition srun_prefix (processes : Z) (pb_out_filename : string) : string :=
  "srun --cpu_bind=v,threads -c 1 -n " +:+ Py.str processes +:+ " -o "
    +:+ pb_out_filename +:+ ".out ".

(** The command of line 110: the sampler is run on the output prefix alone. *)
Definition resume_command (processes : Z) (pb_out_filename : string) : string :=
  srun_prefix processes pb_out_filename +:+ pb_command processes
    +:+ pb_out_filename +:+ " &".

(** The command of line 112: arguments, [-d] alignment, output prefix. *)
Definition fresh_command (infile pb_args : string) (processes : Z)
    (pb_out_filename : string) : string :=
  srun_prefix processes pb_out_filename +:+ pb_command processes
    +:+ pb_args +:+ " -d " +:+ infile +:+ " " +:+ pb_out_filename +:+ " &".

(** The loop [while srun_started == False] of lines 121-149.  Each round
    sleeps a second, asks [sacct] and counts the round in [waited]; the
    recursion is on [fuel], of which [S max_wait] is enough. *)
Fixpoint wait_for_srun (fuel : nat) (w : world) (subtask_id : string)
    (max_wait waited : Z) : M unit :=
  match fuel with
  | O => lift OutOfFuel
  | S fuel' =>
      sleep_1;;
      srun_proc_out ← popen w (sacct_command subtask_id);
      let waited := waited + 1 in
      let first_line := first_line_of srun_proc_out in
      if negb (Nat.eqb (String.length (Py.rstrip first_line)) 0) then mret tt
      else if max_wait <? waited then sys_exit 3
      else wait_for_srun fuel' w subtask_id max_wait waited
  end.

(** One round of the loop over the chains (lines 100-149). *)
Definition start_chain (w : world) (infile pb_args : string) (processes : Z)
    (_ : unit) (i : Z) : M unit :=
  let pb_out_filename := generate_output_filename infile pb_args processes i in
  (if path_exists w (pb_out_filename +:+ ".trace")
   then os_system (resume_command processes pb_out_filename)
   else os_system (fresh_command infile pb_args processes pb_out_filename));;
  slurm_job_id ← lift (get_slurm_job_id w);
  let max_wait := 60 in
  let waited := 0 in
  match scheduler_id slurm_job_id with
  | Some id =>
      wait_for_srun (S (Z.to_nat max_wait)) w (subtask_id_of id i) max_wait waited
  | None => mret tt
  end.

Definition start_pb_jobs (w : world) (infile pb_args : string)
    (chains processes : Z) : M unit :=
  for_loop (Py.range1 chains) (start_chain w infile pb_args processes) tt.

(** What C5 expects of the command [cmd] issued for chain [i]: it is the
    resume command exactly when the chain's [.trace] file exists, and the
    fresh-start command exactly when it does not. *)
Definition launches_as_expected (w : world) (infile pb_args : string)
    (processes i : Z) (cmd : string) : Prop :=
  let pb_out_filename := generate_output_filename infile pb_args processes i in
  (cmd = resume_command processes pb_out_filename
   <-> is_Some (files w !! (pb_out_filename +:+ ".trace")))
  /\ (cmd = fresh_command infile pb_args processes pb_out_filename
      <-> files w !! (pb_out_filename +:+ ".trace") = None).

(** ** [PBStarter.check_convergence] *)

Section CheckConvergence.

Context `{PyFloat}.
Variable w : world.
Variable self : PBStarter.
Variables infile pb_args : string.
Variables chains processes : Z.

(** The test of line 184 on the first line of [sacct]'s answer. *)
Definition chain_is_running (first_line : string) : bool :=
  negb (Nat.eqb (String.length (Py.rstrip first_line)) 0)
  && Py.contains "RUNNING" first_line.

(** Lines 163-196: under a scheduler every chain must be running, or the
    process exits with code 4. *)
Definition check_chains_running : M unit :=
  slurm_job_id ← lift (get_slurm_job_id w);
  match scheduler_id slurm_job_id with
  | Some id =>
      every_chain_is_running ←
        for_loop (Py.range1 chains)
          (fun every_chain_is_running i =>
             srun_proc_out ← popen w (sacct_command (subtask_id_of id i));
             let first_line := first_line_of srun_proc_out in
             if chain_is_running first_line then mret every_chain_is_running
             else mret false)
          true;
      if negb every_chain_is_running then sys_exit 4 else mret tt
  | None => mret tt
  end.

Definition stoppb_command (i : Z) : string :=
  "stoppb " +:+ generate_output_filename infile pb_args processes i.

Definition trace_file (i : Z) : string :=
  generate_output_filename infile pb_args processes i +:+ ".trace".

(** Lines 200-206: the number of lines of each chain's [.trace] file is
    appended to [num_samples]; a chain over [MAX_SAMPLE_SIZE] is sent
    [stoppb].  [count_round] is one round of the loop. *)
Definition count_round (num_samples : list Z) (i : Z) : M (list Z) :=
  trace ← open w (trace_file i);
  let num_samples := num_samples ++ [Py.count_lines trace] in
  n ← lift (py_index num_samples (i - 1));
  (if MAX_SAMPLE_SIZE self <? n then os_system (stoppb_command i) else mret tt);;
  mret num_samples.

Definition count_samples : M (list Z) :=
  for_loop (Py.range1 chains) count_round [].

(** The output prefixes of all chains, joined with spaces. *)
Definition chain_names : string :=
  Py.join_spaces
    (map (generate_output_filename infile pb_args processes) (Py.range1 chains)).

Definition diagnostic_command (tool : string) (burnin : Z) : string :=
  tool +:+ " -o " +:+ generate_output_filename infile pb_args processes 0
    +:+ "." +:+ tool +:+ " -x " +:+ Py.str burnin +:+ " " +:+ chain_names.

(** The body of the loop over [bpcomp]'s lines (lines 232-240). *)
Definition bpcomp_line (bp_res : Z) (line : string) : outcome Z :=
  if Py.startswith line "maxdiff" then
    let fields := Py.re_split_spaces (Py.rstrip line) in
    last_field ← py_index fields (-1);
    maxdiff ← py_float last_field;
    if float_le maxdiff (BPCOMP_MAXDIFF self) then Ret 1 else Ret bp_res
  else Ret bp_res.

(** The body of the loop over [tracecomp]'s lines (lines 253-270), on the
    pair [(tr_res, tr_line_number)]. *)
Definition tracecomp_line (acc : Z * Z) (line : string) : outcome (Z * Z) :=
  let '(tr_res, tr_line_number) := acc in
  let fields := Py.re_split_spaces (Py.rstrip line) in
  if (1 <? length fields)%nat then
    name ← py_index fields 0;
    if String.eqb name "name" then Ret acc
    else
      let tr_line_number := tr_line_number + 1 in
      field1 ← py_index fields 1;
      effsize ← py_float field1;
      let tr_res := if float_le (TRCOMP_EFFSIZE self) effsize then tr_res + 1 else tr_res in
      field2 ← py_index fields 2;
      reldiff ← py_float field2;
      let tr_res := if float_le reldiff (TRCOMP_RELDIFF self) then tr_res + 1 else tr_res in
      Ret (tr_res, tr_line_number)
  else Ret acc.

(** Lines 275-279: stop every chain and leave with code 0. *)
Definition stop_all_and_exit : M unit :=
  for_loop (Py.range1 chains) (fun _ i => os_system (stoppb_command i)) tt;;
  sys_exit 0.

(** Lines 212-281, entered when [min_samples >= MIN_SAMPLE_SIZE].  The
    burn-in [int(float(min_samples) / 4.0)] is the quotient truncated
    towards zero (exact for every count below 2^53). *)
Definition evaluate_diagnostics (min_samples : Z) : M unit :=
  let burnin := Z.quot min_samples 4 in
  bp_proc_out ← popen w (diagnostic_command "bpcomp" burnin);
  let bp_res := 0 in
  let tr_res := 0 in
  let tr_line_number := 0 in
  let lines := Py.splitlines bp_proc_out in
  bp_res ← lift (for_pure lines bpcomp_line bp_res);
  trc_proc_out ← popen w (diagnostic_command "tracecomp" burnin);
  let t_lines := Py.splitlines trc_proc_out in
  tr ← lift (for_pure t_lines tracecomp_line (tr_res, tr_line_number));
  let '(tr_res, tr_line_number) := tr in
  if (bp_res =? 1) && (tr_res =? tr_line_number) then stop_all_and_exit
  else mret tt.

(** Lines 286-296: without enough samples, leave with code 0 unless some
    chain's [.run] file reads ["1"]. *)
Definition check_run_flags : M unit :=
  all_running ←
    for_loop (Py.range1 chains)
      (fun all_running i =>
         pb_chain_run ← open w (generate_output_filename infile pb_args processes i +:+ ".run");
         if String.eqb pb_chain_run "1" then mret true else mret all_running)
      false;
  if negb all_running then sys_exit 0 else mret tt.

Definition check_convergence : M unit :=
  check_chains_running;;
  num_samples ← count_samples;
  min_samples ← lift (py_min num_samples);
  if MIN_SAMPLE_SIZE self <=? min_samples then evaluate_diagnostics min_samples
  else if MAX_SAMPLE_SIZE self <=? min_samples then sys_exit 0
  else check_run_flags.

End CheckConvergence.

(** ** The vocabulary of the statements about a poll cycle *)

(** The fields the script reads on a line of a report. *)
Definition fields_of (line : string) : list string :=
  Py.re_split_spaces (Py.rstrip line).

(** The line is read as a parameter row: it has at least two fields and
    its first field is not [name]. *)
Definition is_parameter_row (line : string) : bool :=
  (1 <? length (fields_of line))%nat
  && negb (String.eqb (hd EmptyString (fields_of line)) "name").

Section Reports.

Context `{PyFloat}.
Variable self : PBStarter.

(** The two checks of a row, when its second and third fields are numbers:
    effective size at least [TRCOMP_EFFSIZE], relative difference at most
    [TRCOMP_RELDIFF]. *)
Definition row_checks (line : string) : option (bool * bool) :=
  match fields_of line with
  | _ :: field1 :: field2 :: _ =>
      match float_of_str field1, float_of_str field2 with
      | Some effsize, Some reldiff =>
          Some (float_le (TRCOMP_EFFSIZE self) effsize,
                float_le reldiff (TRCOMP_RELDIFF self))
      | _, _ => None
      end
  | _ => None
  end.

(** A parameter row whose effective size is not a number, or whose relative
    difference is missing or not a number. *)
Definition malformed_row (line : string) : Prop :=
  is_parameter_row line = true /\ row_checks line = None.

(** A [maxdiff] line whose last field is not a number. *)
Definition malformed_maxdiff (line : string) : Prop :=
  Py.startswith line "maxdiff" = true
  /\ float_of_str (List.last (fields_of line) EmptyString) = None.

(** A [maxdiff] line whose value is within [BPCOMP_MAXDIFF]. *)
Definition passing_maxdiff (line : string) : Prop :=
  Py.startswith line "maxdiff" = true
  /\ exists maxdiff,
       float_of_str (List.last (fields_of line) EmptyString) = Some maxdiff
       /\ float_le maxdiff (BPCOMP_MAXDIFF self) = true.

(** The number of parameter rows among the lines, and the number of checks
    they pass (0, 1 or 2 for each row). *)
Definition rows_of (lines : list string) : Z :=
  fold_right (fun line n => Z.b2z (is_parameter_row line) + n) 0 lines.

Definition checks_passed (line : string) : Z :=
  if is_parameter_row line then
    match row_checks line with
    | Some (effsize_ok, reldiff_ok) => Z.b2z effsize_ok + Z.b2z reldiff_ok
    | None => 0
    end
  else 0.

Definition passes_of (lines : list string) : Z :=
  fold_right (fun line n => checks_passed line + n) 0 lines.

Variable w : world.
Variables infile pb_args : string.
Variables chains processes : Z.

(** The lines [bpcomp] and [tracecomp] print at second [t] for the burn-in
    computed from [min_samples]. *)
Definition bpcomp_lines (min_samples : Z) (t : nat) : list string :=
  Py.splitlines
    (proc_stdout w t
       (diagnostic_command infile pb_args chains processes "bpcomp"
          (Z.quot min_samples 4))).

Definition tracecomp_lines (min_samples : Z) (t : nat) : list string :=
  Py.splitlines
    (proc_stdout w t
       (diagnostic_command infile pb_args chains processes "tracecomp"
          (Z.quot min_samples 4))).

(** Both diagnostic command lines of the cycle can be split into arguments:
    neither ends inside a quotation or right after a backslash.  Without
    that [shlex.split] raises and the tool is not run. *)
Definition diagnostics_split (min_samples : Z) : Prop :=
  Shlex.splits
    (diagnostic_command infile pb_args chains processes "bpcomp" (Z.quot min_samples 4))
  /\ Shlex.splits
       (diagnostic_command infile pb_args chains processes "tracecomp"
          (Z.quot min_samples 4)).

(** The cycle started in [st] passes the liveness check and counts at least
    [MIN_SAMPLE_SIZE] samples in every chain, [min_samples] in the shortest;
    it enters the evaluation in state [st2]. *)
Definition reaches_evaluation (st st2 : state) (min_samples : Z) : Prop :=
  exists st1 num_samples,
    check_chains_running w chains st = (Ret tt, st1)
    /\ count_samples w self infile pb_args chains processes st1 = (Ret num_samples, st2)
    /\ py_min num_samples = Ret min_samples
    /\ MIN_SAMPLE_SIZE self <= min_samples.

(** The state after [stoppb] has been issued for every chain. *)
Definition all_stopped (st : state) : state :=
  mkState (clock st)
    (issued st ++ map (stoppb_command infile pb_args processes) (Py.range1 chains)).

End Reports.

(** The first line of [sacct]'s answer for chain [i] at second [t]. *)
Definition status_line (w : world) (id : string) (t : nat) (i : Z) : string :=
  first_line_of (proc_stdout w t (sacct_command (subtask_id_of id i))).

(** The standard output of [sacct] for a subtask at second [t] has a blank
    first line (or no line at all). *)
Definition no_status (w : world) (subtask_id : string) (t : nat) : Prop :=
  String.length
    (Py.rstrip (first_line_of (proc_stdout w t (sacct_command subtask_id)))) = 0%nat.

(** ** [main]: the process count under a scheduler *)

(** Lines 397-400.  [int(int(slurm_ntasks) / chains)] divides as floats and
    truncates; for operands below 2^53 in absolute value that is the integer
    quotient truncated towards zero. *)
Definition adjust_processes (w : world) (chains processes : Z) : outcome Z :=
  match environ w !! "SLURM_NTASKS" with
  | Some slurm_ntasks =>
      match Numeral.int_of_str slurm_ntasks with
      | Some ntasks =>
          if negb (processes =? chains * ntasks) then
            if chains =? 0 then Raise ZeroDivisionError
            else Ret (Z.quot ntasks chains)
          else Ret processes
      | None => Raise ValueError
      end
  | None => Ret processes
  end.


(** ** [main]: launch, then poll for ever *)

(** The parsed command line ([args] of line 373); parsing itself, done by
    [argparse], is not modelled. *)
Record arguments `{PyFloat} : Type := mkArguments {
  arg_input : string;
  arg_pb_args : string;
  arg_chains : Z;
  arg_processes : Z;
  arg_max_diff_bpcomp : float_t;
  arg_effective_size_tracecomp : float_t;
  arg_relative_diff_tracecomp : float_t;
  arg_max_sample_size : Z;
  arg_min_sample_size : Z;
  arg_sleep_range_min : Z;
  arg_sleep_range_max : Z
}.

(** [random.randint(a, b)], where [drawn] is the number the generator
    yields (some integer of [a..b]); an empty range is a [ValueError]. *)
Definition randint (drawn a b : Z) : outcome Z :=
  if b <? a then Raise ValueError else Ret drawn.

(** [time.sleep(seconds)]; a negative length is a [ValueError]. *)
Definition sleep (seconds : Z) : M unit :=
  if seconds <? 0 then raise ValueError
  else fun s => (Ret tt, mkState (clock s + Z.to_nat seconds) (issued s)).

Section Main.

Context `{PyFloat}.

(** The world at the launch.  The chains go on writing their [.trace] and
    [.run] files while [main] sleeps, so every poll cycle finds files of its
    own: [files_at k] is what the [k]-th cycle finds. *)
Variable w : world.
Variable files_at : nat -> gmap string string.

(** [random k a b] is what the [k]-th call [random.randint(a, b)] draws. *)
Variable random : nat -> Z -> Z -> Z.
Variable args : arguments.

(** The world of the [k]-th poll cycle: the environment of the process and
    the external commands are those of the launch, the files are those the
    cycle finds. *)
Definition cycle_world (k : nat) : world :=
  mkWorld (environ w) (files_at k) (proc_stdout w).

(** Lines 375-391: the attributes of [pb_starter]. *)
Definition pb_starter_of : PBStarter :=
  mkPBStarter _ (arg_max_diff_bpcomp args) (arg_effective_size_tracecomp args)
    (arg_relative_diff_tracecomp args) (arg_max_sample_size args)
    (arg_min_sample_size args).

(** Lines 410-412: [while True].  The loop has no exit of its own; [fuel]
    bounds the number of cycles the model follows, [k] counts them. *)
Fixpoint poll_loop (fuel : nat) (processes : Z) (k : nat) : M unit :=
  match fuel with
  | O => lift OutOfFuel
  | S fuel' =>
      let SLEEP_MIN := arg_sleep_range_min args in
      let SLEEP_MAX := arg_sleep_range_max args in
      seconds ← lift (randint (random k SLEEP_MIN SLEEP_MAX) SLEEP_MIN SLEEP_MAX);
      sleep seconds;;
      check_convergence (cycle_world k) pb_starter_of (arg_input args)
        (arg_pb_args args) (arg_chains args) processes;;
      poll_loop fuel' processes (S k)
  end.

(** Lines 375-412, followed for [fuel] poll cycles. *)
Definition main (fuel : nat) : M unit :=
  processes ← lift (adjust_processes w (arg_chains args) (arg_processes args));
  start_pb_jobs w (arg_input args) (arg_pb_args args) (arg_chains args) processes;;
  poll_loop fuel processes 0.

End Main.

(** ** The vocabulary of the statements about whole runs *)

(** [cmd] stops one of the chains 1..N. *)
Definition is_stop_command (infile pb_args : string) (chains processes : Z)
    (cmd : string) : Prop :=
  exists i, 1 <= i <= chains /\ cmd = stoppb_command infile pb_args processes i.

(** [cmd] launches one of the chains 1..N, afresh or resumed. *)
Definition is_launch_command (infile pb_args : string) (chains processes : Z)
    (cmd : string) : Prop :=
  exists i, 1 <= i <= chains
    /\ (cmd = resume_command processes (generate_output_filename infile pb_args processes i)
        \/ cmd = fresh_command infile pb_args processes
                   (generate_output_filename infile pb_args processes i)).

(** From [st] to [st'] at most [seconds] seconds were slept and only
    commands that satisfy [P] were issued. *)
Definition evolves (P : string -> Prop) (seconds : nat) (st st' : state) : Prop :=
  (clock st <= clock st' <= clock st + seconds)%nat
  /\ exists cmds, issued st' = issued st ++ cmds /\ Forall P cmds.

(** Every run of [m] sleeps at most [seconds] seconds, issues only commands
    that satisfy [P], leaves through [sys.exit] only with a code that
    satisfies [X], and stays within the fuel of the model. *)
Definition bounded_by {A} (P : string -> Prop) (X : Z -> Prop) (seconds : nat)
    (m : M A) : Prop :=
  forall st,
    evolves P seconds st (m st).2
    /\ (forall code, (m st).1 = Exit code -> X code)
    /\ (m st).1 <> OutOfFuel.

(** An outcome that is neither [sys.exit] nor the end of the fuel. *)
Definition stays {A} (o : outcome A) : Prop :=
  (forall code, o <> Exit code) /\ o <> OutOfFuel.

(** The samples counted for chain [i], when its file is there. *)
Definition samples_of (w : world) (infile pb_args : string) (processes i : Z)
    : option Z :=
  Py.count_lines <$> files w !! trace_file infile pb_args processes i.

(** The chains of [l] that are over the sample cap. *)
Definition over_cap (w : world) (infile pb_args : string) (processes cap : Z)
    (l : list Z) : list Z :=
  List.filter (fun i => match samples_of w infile pb_args processes i with
                        | Some n => cap <? n
                        | None => false
                        end) l.

(** The content of the [.run] file of chain [i]. *)
Definition run_flag (w : world) (infile pb_args : string) (processes i : Z)
    : option string :=
  files w !! (generate_output_filename infile pb_args processes i +:+ ".run").

(** The [.run] file of chain [i] reads ["1"]. *)
Definition flag_is_1 (w : world) (infile pb_args : string) (processes i : Z) : bool :=
  match run_flag w infile pb_args processes i with
  | Some content => String.eqb content "1"
  | None => false
  end.

(** The character [c] does not occur in [s]. *)
Definition absent (c : ascii) (s : string) : Prop :=
  ~ In c (list_ascii_of_string s).

(** ** Runs of the script used in the examples *)

Module Scenario.

Import Binary64.

Definition LF : string := String "010" EmptyString.

(** A sample file of [n] rows. *)
Fixpoint sample_rows (n : nat) : string :=
  match n with
  | O => EmptyString
  | S k => "0.5" +:+ LF +:+ sample_rows k
  end.

Definition threshold (s : string) : SpecFloat.spec_float :=
  default SpecFloat.S754_nan (of_str s).

(** The attributes [main] sets when no option is given. *)
Definition defaults : PBStarter :=
  mkPBStarter _ (threshold "0.3") (threshold "50.0") (threshold "0.3") 100000 6667.

Definition st0 : state := mkState 0 [].

(** The alignment [aln.phy] run with ["-cat -gtr"], 2 chains, 1 process:
    the two sample files, each of [n] rows. *)
Definition two_traces (n : nat) : gmap string string :=
  {[ "aln_cat_gtr_1_chain1.trace" := sample_rows n;
     "aln_cat_gtr_1_chain2.trace" := sample_rows n ]}.

(** External commands: [bpcomp] and [tracecomp] print the given reports. *)
Definition diagnostics (bpcomp tracecomp : string) (_ : nat) (cmd : string) : string :=
  if String.prefix "bpcomp " cmd then bpcomp
  else if String.prefix "tracecomp " cmd then tracecomp
  else EmptyString.

Definition header : string := "name      effsize   rel_diff" +:+ LF.

(** Scenario A: 7000 samples per chain, [maxdiff 0.05], two parameter rows
    with effective size 400 and relative difference 0.05. *)
Definition world_A : world :=
  mkWorld ∅ (two_traces 7000)
    (diagnostics ("maxdiff    0.05" +:+ LF)
       (header +:+ "loglik 400 0.05" +:+ LF +:+ "length 400 0.05" +:+ LF)).

(** Every parameter row fails exactly one of its two checks. *)
Definition world_half : world :=
  mkWorld ∅ (two_traces 7000)
    (diagnostics ("maxdiff    0.05" +:+ LF)
       (header +:+ "loglik 40 0.05" +:+ LF +:+ "length 400 0.5" +:+ LF)).

(** Both chains have reached the cap of 100000 samples; the chains have not
    converged ([maxdiff 0.5]). *)
Definition world_cap : world :=
  mkWorld ∅ (two_traces 100000)
    (diagnostics ("maxdiff    0.5" +:+ LF)
       (header +:+ "loglik 400 0.05" +:+ LF +:+ "length 400 0.05" +:+ LF)).

(** The second chain has not written its sample file yet. *)
Definition world_no_trace : world :=
  mkWorld ∅ {[ "aln_cat_gtr_1_chain1.trace" := sample_rows 10 ]} (fun _ _ => EmptyString).

(** [bpcomp] prints a [maxdiff] line without a number. *)
Definition world_bad_maxdiff : world :=
  mkWorld ∅ (two_traces 7000)
    (diagnostics ("maxdiff    n/a" +:+ LF)
       (header +:+ "loglik 400 0.05" +:+ LF)).

(** A parameter row lacks its relative difference. *)
Definition world_short_row : world :=
  mkWorld ∅ (two_traces 7000)
    (diagnostics ("maxdiff    0.05" +:+ LF)
       (header +:+ "loglik 400" +:+ LF)).

(** [tracecomp] prints its header and nothing that reads as a row. *)
Definition world_no_rows : world :=
  mkWorld ∅ (two_traces 7000)
    (diagnostics ("maxdiff    0.05" +:+ LF) (header +:+ LF +:+ "done" +:+ LF)).

(** Under Slurm job 42, [sacct] answers nothing for the first 60 seconds and
    reports the step from second 61 on. *)
Definition world_slow_srun : world :=
  mkWorld {[ "SLURM_JOB_ID" := "42" ]} ∅
    (fun t cmd =>
       if String.prefix "sacct " cmd && (60 <? t)%nat
       then "42.0 pb acct 1 RUNNING 0:0" +:+ LF else EmptyString).

(** Under Slurm job 42, [sacct] never answers. *)
Definition world_no_srun : world :=
  mkWorld {[ "SLURM_JOB_ID" := "42" ]} ∅ (fun _ _ => EmptyString).

(** Under Slurm job 42, the step of the first chain, named [RUNNING_pb], has
    failed. *)
Definition failed_step : string := "42.0 RUNNING_pb acct 1 FAILED 1:0".

Definition world_failed_step : world :=
  mkWorld {[ "SLURM_JOB_ID" := "42" ]} (two_traces 7000)
    (fun _ cmd => if String.prefix "sacct " cmd then failed_step +:+ LF else EmptyString).

(** Under Slurm job 42, the step of every chain is pending. *)
Definition world_pending : world :=
  mkWorld {[ "SLURM_JOB_ID" := "42" ]} (two_traces 7000)
    (fun _ cmd =>
       if String.prefix "sacct " cmd then "42.0 pb acct 1 PENDING 0:0" +:+ LF
       else EmptyString).

(** [SLURM_NTASKS] is 5. *)
Definition world_5_tasks : world :=
  mkWorld {[ "SLURM_NTASKS" := "5" ]} ∅ (fun _ _ => EmptyString).

(** A first chain that can resume, a second that starts afresh. *)
Definition world_resume : world :=
  mkWorld ∅ {[ "data/aln_cat_gtr_4_chain1.trace" := sample_rows 3 ]}
    (fun _ _ => EmptyString).

(** The default thresholds with a sample cap of 5000. *)
Definition low_cap : PBStarter :=
  mkPBStarter _ (threshold "0.3") (threshold "50.0") (threshold "0.3") 5000 6667.

(** Thresholds for short runs: evaluation from 2 samples on, cap at 5. *)
Definition short_runs : PBStarter :=
  mkPBStarter _ (threshold "0.3") (threshold "50.0") (threshold "0.3") 5 2.

(** The first chain has 8 samples, the second 3; the diagnostics are those
    of [world_half], which the script takes for converged. *)
Definition world_uneven : world :=
  mkWorld ∅
    {[ "aln_cat_gtr_1_chain1.trace" := sample_rows 8;
       "aln_cat_gtr_1_chain2.trace" := sample_rows 3 ]}
    (diagnostics ("maxdiff    0.05" +:+ LF)
       (header +:+ "loglik 40 0.05" +:+ LF +:+ "length 400 0.5" +:+ LF)).

(** A sample cap (2) below the size from which the diagnostics are
    evaluated (6). *)
Definition cap_below_min : PBStarter :=
  mkPBStarter _ (threshold "0.3") (threshold "50.0") (threshold "0.3") 2 6.

(** The first chain has ended, the second is running. *)
Definition world_flags : world :=
  mkWorld ∅
    {[ "aln_cat_gtr_1_chain1.run" := "0";
       "aln_cat_gtr_1_chain2.run" := "1" ]}
    (fun _ _ => EmptyString).

(** An array job whose task identifier is not in the environment. *)
Definition world_array_job : world :=
  mkWorld {[ "SLURM_ARRAY_JOB_ID" := "7" ]} (two_traces 10) (fun _ _ => EmptyString).

(** A command line whose sleep range is empty (from 10 to 5 seconds). *)
Definition args_empty_range : arguments :=
  mkArguments _ "aln.phy" "-cat -gtr" 2 1
    (threshold "0.3") (threshold "50.0") (threshold "0.3") 100000 6667 10 5.

(** The command line of the defaults with one chain. *)
Definition args_one_chain : arguments :=
  mkArguments _ "aln.phy" "-cat -gtr" 1 1
    (threshold "0.3") (threshold "50.0") (threshold "0.3") 100000 6667 3600 3600.

(** A generator that draws the lower bound. *)
Definition draw_min (_ : nat) (a _ : Z) : Z := a.

(** [SLURM_NTASKS] is 1. *)
Definition world_1_task : world :=
  mkWorld {[ "SLURM_NTASKS" := "1" ]} ∅ (fun _ _ => EmptyString).

(** A command line for short runs: evaluation from 5 samples on, a sleep
    of 10 seconds between the cycles. *)
Definition args_short_runs : arguments :=
  mkArguments _ "aln.phy" "-cat -gtr" 2 1
    (threshold "0.3") (threshold "50.0") (threshold "0.3") 100000 5 10 10.

(** The files of two chains that grow while [main] sleeps: nothing at the
    launch, 3 samples each and a raised [.run] flag at the first poll
    cycle, 8 samples each from the second cycle on. *)
Definition growing_files (k : nat) : gmap string string :=
  match k with
  | O => {[ "aln_cat_gtr_1_chain1.trace" := sample_rows 3;
            "aln_cat_gtr_1_chain2.trace" := sample_rows 3;
            "aln_cat_gtr_1_chain1.run" := "1";
            "aln_cat_gtr_1_chain2.run" := "1" ]}
  | S _ => {[ "aln_cat_gtr_1_chain1.trace" := sample_rows 8;
              "aln_cat_gtr_1_chain2.trace" := sample_rows 8;
              "aln_cat_gtr_1_chain1.run" := "1";
              "aln_cat_gtr_1_chain2.run" := "1" ]}
  end.

(** No scheduler, no file at the launch, the diagnostics of [world_half]. *)
Definition world_at_launch : world :=
  mkWorld ∅ ∅ (proc_stdout world_half).

End Scenario.
(** ** Properties *)

(** *** The primitives on sample inputs *)

Example generate_output_filename_dir :
  generate_output_filename "data/aln.phy" "-cat -gtr" 4 1 = "data/aln_cat_gtr_4_chain1".
Proof. reflexivity. Qed.

Example generate_output_filename_group :
  generate_output_filename "aln.tar.gz" " -dgam  4" 1 0 = "aln.tar_dgam4_1".
Proof. reflexivity. Qed.

Example splitlines_ex :
  Py.splitlines ("a" +:+ String "013" (String "010" "b c") +:+ String "010" "") = ["a"; "b c"].
Proof. reflexivity. Qed.

Example re_split_ex :
  Py.re_split_spaces (Py.rstrip " maxdiff    0.05  ") = [""; "maxdiff"; "0.05"].
Proof. reflexivity. Qed.

Example dirname_basename_ex :
  map PosixPath.dirname ["/a"; "a/b/"; "a//b"; "a"] = ["/"; "a/b"; "a"; ""]
  /\ map PosixPath.basename ["/a"; "a/b/"; "a//b"; "a"] = ["a"; ""; "b"; "a"].
Proof. split; reflexivity. Qed.

Example splitext_ex :
  map PosixPath.splitext_root [".bashrc"; "..a.b"; "a.b.c"; "a."]
  = [".bashrc"; "..a"; "a.b"; "a"].
Proof. reflexivity. Qed.

Example int_of_str_ex :
  map Numeral.int_of_str ["12"; " -5 "; "+0_7"; ""; "1.0"; "5_"; "007"; "- 5"]
  = [Some 12; Some (-5); Some 7; None; None; None; Some 7; None].
Proof. reflexivity. Qed.

(** [int] skips the white space of C and the white space beyond ASCII, not
    the separators U+001C to U+001F that [str.strip] removes. *)
Example int_of_str_white_space :
  map Numeral.int_of_str
    [String "028" "5"; String "031" "5"; "5" +:+ String "031" "";
     String "160" "5"; "5" +:+ String "133" ""; String "011" "5" +:+ String "012" ""]
  = [None; None; None; Some 5; Some 5; Some 5]
  /\ Py.rstrip (Py.lstrip (String "028" "5")) = "5".
Proof. split; reflexivity. Qed.

(** [float] skips the same white space. *)
Example float_of_str_white_space :
  Binary64.of_str (String "028" "5") = None
  /\ Binary64.of_str ("0.5" +:+ String "031" "") = None
  /\ Binary64.of_str (String "160" "0.5") = Binary64.of_str "0.5"
  /\ Binary64.of_str (" 0.5" +:+ String "010" "") = Binary64.of_str "0.5".
Proof. repeat split; vm_compute; reflexivity. Qed.

(** [shlex.split] on sample command lines: runs of white space, quotations
    inside a word, escapes outside and inside quotations, empty words. *)
Example shlex_split_ex :
  let q := String Shlex.dquote "" in
  let b := String Shlex.backslash "" in
  map Shlex.split
    ["bpcomp -o aln_1.bpcomp -x 2 aln_1_chain1  aln_1_chain2 ";
     "a'b c'd e"; "a" +:+ b +:+ " b"; "'' a"; "x 'a" +:+ b +:+ "' y";
     q +:+ "a" +:+ b +:+ q +:+ "b" +:+ q +:+ " c"; q +:+ "a" +:+ b +:+ "b" +:+ q;
     q +:+ "a" +:+ b +:+ b +:+ "b" +:+ q; q +:+ q; ""]
  = [Some ["bpcomp"; "-o"; "aln_1.bpcomp"; "-x"; "2"; "aln_1_chain1"; "aln_1_chain2"];
     Some ["ab cd"; "e"]; Some ["a b"]; Some [""; "a"]; Some ["x"; "a" +:+ b; "y"];
     Some ["a" +:+ q +:+ "b"; "c"]; Some ["a" +:+ b +:+ "b"];
     Some ["a" +:+ b +:+ "b"]; Some [""]; Some []].
Proof. reflexivity. Qed.

(** [shlex.split] raises [ValueError] on these. *)
Example shlex_split_raises :
  let q := String Shlex.dquote "" in
  let b := String Shlex.backslash "" in
  map Shlex.split
    ["bpcomp -o it's_1.bpcomp -x 2 it's_1_chain1 it's_1_chain2 ";
     "x " +:+ q +:+ "y 'z" +:+ q +:+ " w'";
     "sacct -n -j 4" +:+ b; q +:+ "a" +:+ b; q +:+ "a" +:+ b +:+ q; b +:+ "''"]
  = [None; None; None; None; None; None]
  /\ Shlex.split "it's a 'b" = Some ["its a b"].
Proof. split; reflexivity. Qed.

Example float_of_str_ex :
  Binary64.of_str "0.3" = Some (SpecFloat.S754_finite false 5404319552844595 (-54))
  /\ Binary64.of_str "n/a" = None
  /\ Binary64.of_str "1e309" = Some (SpecFloat.S754_infinity false).
Proof. repeat split; vm_compute; reflexivity. Qed.

(** *** The output prefix *)

(** C6. [generate_output_filename] is a function of its four arguments
    (equal inputs give the same string), and for a chain index [i >= 1] its
    result is the group prefix (chain index 0) followed by ["_chain"] and
    the decimal rendering of [i], with no other difference. *)
Theorem generate_output_filename_chain_suffix
    (filepath pb_args : string) (processes i : Z) :
  1 <= i ->
  (forall filepath' pb_args' processes' i',
      filepath' = filepath -> pb_args' = pb_args ->
      processes' = processes -> i' = i ->
      generate_output_filename filepath' pb_args' processes' i'
      = generate_output_filename filepath pb_args processes i)
  /\ generate_output_filename filepath pb_args processes i
     = generate_output_filename filepath pb_args processes 0
         +:+ "_chain" +:+ Py.str i.
Proof.
  intros Hi. split.
  - intros ? ? ? ? -> -> -> ->. reflexivity.
  - unfold generate_output_filename.
    destruct (create_tokens_from_filepath filepath) as [[dirbase filename] basename].
    destruct (Z.eqb_spec i 0) as [->|_]; [lia|]. reflexivity.
Qed.

Lemma generate_output_filename_chain_suffix_witness :
  1 <= 2
  /\ generate_output_filename "data/aln.phy" "-cat -gtr" 4 2
     = generate_output_filename "data/aln.phy" "-cat -gtr" 4 0 +:+ "_chain" +:+ Py.str 2.
Proof.
  split; [lia|].
  apply (generate_output_filename_chain_suffix "data/aln.phy" "-cat -gtr" 4 2). lia.
Defined.

(** *** The process count under a scheduler *)

(** C9, as stated, fails: with 5 allocated tasks, 2 chains and 1 requested
    process the adjusted process count is 2, and 2 * 2 is not 5. *)
Lemma adjust_processes_product_not_ntasks :
  environ Scenario.world_5_tasks !! "SLURM_NTASKS" = Some "5"
  /\ adjust_processes Scenario.world_5_tasks 2 1 = Ret 2
  /\ 2 * 2 <> 5.
Proof. split; [vm_compute; reflexivity|]. split; [vm_compute; reflexivity | lia]. Qed.

(** C9, amended.  When [SLURM_NTASKS] holds the integer [n >= 0] and the
    requested process count differs from [chains * n], the process count
    becomes [n] divided by [chains] and rounded down: the product
    [processes * chains] does not exceed [n], misses it by less than
    [chains], and equals it exactly when [chains] divides [n]. *)
Theorem adjust_processes_floor
    (w : world) (chains processes : Z) (slurm_ntasks : string) (n : Z) :
  environ w !! "SLURM_NTASKS" = Some slurm_ntasks ->
  Numeral.int_of_str slurm_ntasks = Some n ->
  1 <= chains < 2 ^ 53 ->
  0 <= n < 2 ^ 53 ->
  processes <> chains * n ->
  exists p,
    adjust_processes w chains processes = Ret p
    /\ p = n / chains
    /\ p * chains <= n < (p + 1) * chains
    /\ (p * chains = n <-> (chains | n)).
Proof.
  intros Henv Hint Hc Hn Hne.
  exists (n / chains). unfold adjust_processes. rewrite Henv, Hint.
  destruct (Z.eqb_spec processes (chains * n)) as [?|_]; [contradiction|].
  destruct (Z.eqb_spec chains 0) as [?|_]; [lia|]. simpl.
  rewrite Z.quot_div_nonneg by lia.
  pose proof (Z.div_mod n chains ltac:(lia)) as Hdm.
  pose proof (Z.mod_pos_bound n chains ltac:(lia)) as Hmod.
  repeat split; try nia.
  - intros Heq. apply Z.mod_divide; [lia|]. nia.
  - intros Hdiv. apply Z.mod_divide in Hdiv; [|lia]. nia.
Qed.

Lemma adjust_processes_floor_witness :
  exists p,
    adjust_processes Scenario.world_5_tasks 2 1 = Ret p
    /\ p = 5 / 2
    /\ p * 2 <= 5 < (p + 1) * 2
    /\ (p * 2 = 5 <-> (2 | 5)).
Proof.
  apply (adjust_processes_floor Scenario.world_5_tasks 2 1 "5" 5).
  - vm_compute; reflexivity.
  - vm_compute; reflexivity.
  - lia.
  - lia.
  - lia.
Defined.

(** *** Reasoning about the monad *)

Ltac munfold :=
  unfold mbind, mret, M_mbind, M_ret, M_bind, outcome_mbind, outcome_ret,
    outcome_bind, lift, sys_exit, raise, os_system, sleep_1, popen.

Section Bind.

Context {A B : Type} (m : M A) (f : A -> M B) (st st' : state).

Lemma bind_ret a : m st = (Ret a, st') -> (m ≫= f) st = f a st'.
Proof. intros Hm. munfold. rewrite Hm. reflexivity. Qed.

Lemma bind_exit code : m st = (Exit code, st') -> (m ≫= f) st = (Exit code, st').
Proof. intros Hm. munfold. rewrite Hm. reflexivity. Qed.

Lemma bind_raise e : m st = (Raise e, st') -> (m ≫= f) st = (Raise e, st').
Proof. intros Hm. munfold. rewrite Hm. reflexivity. Qed.

Lemma bind_out_of_fuel : m st = (OutOfFuel, st') -> (m ≫= f) st = (OutOfFuel, st').
Proof. intros Hm. munfold. rewrite Hm. reflexivity. Qed.

End Bind.

Lemma append_assoc (a b c : string) : (a +:+ b) +:+ c = a +:+ (b +:+ c).
Proof.
  induction a as [|x a IH]; [reflexivity|].
  change (String x ((a +:+ b) +:+ c) = String x (a +:+ (b +:+ c))).
  rewrite IH. reflexivity.
Qed.

Lemma append_cons (c : ascii) (a b : string) :
  String c a +:+ b = String c (a +:+ b).
Proof. reflexivity. Qed.

Lemma append_nil (b : string) : EmptyString +:+ b = b.
Proof. reflexivity. Qed.

(** [popen] on a command line that splits, and in general. *)
Lemma popen_splits (w : world) (cmd : string) (st : state) :
  Shlex.splits cmd -> popen w cmd st = (Ret (proc_stdout w (clock st) cmd), st).
Proof. intros [argv Hargv]. unfold popen. rewrite Hargv. reflexivity. Qed.

Lemma popen_raises (w : world) (cmd : string) (st : state) :
  Shlex.split cmd = None -> popen w cmd st = (Raise ValueError, st).
Proof. intros Hnone. unfold popen. rewrite Hnone. reflexivity. Qed.

Lemma popen_outcome (w : world) (cmd : string) (st : state) :
  popen w cmd st = (Ret (proc_stdout w (clock st) cmd), st)
  \/ popen w cmd st = (Raise ValueError, st).
Proof. unfold popen. destruct (Shlex.split cmd); [left | right]; reflexivity. Qed.

(** A command line without quote and backslash can always be split: the
    lexer never leaves the states between words and inside a word. *)
Lemma shlex_read_plain (s : string) :
  Shlex.plain s = true ->
  forall token,
    is_Some (Shlex.read Shlex.Between token s)
    /\ is_Some (Shlex.read Shlex.InWord token s).
Proof.
  induction s as [|c s IH]; intros Hplain token; [split; eexists; reflexivity|].
  cbn [Shlex.plain] in Hplain.
  apply andb_true_iff in Hplain as [Hc Hplain].
  apply andb_true_iff in Hc as [Hquote Hescape].
  apply negb_true_iff in Hquote, Hescape.
  cbn [Shlex.read]. rewrite Hquote, Hescape.
  destruct (Shlex.is_whitespace c); split;
    try apply (IH Hplain); apply fmap_is_Some, (IH Hplain).
Qed.

Lemma shlex_split_plain (cmd : string) : Shlex.plain cmd = true -> Shlex.splits cmd.
Proof. intros Hplain. apply (shlex_read_plain cmd Hplain EmptyString). Qed.

(** Inside a quotation a string without quote and backslash does not end
    the quotation. *)
Lemma shlex_read_quoted_plain (q : ascii) (s : string) :
  Shlex.is_quote q = true -> Shlex.plain s = true ->
  forall token, Shlex.read (Shlex.Quoted q) token s = None.
Proof.
  intros Hq. induction s as [|c s IH]; intros Hplain token; [reflexivity|].
  cbn [Shlex.plain] in Hplain.
  apply andb_true_iff in Hplain as [Hc Hplain].
  apply andb_true_iff in Hc as [Hquote Hescape].
  apply negb_true_iff in Hquote, Hescape.
  cbn [Shlex.read]. rewrite Hescape.
  destruct (Ascii.eqb_spec c q) as [-> | _]; [congruence|].
  apply IH, Hplain.
Qed.

(** Whether a command line can be split does not depend on a last part
    without quote and backslash, as long as that part is not empty. *)
Lemma shlex_read_suffix (p p' : string) :
  Shlex.plain p = true -> Shlex.plain p' = true ->
  p <> EmptyString -> p' <> EmptyString ->
  forall (a : string) state token,
    Shlex.reachable state = true ->
    is_Some (Shlex.read state token (a +:+ p))
    <-> is_Some (Shlex.read state token (a +:+ p')).
Proof.
  intros Hp Hp' Hne Hne'.
  assert (Hend : forall s, Shlex.plain s = true -> s <> EmptyString ->
            forall state token,
              Shlex.reachable state = true ->
              is_Some (Shlex.read state token s)
              <-> match state with
                  | Shlex.Between | Shlex.InWord | Shlex.Escaped None => True
                  | Shlex.Quoted _ | Shlex.Escaped (Some _) => False
                  end).
  { intros s Hs Hnes state token Hstate.
    destruct state as [| | q | [q|]]; simpl in Hstate.
    - split; [trivial | intros _; apply (shlex_read_plain s Hs token)].
    - split; [trivial | intros _; apply (shlex_read_plain s Hs token)].
    - rewrite (shlex_read_quoted_plain q s Hstate Hs). split; [intros [? ?]; discriminate | tauto].
    - destruct s as [|c s]; [contradiction|]. cbn [Shlex.read].
      cbn [Shlex.plain] in Hs. apply andb_true_iff in Hs as [_ Hs].
      rewrite (shlex_read_quoted_plain q s Hstate Hs).
      split; [intros [? ?]; discriminate | tauto].
    - destruct s as [|c s]; [contradiction|]. cbn [Shlex.read].
      cbn [Shlex.plain] in Hs. apply andb_true_iff in Hs as [_ Hs].
      split; [trivial | intros _; apply (shlex_read_plain s Hs)]. }
  induction a as [|c a IH]; intros state token Hstate.
  - rewrite !append_nil, (Hend p Hp Hne), (Hend p' Hp' Hne') by exact Hstate.
    reflexivity.
  - rewrite !append_cons. cbn [Shlex.read].
    destruct state as [| | q | [q|]]; simpl in Hstate.
    + destruct (Shlex.is_whitespace c); [apply IH; reflexivity|].
      destruct (Shlex.is_escape c); [apply IH; reflexivity|].
      destruct (Shlex.is_quote c) eqn:Hquote; apply IH; [exact Hquote | reflexivity].
    + destruct (Shlex.is_whitespace c).
      { rewrite !fmap_is_Some. apply IH. reflexivity. }
      destruct (Shlex.is_quote c) eqn:Hquote; [apply IH; exact Hquote|].
      destruct (Shlex.is_escape c); apply IH; reflexivity.
    + destruct (Ascii.eqb c q); [apply IH; reflexivity|].
      destruct (Shlex.is_escape c && Shlex.is_escapedquote q); apply IH; exact Hstate.
    + apply IH. exact Hstate.
    + apply IH. reflexivity.
Qed.

Lemma shlex_plain_uint (d : Decimal.uint) : Shlex.plain (NilEmpty.string_of_uint d) = true.
Proof. induction d; simpl; auto. Qed.

Lemma shlex_plain_str (n : Z) : Shlex.plain (Py.str n) = true.
Proof.
  unfold Py.str, NilZero.string_of_int, NilZero.string_of_uint.
  destruct (Z.to_int n) as [d | d]; destruct d; simpl; auto using shlex_plain_uint.
Qed.

(** The [sacct] command lines of the chains of a job differ in their last
    part only, the number of the step: one of them can be split exactly
    when the others can. *)
Lemma sacct_command_splits (id : string) (i j : Z) :
  Shlex.splits (sacct_command (subtask_id_of id i)) ->
  Shlex.splits (sacct_command (subtask_id_of id j)).
Proof.
  unfold Shlex.splits, Shlex.split, sacct_command, subtask_id_of.
  change ("." +:+ Py.str (i - 1)) with (String "." (Py.str (i - 1))).
  change ("." +:+ Py.str (j - 1)) with (String "." (Py.str (j - 1))).
  rewrite <- (append_assoc "sacct -n -j " id (String "." (Py.str (i - 1)))).
  rewrite <- (append_assoc "sacct -n -j " id (String "." (Py.str (j - 1)))).
  apply shlex_read_suffix.
  - cbn [Shlex.plain]. rewrite shlex_plain_str. reflexivity.
  - cbn [Shlex.plain]. rewrite shlex_plain_str. reflexivity.
  - discriminate.
  - discriminate.
  - reflexivity.
Qed.

Lemma string_length_app (a b : string) :
  String.length (a +:+ b) = (String.length a + String.length b)%nat.
Proof. induction a as [|c a IH]; simpl; [reflexivity | now rewrite IH]. Qed.

(** *** Launching the chains *)

(** Closes a goal about [sacct]'s answer from a hypothesis about the answer
    at the same second, written differently. *)
Ltac same_second Hb :=
  unfold no_status in *; simpl in *;
  match goal with
  | |- context [proc_stdout _ ?t _] =>
      match type of Hb with
      | context [proc_stdout _ ?t' _] => replace t with t' by lia
      end
  end;
  exact Hb.

(** The wait loop issues no shell command. *)
Lemma wait_for_srun_issued fuel w subtask_id max_wait :
  forall waited st, issued (wait_for_srun fuel w subtask_id max_wait waited st).2 = issued st.
Proof.
  induction fuel as [|fuel IH]; intros waited st; simpl; [reflexivity|].
  munfold. simpl.
  destruct (Shlex.split _); simpl; [|reflexivity].
  destruct (Nat.eqb _ 0); simpl; [|reflexivity].
  destruct (max_wait <? waited + 1); simpl; [reflexivity|].
  rewrite IH. reflexivity.
Qed.

(** With more fuel than rounds left before [waited] passes [max_wait], the
    loop ends by itself. *)
Lemma wait_for_srun_never_out_of_fuel fuel w subtask_id max_wait :
  forall waited st,
    (1 <= fuel)%nat -> max_wait - waited < Z.of_nat fuel ->
    (wait_for_srun fuel w subtask_id max_wait waited st).1 <> OutOfFuel.
Proof.
  induction fuel as [|fuel IH]; intros waited st Hpos Hfuel; [lia|].
  simpl. munfold. simpl.
  destruct (Shlex.split _); simpl; [|discriminate].
  destruct (Nat.eqb _ 0); simpl; [|discriminate].
  destruct (Z.ltb_spec max_wait (waited + 1)); simpl; [discriminate|].
  apply IH; lia.
Qed.

(** A status at round [k], after [k - 1] rounds without, ends the wait. *)
Lemma wait_for_srun_confirmed w subtask_id max_wait :
  Shlex.splits (sacct_command subtask_id) ->
  forall (k fuel : nat) waited st,
    (1 <= k <= fuel)%nat ->
    waited + Z.of_nat k - 1 <= max_wait ->
    (forall j, (1 <= j < k)%nat -> no_status w subtask_id (clock st + j)) ->
    ~ no_status w subtask_id (clock st + k) ->
    wait_for_srun fuel w subtask_id max_wait waited st
    = (Ret tt, mkState (clock st + k) (issued st)).
Proof.
  intros [argv Hargv].
  induction k as [|k IH]; intros fuel waited st Hk Hw Hblank Hstatus; [lia|].
  destruct fuel as [|fuel]; [lia|]. simpl. munfold. simpl. rewrite Hargv. simpl.
  destruct (Nat.eq_dec k 0%nat) as [->|Hk0].
  - unfold no_status in Hstatus. replace (clock st + 1)%nat with (S (clock st)) in Hstatus by lia.
    apply Nat.eqb_neq in Hstatus. rewrite Hstatus. simpl.
    do 2 f_equal. lia.
  - pose proof (Hblank 1%nat ltac:(lia)) as H1. unfold no_status in H1.
    replace (clock st + 1)%nat with (S (clock st)) in H1 by lia.
    apply Nat.eqb_eq in H1. rewrite H1. simpl.
    destruct (Z.ltb_spec max_wait (waited + 1)); [lia|].
    rewrite (IH fuel (waited + 1) (mkState (S (clock st)) (issued st))); simpl.
    + do 2 f_equal. lia.
    + lia.
    + lia.
    + intros j Hj. pose proof (Hblank (S j) ltac:(lia)) as Hb. same_second Hb.
    + intros Hb. apply Hstatus. same_second Hb.
Qed.

(** Without a status during the rounds that bring [waited] past
    [max_wait], the process exits with code 3. *)
Lemma wait_for_srun_timeout w subtask_id max_wait :
  Shlex.splits (sacct_command subtask_id) ->
  forall (n fuel : nat) waited st,
    (1 <= n <= fuel)%nat ->
    waited + Z.of_nat n = max_wait + 1 ->
    (forall j, (1 <= j <= n)%nat -> no_status w subtask_id (clock st + j)) ->
    wait_for_srun fuel w subtask_id max_wait waited st
    = (Exit 3, mkState (clock st + n) (issued st)).
Proof.
  intros [argv Hargv].
  induction n as [|n IH]; intros fuel waited st Hn Hw Hblank; [lia|].
  destruct fuel as [|fuel]; [lia|]. simpl. munfold. simpl. rewrite Hargv. simpl.
  pose proof (Hblank 1%nat ltac:(lia)) as H1. unfold no_status in H1.
  replace (clock st + 1)%nat with (S (clock st)) in H1 by lia.
  apply Nat.eqb_eq in H1. rewrite H1. simpl.
  destruct (Z.ltb_spec max_wait (waited + 1)) as [Hlt|Hge].
  - assert (n = 0%nat) as -> by lia. do 2 f_equal. lia.
  - rewrite (IH fuel (waited + 1) (mkState (S (clock st)) (issued st))); simpl.
    + do 2 f_equal. lia.
    + lia.
    + lia.
    + intros j Hj. pose proof (Hblank (S j) ltac:(lia)) as Hb. same_second Hb.
Qed.

(** A [sacct] command line that cannot be split ends the wait in its first
    round, after the second slept, with [ValueError]. *)
Lemma wait_for_srun_not_split w subtask_id max_wait fuel waited st :
  Shlex.split (sacct_command subtask_id) = None ->
  wait_for_srun (S fuel) w subtask_id max_wait waited st
  = (Raise ValueError, mkState (clock st + 1) (issued st)).
Proof.
  intros Hnone. simpl. munfold. simpl. rewrite Hnone. simpl.
  do 2 f_equal. lia.
Qed.

(** The bound of the script: the wait of [start_chain] makes up to 61
    queries, and gives up after 61 seconds without a status. *)
Lemma start_chain_wait_bound w subtask_id st :
  Shlex.splits (sacct_command subtask_id) ->
  (forall j, (1 <= j <= 61)%nat -> no_status w subtask_id (clock st + j)) ->
  wait_for_srun (S (Z.to_nat 60)) w subtask_id 60 0 st
  = (Exit 3, mkState (clock st + 61) (issued st)).
Proof.
  intros Hsplit Hblank. apply wait_for_srun_timeout; [exact Hsplit | lia | lia | exact Hblank].
Qed.

(** C7: the launch confirmation gives up only after 61 queries.  Under job
    42, with no status during the first 60 seconds and a status at second
    61, [start_pb_jobs] returns with the chain confirmed, where 60 attempts
    without a status should have ended the process with code 3; the exit
    with code 3 comes when the 61st query is without status too. *)
Theorem start_pb_jobs_confirms_at_attempt_61 :
  (forall t, (1 <= t <= 60)%nat ->
     no_status Scenario.world_slow_srun "42.0" t)
  /\ start_pb_jobs Scenario.world_slow_srun "aln.phy" "-cat -gtr" 1 1 Scenario.st0
     = (Ret tt,
        mkState 61
          [fresh_command "aln.phy" "-cat -gtr" 1 "aln_cat_gtr_1_chain1"])
  /\ start_pb_jobs Scenario.world_no_srun "aln.phy" "-cat -gtr" 1 1 Scenario.st0
     = (Exit 3,
        mkState 61
          [fresh_command "aln.phy" "-cat -gtr" 1 "aln_cat_gtr_1_chain1"]).
Proof.
  split; [|split; vm_compute; reflexivity].
  intros t Ht. unfold no_status, Scenario.world_slow_srun. simpl proc_stdout.
  destruct (Nat.ltb_spec 60 t); [lia|]. reflexivity.
Qed.

#[local] Arguments wait_for_srun : simpl never.

Lemma get_slurm_job_id_outcome w :
  (exists id, get_slurm_job_id w = Ret id) \/ get_slurm_job_id w = Raise TypeError.
Proof.
  unfold get_slurm_job_id.
  destruct (environ w !! "SLURM_ARRAY_JOB_ID"); [|eauto].
  destruct (environ w !! "SLURM_ARRAY_TASK_ID"); eauto.
Qed.

(** The two commands differ, whatever their arguments. *)
Lemma resume_command_neq_fresh infile pb_args processes pb_out_filename :
  resume_command processes pb_out_filename
  <> fresh_command infile pb_args processes pb_out_filename.
Proof.
  intros Heq. apply (f_equal String.length) in Heq.
  unfold resume_command, fresh_command in Heq.
  repeat rewrite string_length_app in Heq. simpl in Heq. lia.
Qed.

(** One round of the launch loop: the command of the chain is issued, and
    nothing else; the round ends by itself. *)
Lemma start_chain_spec w infile pb_args processes i st :
  exists cmd,
    launches_as_expected w infile pb_args processes i cmd
    /\ issued (start_chain w infile pb_args processes tt i st).2 = issued st ++ [cmd]
    /\ (start_chain w infile pb_args processes tt i st).1 <> OutOfFuel
    /\ (no_scheduler w ->
        (start_chain w infile pb_args processes tt i st).1 = Ret tt).
Proof.
  unfold start_chain, launches_as_expected, path_exists.
  set (p := generate_output_filename infile pb_args processes i).
  pose proof (resume_command_neq_fresh infile pb_args processes p) as Hne.
  assert (Hwait : forall cmd,
    let r := (slurm_job_id ← lift (get_slurm_job_id w);
              match scheduler_id slurm_job_id with
              | Some id => wait_for_srun (S (Z.to_nat 60)) w (subtask_id_of id i) 60 0
              | None => mret tt
              end) (mkState (clock st) (issued st ++ [cmd])) in
    issued r.2 = issued st ++ [cmd] /\ r.1 <> OutOfFuel
    /\ (no_scheduler w -> r.1 = Ret tt)).
  { intros cmd. munfold.
    destruct (get_slurm_job_id_outcome w) as [[id Hid] | Hid]; rewrite Hid; simpl.
    - destruct (scheduler_id id) as [sid|] eqn:Hsid; simpl.
      + rewrite wait_for_srun_issued. simpl.
        split; [reflexivity|]. split.
        * apply wait_for_srun_never_out_of_fuel; lia.
        * intros (id' & Hid' & Hnone). congruence.
      + repeat split; discriminate.
    - repeat split; try discriminate.
      intros (id' & Hid' & _). congruence. }
  destruct (files w !! (p +:+ ".trace")) as [content|] eqn:Hfile.
  - exists (resume_command processes p).
    rewrite bool_decide_true by eauto.
    split.
    + split; split; intros; try reflexivity; try eauto; try discriminate.
      exfalso. apply Hne. congruence.
    + apply (Hwait (resume_command processes p)).
  - exists (fresh_command infile pb_args processes p).
    rewrite bool_decide_false by (intros [? ?]; discriminate).
    split.
    + split; split; intros; try reflexivity.
      * exfalso. apply Hne. congruence.
      * destruct H as [? ?]; discriminate.
    + apply (Hwait (fresh_command infile pb_args processes p)).
Qed.

(** The text of the two commands, as lines 110 and 112 build it. *)
Lemma resume_command_text (processes : Z) (pb_out_filename : string) :
  resume_command processes pb_out_filename
  = ("srun --cpu_bind=v,threads -c 1 -n " +:+ Py.str processes +:+ " -o "
       +:+ pb_out_filename +:+ ".out ")
      +:+ (if 1 <? processes then "pb_mpi " else "pb ")
      +:+ pb_out_filename +:+ " &".
Proof.
  unfold resume_command, srun_prefix, pb_command.
  destruct (1 <? processes); reflexivity.
Qed.

Lemma fresh_command_text (infile pb_args : string) (processes : Z)
    (pb_out_filename : string) :
  fresh_command infile pb_args processes pb_out_filename
  = ("srun --cpu_bind=v,threads -c 1 -n " +:+ Py.str processes +:+ " -o "
       +:+ pb_out_filename +:+ ".out ")
      +:+ (if 1 <? processes then "pb_mpi " else "pb ")
      +:+ pb_args +:+ " -d " +:+ infile +:+ " " +:+ pb_out_filename +:+ " &".
Proof.
  unfold fresh_command, srun_prefix, pb_command.
  destruct (1 <? processes); reflexivity.
Qed.

(** The launch loop: the chains it reaches are the first chains of 1..N,
    each gets its one command, and nothing else is issued. *)
Lemma start_pb_jobs_launches
    (w : world) (infile pb_args : string) (chains processes : Z) (st : state) :
  exists (launched : list Z) (cmds : list string),
    launched `prefix_of` Py.range1 chains
    /\ issued (start_pb_jobs w infile pb_args chains processes st).2 = issued st ++ cmds
    /\ Forall2 (launches_as_expected w infile pb_args processes) launched cmds
    /\ ((start_pb_jobs w infile pb_args chains processes st).1 = Ret tt ->
        launched = Py.range1 chains)
    /\ (Py.range1 chains <> [] -> launched <> [])
    /\ (start_pb_jobs w infile pb_args chains processes st).1 <> OutOfFuel
    /\ (no_scheduler w ->
        (start_pb_jobs w infile pb_args chains processes st).1 = Ret tt).
Proof.
  unfold start_pb_jobs. generalize (Py.range1 chains) as l.
  intros l. revert st.
  induction l as [|i l IH]; intros st.
  - exists [], []. simpl. munfold. simpl.
    rewrite app_nil_r.
    repeat split; try reflexivity; try constructor; try discriminate; try contradiction.
  - destruct (start_chain_spec w infile pb_args processes i st)
      as (cmd & Hcmd & Hissued & Hfuel & Hret).
    simpl.
    destruct (start_chain w infile pb_args processes tt i st) as [o st1] eqn:Hstep.
    simpl in Hissued, Hfuel, Hret.
    destruct o as [[]| code | e |];
      [ rewrite (bind_ret _ _ _ _ _ Hstep)
      | rewrite (bind_exit _ _ _ _ _ Hstep)
      | rewrite (bind_raise _ _ _ _ _ Hstep)
      | contradiction ].
    + destruct (IH st1) as (launched & cmds & Hpre & His & Hall & Hdone & _ & Hnf & Hns).
      exists (i :: launched), (cmd :: cmds).
      split; [apply prefix_cons; exact Hpre|].
      split; [rewrite His, Hissued, <- app_assoc; reflexivity|].
      split; [constructor; assumption|].
      split; [intros Hr; f_equal; auto|].
      split; [discriminate|].
      split; assumption.
    + exists [i], [cmd]. simpl.
      split; [apply prefix_cons, prefix_nil|].
      split; [exact Hissued|].
      split; [constructor; [exact Hcmd | constructor]|].
      split; [discriminate|]. split; [discriminate|]. split; [discriminate|].
      intros Hn. specialize (Hret Hn). discriminate.
    + exists [i], [cmd]. simpl.
      split; [apply prefix_cons, prefix_nil|].
      split; [exact Hissued|].
      split; [constructor; [exact Hcmd | constructor]|].
      split; [discriminate|]. split; [discriminate|]. split; [discriminate|].
      intros Hn. specialize (Hret Hn). discriminate.
Qed.

(** C5, as stated, fails: under job 42 the launch of chain 1 is never
    confirmed and the process exits with code 3 after 61 seconds; chain 2,
    which has no sample file, gets no command at all, where the claim has a
    fresh-start command issued for every chain 1..N. *)
Lemma chain_after_failed_launch_gets_no_command :
  generate_output_filename "aln.phy" "-cat -gtr" 1 2 = "aln_cat_gtr_1_chain2"
  /\ files Scenario.world_no_srun !! "aln_cat_gtr_1_chain2.trace" = None
  /\ start_pb_jobs Scenario.world_no_srun "aln.phy" "-cat -gtr" 2 1 Scenario.st0
     = (Exit 3,
        mkState 61
          ["srun --cpu_bind=v,threads -c 1 -n 1 -o aln_cat_gtr_1_chain1.out pb -cat -gtr -d aln.phy aln_cat_gtr_1_chain1 &"]).
Proof. repeat split; vm_compute; reflexivity. Qed.

(** C5, amended.  [start_pb_jobs] launches the chains in the order 1, 2,
    ...: the chains it reaches are the first chains of 1..N (all of them
    whenever it returns, which it does when no scheduler identifier is
    present; a chain after a launch that exits or raises is not reached),
    each gets exactly one command and no other command is issued.  With
    [<srun>] for [srun --cpu_bind=v,threads -c 1 -n <processes> -o
    <prefix>.out] and [<sampler>] for [pb_mpi] (more than one process) or
    [pb], the command of a chain is the resume command [<srun> <sampler>
    <prefix> &] (neither the arguments nor [-d] and the alignment) if and
    only if the file [<prefix>.trace] exists, and the fresh-start command
    [<srun> <sampler> <arguments> -d <alignment> <prefix> &] if and only if
    it does not. *)
Theorem start_pb_jobs_resume_iff_trace_exists
    (w : world) (infile pb_args : string) (chains processes : Z) (st : state) :
  exists (launched : list Z) (cmds : list string),
    launched `prefix_of` Py.range1 chains
    /\ issued (start_pb_jobs w infile pb_args chains processes st).2 = issued st ++ cmds
    /\ Forall2
         (fun i cmd =>
            let prefix := generate_output_filename infile pb_args processes i in
            let srun :=
              "srun --cpu_bind=v,threads -c 1 -n " +:+ Py.str processes +:+ " -o "
                +:+ prefix +:+ ".out " in
            let sampler := if 1 <? processes then "pb_mpi " else "pb " in
            (cmd = srun +:+ sampler +:+ prefix +:+ " &"
             <-> is_Some (files w !! (prefix +:+ ".trace")))
            /\ (cmd = srun +:+ sampler +:+ pb_args +:+ " -d " +:+ infile +:+ " "
                        +:+ prefix +:+ " &"
                <-> files w !! (prefix +:+ ".trace") = None))
         launched cmds
    /\ ((start_pb_jobs w infile pb_args chains processes st).1 = Ret tt ->
        launched = Py.range1 chains)
    /\ (1 <= chains -> launched <> [])
    /\ (start_pb_jobs w infile pb_args chains processes st).1 <> OutOfFuel
    /\ (no_scheduler w ->
        (start_pb_jobs w infile pb_args chains processes st).1 = Ret tt).
Proof.
  destruct (start_pb_jobs_launches w infile pb_args chains processes st)
    as (launched & cmds & Hpre & His & Hall & Hdone & Hsome & Hnf & Hns).
  exists launched, cmds.
  split; [exact Hpre|]. split; [exact His|].
  split.
  { eapply Forall2_impl; [exact Hall|].
    intros i cmd. unfold launches_as_expected. cbn zeta.
    rewrite resume_command_text, fresh_command_text. exact (fun Hcmd => Hcmd). }
  split; [exact Hdone|].
  split; [|split; assumption].
  intros Hchains. apply Hsome. unfold Py.range1.
  destruct (Z.to_nat chains) as [|k] eqn:Hk; [lia | discriminate].
Qed.

(** The fuel of the model is never the reason [start_pb_jobs] stops. *)
Lemma start_pb_jobs_never_out_of_fuel w infile pb_args chains processes st :
  (start_pb_jobs w infile pb_args chains processes st).1 <> OutOfFuel.
Proof.
  unfold start_pb_jobs. generalize (Py.range1 chains) as l.
  intros l. revert st. induction l as [|i l IH]; intros st; simpl.
  - munfold. simpl. discriminate.
  - destruct (start_chain_spec w infile pb_args processes i st)
      as (cmd & _ & _ & Hfuel & _).
    destruct (start_chain w infile pb_args processes tt i st) as [o st1] eqn:Hstep.
    simpl in Hfuel.
    destruct o as [[]| code | e |];
      [ rewrite (bind_ret _ _ _ _ _ Hstep); apply IH
      | rewrite (bind_exit _ _ _ _ _ Hstep); discriminate
      | rewrite (bind_raise _ _ _ _ _ Hstep); discriminate
      | contradiction ].
Qed.

Example start_pb_jobs_resume_ex :
  start_pb_jobs Scenario.world_resume "data/aln.phy" "-cat -gtr" 2 4 Scenario.st0
  = (Ret tt,
     mkState 0
       ["srun --cpu_bind=v,threads -c 1 -n 4 -o data/aln_cat_gtr_4_chain1.out pb_mpi data/aln_cat_gtr_4_chain1 &";
        "srun --cpu_bind=v,threads -c 1 -n 4 -o data/aln_cat_gtr_4_chain2.out pb_mpi -cat -gtr -d data/aln.phy data/aln_cat_gtr_4_chain2 &"]).
Proof. vm_compute. reflexivity. Qed.

(** *** The poll cycle: liveness *)

Lemma elem_of_range1 (n i : Z) : In i (Py.range1 n) <-> 1 <= i <= n.
Proof.
  unfold Py.range1. rewrite in_map_iff. split.
  - intros (k & <- & Hk). apply in_seq in Hk. lia.
  - intros Hi. exists (Z.to_nat i). split; [lia|]. apply in_seq. lia.
Qed.

Lemma prefix_spec (p s : string) :
  String.prefix p s = true <-> exists b, s = p +:+ b.
Proof.
  revert s. induction p as [|c p IH]; intros s.
  - split; [intros _; exists s; reflexivity | intros _; destruct s; reflexivity].
  - destruct s as [|d s]; simpl.
    + split; [discriminate | intros [b Hb]; discriminate].
    + destruct (Ascii.ascii_dec c d) as [->|Hcd].
      * rewrite IH. split; intros [b Hb]; exists b; rewrite append_cons in *; congruence.
      * split; [discriminate | intros [b Hb]; rewrite append_cons in Hb; congruence].
Qed.

(** [s.find(sub) != -1] holds exactly when [sub] occurs somewhere in [s]. *)
Lemma contains_spec (sub s : string) :
  Py.contains sub s = true <-> exists a b, s = a +:+ sub +:+ b.
Proof.
  induction s as [|c s IH]; cbn [Py.contains].
  - rewrite orb_false_r, prefix_spec. split.
    + intros [b Hb]. exists EmptyString, b. exact Hb.
    + intros (a & b & Hab). destruct a; [eauto | rewrite append_cons in Hab; discriminate].
  - rewrite orb_true_iff, prefix_spec, IH. split.
    + intros [[b Hb] | (a & b & Hab)].
      * exists EmptyString, b. exact Hb.
      * exists (String c a), b. rewrite append_cons. congruence.
    + intros (a & b & Hab). destruct a as [|d a].
      * left. eauto.
      * right. exists a, b. rewrite append_cons in Hab. congruence.
Qed.

Section Liveness.

Variable w : world.
Variable chains : Z.

Lemma liveness_round (id : string) (acc : bool) (i : Z) (st : state) :
  Shlex.splits (sacct_command (subtask_id_of id i)) ->
  (srun_proc_out ← popen w (sacct_command (subtask_id_of id i));
   let first_line := first_line_of srun_proc_out in
   if chain_is_running first_line then mret acc else mret false) st
  = (Ret (acc && chain_is_running (status_line w id (clock st) i)), st).
Proof.
  intros Hsplit. erewrite bind_ret by apply popen_splits, Hsplit.
  cbn beta iota zeta. unfold status_line.
  destruct (chain_is_running _); [rewrite andb_true_r | rewrite andb_false_r];
    reflexivity.
Qed.

Lemma liveness_loop (id : string) (l : list Z) :
  (forall i, In i l -> Shlex.splits (sacct_command (subtask_id_of id i))) ->
  forall acc st,
    for_loop l
      (fun every_chain_is_running i =>
         srun_proc_out ← popen w (sacct_command (subtask_id_of id i));
         let first_line := first_line_of srun_proc_out in
         if chain_is_running first_line then mret every_chain_is_running
         else mret false)
      acc st
    = (Ret (acc && forallb (fun i => chain_is_running (status_line w id (clock st) i)) l), st).
Proof.
  induction l as [|i l IH]; intros Hsplit acc st; cbn [for_loop forallb].
  - rewrite andb_true_r. reflexivity.
  - erewrite bind_ret by (apply liveness_round, Hsplit; left; reflexivity).
    rewrite IH, andb_assoc by (intros j Hj; apply Hsplit; right; exact Hj).
    reflexivity.
Qed.

(** Under a scheduler the liveness check queries every chain, then exits
    with code 4 unless all of them are running. *)
Lemma check_chains_running_scheduler slurm_job_id id st :
  get_slurm_job_id w = Ret slurm_job_id ->
  scheduler_id slurm_job_id = Some id ->
  (forall i, 1 <= i <= chains -> Shlex.splits (sacct_command (subtask_id_of id i))) ->
  check_chains_running w chains st
  = (if forallb (fun i => chain_is_running (status_line w id (clock st) i)) (Py.range1 chains)
     then Ret tt else Exit 4, st).
Proof.
  intros Hid Hsid Hsplit. unfold check_chains_running.
  erewrite bind_ret by (unfold lift; rewrite Hid; reflexivity).
  rewrite Hsid.
  erewrite bind_ret
    by (apply liveness_loop; intros i Hi; apply Hsplit, elem_of_range1, Hi).
  simpl. destruct (forallb _ _); reflexivity.
Qed.

(** The first chain whose [sacct] command line cannot be split ends the
    check with [ValueError]. *)
Lemma liveness_loop_raises (id : string) (l1 l2 : list Z) (i : Z) :
  (forall j, In j l1 -> Shlex.splits (sacct_command (subtask_id_of id j))) ->
  Shlex.split (sacct_command (subtask_id_of id i)) = None ->
  forall acc st,
    for_loop (l1 ++ i :: l2)
      (fun every_chain_is_running i =>
         srun_proc_out ← popen w (sacct_command (subtask_id_of id i));
         let first_line := first_line_of srun_proc_out in
         if chain_is_running first_line then mret every_chain_is_running
         else mret false)
      acc st
    = (Raise ValueError, st).
Proof.
  intros Hsplit Hnone. induction l1 as [|j l1 IH]; intros acc st; cbn [app for_loop].
  - apply bind_raise. apply bind_raise, popen_raises, Hnone.
  - erewrite bind_ret by (apply liveness_round, Hsplit; left; reflexivity).
    apply IH. intros k Hk. apply Hsplit. right. exact Hk.
Qed.

Lemma check_chains_running_no_scheduler st :
  no_scheduler w -> check_chains_running w chains st = (Ret tt, st).
Proof.
  intros (slurm_job_id & Hid & Hnone). unfold check_chains_running.
  erewrite bind_ret by (unfold lift; rewrite Hid; reflexivity).
  rewrite Hnone. reflexivity.
Qed.

End Liveness.

(** C8, as stated, fails: the step of chain 1 is named [RUNNING_pb] and has
    failed; its status line is not the marker [RUNNING], none of its fields
    is the marker, and yet the chain counts as running and the liveness
    check passes. *)
Lemma failed_step_counts_as_running :
  chain_is_running Scenario.failed_step = true
  /\ Scenario.failed_step <> "RUNNING"
  /\ ~ In "RUNNING" (Py.re_split_spaces Scenario.failed_step)
  /\ check_chains_running Scenario.world_failed_step 2 Scenario.st0
     = (Ret tt, Scenario.st0).
Proof.
  split; [vm_compute; reflexivity|].
  split; [discriminate|].
  split; [|vm_compute; reflexivity].
  vm_compute. intros H. repeat (destruct H as [H|H]; [discriminate|]). exact H.
Qed.

Lemma rstrip_blank_length (s : string) :
  Nat.eqb (String.length (Py.rstrip s)) 0 = false <-> Py.rstrip s <> EmptyString.
Proof.
  destruct (Py.rstrip s); simpl; split; intros; try discriminate; try reflexivity.
  contradiction.
Qed.

(** C8, amended.  Under a scheduler identifier the liveness check takes a
    chain for running if and only if the first line of the status that
    [sacct] gives for it is not blank and contains the marker [RUNNING] as
    a substring (not necessarily as the whole line or as a whole field).
    If the status of some chain 1..N has been obtained (its [sacct] command
    line was split and run) and the chain is not running by that test,
    [check_convergence] aborts at once with exit code 4 (not the launch
    timeout's 3): no second has passed and no command has been issued, so
    nothing is retried or restarted.  If all are running, the check passes
    and the cycle goes on. *)
Theorem check_convergence_exits_4_when_not_running `{PyFloat}
    (w : world) (self : PBStarter) (infile pb_args : string)
    (chains processes : Z) (st : state) (slurm_job_id : option string)
    (id : string) :
  get_slurm_job_id w = Ret slurm_job_id ->
  scheduler_id slurm_job_id = Some id ->
  (forall line,
      chain_is_running line = true
      <-> Py.rstrip line <> EmptyString
          /\ exists a b, line = a +:+ "RUNNING" +:+ b)
  /\ ((exists i, 1 <= i <= chains
                 /\ Shlex.splits (sacct_command (subtask_id_of id i))
                 /\ chain_is_running (status_line w id (clock st) i) = false) ->
      check_convergence w self infile pb_args chains processes st = (Exit 4, st)
      /\ (Exit 4 : outcome unit) <> Exit 3)
  /\ ((forall i, 1 <= i <= chains ->
                 Shlex.splits (sacct_command (subtask_id_of id i))
                 /\ chain_is_running (status_line w id (clock st) i) = true) ->
      check_chains_running w chains st = (Ret tt, st)).
Proof.
  intros Hid Hsid. split; [|split].
  - intros line. unfold chain_is_running.
    rewrite andb_true_iff, negb_true_iff, rstrip_blank_length, contains_spec.
    reflexivity.
  - intros (i & Hi & Hsplit & Hdown). split; [|discriminate].
    unfold check_convergence.
    erewrite bind_exit; [reflexivity|].
    rewrite (check_chains_running_scheduler w chains slurm_job_id id st Hid Hsid)
      by (intros j _; exact (sacct_command_splits id i j Hsplit)).
    replace (forallb _ _) with false; [reflexivity|].
    symmetry. apply not_true_is_false. intros Hall.
    rewrite forallb_forall in Hall.
    specialize (Hall i (proj2 (elem_of_range1 chains i) Hi)). congruence.
  - intros Hall.
    rewrite (check_chains_running_scheduler w chains slurm_job_id id st Hid Hsid)
      by (intros j Hj; apply (Hall j Hj)).
    replace (forallb _ _) with true; [reflexivity|].
    symmetry. apply forallb_forall. intros i Hi. apply Hall, elem_of_range1, Hi.
Qed.

Lemma check_convergence_exits_4_when_not_running_witness :
  check_convergence Scenario.world_pending Scenario.defaults "aln.phy" "-cat -gtr" 2 1
    Scenario.st0
  = (Exit 4, Scenario.st0).
Proof.
  destruct (check_convergence_exits_4_when_not_running
              Scenario.world_pending Scenario.defaults "aln.phy" "-cat -gtr" 2 1
              Scenario.st0 (Some "42") "42" eq_refl eq_refl)
    as (_ & Hexit & _).
  apply Hexit. exists 1. split; [lia|].
  split; [eexists; vm_compute; reflexivity | vm_compute; reflexivity].
Defined.

(** *** The poll cycle: counting the samples *)

Lemma py_index_app_last {A} (l : list A) (x : A) (i : Z) :
  Z.of_nat (length l) = i -> py_index (l ++ [x]) i = Ret x.
Proof.
  intros <-. unfold py_index. rewrite length_app. simpl length.
  destruct (Z.ltb_spec (Z.of_nat (length l)) 0); [lia|].
  destruct (Z.leb_spec 0 (Z.of_nat (length l))); [|lia].
  destruct (Z.ltb_spec (Z.of_nat (length l)) (Z.of_nat (length l + 1))); [|lia].
  simpl. rewrite Nat2Z.id, lookup_app_r, Nat.sub_diag by lia. reflexivity.
Qed.

Section Counting.

Context `{PyFloat}.
Variable w : world.
Variable self : PBStarter.
Variables infile pb_args : string.
Variable processes : Z.

Lemma count_round_missing num_samples i st :
  files w !! trace_file infile pb_args processes i = None ->
  count_round w self infile pb_args processes num_samples i st
  = (Raise FileNotFoundError, st).
Proof.
  intros Hnone. unfold count_round, open, trace_file in *. rewrite Hnone.
  reflexivity.
Qed.

Lemma count_round_present num_samples i st content :
  files w !! trace_file infile pb_args processes i = Some content ->
  Z.of_nat (length num_samples) = i - 1 ->
  exists st',
    count_round w self infile pb_args processes num_samples i st
    = (Ret (num_samples ++ [Py.count_lines content]), st').
Proof.
  intros Hsome Hlen. unfold count_round, open, trace_file in *. rewrite Hsome.
  munfold. cbn beta iota zeta. rewrite (py_index_app_last _ _ _ Hlen).
  destruct (MAX_SAMPLE_SIZE self <? Py.count_lines content); eauto.
Qed.

Lemma count_loop_missing (k : nat) :
  forall num_samples st,
    (exists i, In i (map Z.of_nat (seq (S (length num_samples)) k))
               /\ files w !! trace_file infile pb_args processes i = None) ->
    exists st',
      for_loop (map Z.of_nat (seq (S (length num_samples)) k))
        (count_round w self infile pb_args processes) num_samples st
      = (Raise FileNotFoundError, st').
Proof.
  induction k as [|k IH]; intros num_samples st (i & Hin & Hnone).
  - destruct Hin.
  - cbn [seq map for_loop].
    destruct (files w !! trace_file infile pb_args processes (Z.of_nat (S (length num_samples))))
      as [content|] eqn:Hfile.
    + destruct (count_round_present num_samples _ st content Hfile ltac:(lia)) as [st1 Hround].
      rewrite (bind_ret _ _ _ _ _ Hround).
      specialize (IH (num_samples ++ [Py.count_lines content]) st1).
      rewrite length_app in IH. simpl length in IH.
      replace (length num_samples + 1)%nat with (S (length num_samples)) in IH by lia.
      apply IH. exists i. split; [|exact Hnone].
      cbn [seq map] in Hin. destruct Hin as [<-|Hin]; [congruence | exact Hin].
    + exists st. apply bind_raise, count_round_missing, Hfile.
Qed.

(** A chain without sample file stops the counting with an exception. *)
Lemma count_samples_missing chains i st :
  1 <= i <= chains ->
  files w !! trace_file infile pb_args processes i = None ->
  exists st',
    count_samples w self infile pb_args chains processes st
    = (Raise FileNotFoundError, st').
Proof.
  intros Hi Hnone. unfold count_samples, Py.range1.
  apply (count_loop_missing (Z.to_nat chains) [] st).
  exists i. split; [|exact Hnone]. apply elem_of_range1, Hi.
Qed.

End Counting.

(** C3, as stated, fails: the second chain has no sample file, and the
    counting step yields no count at all, it raises [FileNotFoundError],
    which ends the cycle. *)
Lemma missing_trace_is_not_zero_samples :
  files Scenario.world_no_trace !! "aln_cat_gtr_1_chain2.trace" = None
  /\ (forall num_samples st',
        count_samples Scenario.world_no_trace Scenario.defaults "aln.phy" "-cat -gtr" 2 1
          Scenario.st0 <> (Ret num_samples, st'))
  /\ check_convergence Scenario.world_no_trace Scenario.defaults "aln.phy" "-cat -gtr" 2 1
       Scenario.st0 = (Raise FileNotFoundError, Scenario.st0).
Proof.
  split; [vm_compute; reflexivity|]. split; [|vm_compute; reflexivity].
  intros num_samples st'.
  replace (count_samples Scenario.world_no_trace Scenario.defaults "aln.phy" "-cat -gtr" 2 1
             Scenario.st0)
    with (@Raise (list Z) FileNotFoundError, Scenario.st0)
    by (vm_compute; reflexivity).
  discriminate.
Qed.

(** C3, amended.  For every chain 1..N whose sample file [<prefix>.trace]
    does not exist, the counting step of a poll cycle that has passed the
    liveness check raises [FileNotFoundError]: no count is produced and
    [check_convergence] ends with that exception. *)
Theorem check_convergence_missing_trace_raises `{PyFloat}
    (w : world) (self : PBStarter) (infile pb_args : string)
    (chains processes i : Z) (st st1 : state) :
  1 <= i <= chains ->
  files w !! trace_file infile pb_args processes i = None ->
  check_chains_running w chains st = (Ret tt, st1) ->
  exists st',
    count_samples w self infile pb_args chains processes st1
    = (Raise FileNotFoundError, st')
    /\ check_convergence w self infile pb_args chains processes st
       = (Raise FileNotFoundError, st').
Proof.
  intros Hi Hnone Hlive.
  destruct (count_samples_missing w self infile pb_args processes chains i st1 Hi Hnone)
    as [st' Hcount].
  exists st'. split; [exact Hcount|].
  unfold check_convergence.
  rewrite (bind_ret _ _ _ _ _ Hlive).
  apply bind_raise, Hcount.
Qed.

Lemma check_convergence_missing_trace_raises_witness :
  exists st',
    count_samples Scenario.world_no_trace Scenario.defaults "aln.phy" "-cat -gtr" 2 1
      Scenario.st0 = (Raise FileNotFoundError, st')
    /\ check_convergence Scenario.world_no_trace Scenario.defaults "aln.phy" "-cat -gtr" 2 1
         Scenario.st0 = (Raise FileNotFoundError, st').
Proof.
  apply (check_convergence_missing_trace_raises
           Scenario.world_no_trace Scenario.defaults "aln.phy" "-cat -gtr" 2 1 2
           Scenario.st0 Scenario.st0).
  - lia.
  - vm_compute; reflexivity.
  - vm_compute; reflexivity.
Defined.

(** *** The poll cycle: reading the reports *)

Lemma py_index_nonneg {A} (l : list A) (i : Z) :
  0 <= i ->
  py_index l i = match l !! Z.to_nat i with
                 | Some x => Ret x
                 | None => Raise IndexError
                 end.
Proof.
  intros Hi. unfold py_index.
  destruct (Z.ltb_spec i 0); [lia|].
  destruct (Z.leb_spec 0 i); [|lia]. simpl.
  destruct (Z.ltb_spec i (Z.of_nat (length l))); [reflexivity|].
  rewrite lookup_ge_None_2 by lia. reflexivity.
Qed.

Lemma py_index_last {A} (l : list A) (d : A) :
  l <> [] -> py_index l (-1) = Ret (List.last l d).
Proof.
  intros Hne. destruct (exists_last Hne) as (l' & x & ->).
  rewrite last_last. unfold py_index. rewrite length_app. simpl length.
  destruct (Z.ltb_spec (-1) 0); [|lia].
  destruct (Z.leb_spec 0 (-1 + Z.of_nat (length l' + 1))); [|lia].
  destruct (Z.ltb_spec (-1 + Z.of_nat (length l' + 1)) (Z.of_nat (length l' + 1))); [|lia].
  simpl. replace (Z.to_nat (-1 + Z.of_nat (length l' + 1))) with (length l') by lia.
  rewrite lookup_app_r, Nat.sub_diag by lia. reflexivity.
Qed.

Lemma re_split_from_nonempty (s : string) :
  forall in_run cur, Py.re_split_from in_run cur s <> [].
Proof.
  induction s as [|c s IH]; intros in_run cur; simpl; [discriminate|].
  destruct (Py.is_space c); [destruct in_run|]; try apply IH; discriminate.
Qed.

Lemma fields_of_nonempty (line : string) : fields_of line <> [].
Proof. apply re_split_from_nonempty. Qed.

Section Reading.

Context `{PyFloat}.
Variable self : PBStarter.

(** A round of the loop over [bpcomp]'s lines. *)
Lemma bpcomp_line_cases (bp_res : Z) (line : string) :
  (~ malformed_maxdiff line /\ ~ passing_maxdiff self line
   /\ bpcomp_line self bp_res line = Ret bp_res)
  \/ (~ malformed_maxdiff line /\ passing_maxdiff self line
      /\ bpcomp_line self bp_res line = Ret 1)
  \/ (malformed_maxdiff line /\ bpcomp_line self bp_res line = Raise ValueError).
Proof.
  unfold bpcomp_line, malformed_maxdiff, passing_maxdiff.
  destruct (Py.startswith line "maxdiff") eqn:Hstart.
  - fold (fields_of line).
    rewrite (py_index_last _ EmptyString (fields_of_nonempty line)).
    unfold py_float. munfold.
    destruct (float_of_str (List.last (fields_of line) EmptyString)) as [x|] eqn:Hfloat.
    + destruct (float_le x (BPCOMP_MAXDIFF self)) eqn:Hle.
      * right. left. split; [intros [_ ?]; discriminate|].
        split; [|reflexivity]. split; [reflexivity|]. exists x. auto.
      * left. split; [intros [_ ?]; discriminate|].
        split; [|reflexivity]. intros (_ & y & Hy & Hyle). congruence.
    + right. right. split; [split; reflexivity | reflexivity].
  - left. split; [intros [? _]; discriminate|].
    split; [intros [? _]; discriminate | reflexivity].
Qed.

(** The loop over [bpcomp]'s lines raises [ValueError] at the first
    malformed [maxdiff] line; without one it ends with [bp_res = 1] exactly
    when it started so or some [maxdiff] line passes. *)
Lemma bpcomp_loop_outcome (lines : list string) :
  forall bp_res,
    (Exists malformed_maxdiff lines
     /\ for_pure lines (bpcomp_line self) bp_res = Raise ValueError)
    \/ (~ Exists malformed_maxdiff lines
        /\ exists r,
             for_pure lines (bpcomp_line self) bp_res = Ret r
             /\ (r = bp_res \/ r = 1)
             /\ (r = 1 <-> bp_res = 1 \/ Exists (passing_maxdiff self) lines)).
Proof.
  induction lines as [|line lines IH]; intros bp_res.
  - right. split; [intros Hex; inversion Hex|].
    exists bp_res. split; [reflexivity|]. split; [auto|].
    split; [auto | intros [?|Hex]; [assumption | inversion Hex]].
  - cbn [for_pure].
    destruct (bpcomp_line_cases bp_res line)
      as [(Hnm & Hnp & ->) | [(Hnm & Hp & ->) | (Hm & ->)]];
      munfold.
    + destruct (IH bp_res) as [(Hex & ->) | (Hnex & r & -> & Hr & Hiff)].
      * left. split; [right; exact Hex | reflexivity].
      * right. split; [intros Hex; inversion Hex; contradiction|].
        exists r. split; [reflexivity|]. split; [exact Hr|].
        rewrite Hiff. split; intros [?|Hex]; auto.
        inversion Hex; [contradiction | auto].
    + destruct (IH 1) as [(Hex & ->) | (Hnex & r & -> & Hr & Hiff)].
      * left. split; [right; exact Hex | reflexivity].
      * right. split; [intros Hex; inversion Hex; contradiction|].
        exists r. split; [reflexivity|].
        assert (r = 1) as -> by (destruct Hr; assumption).
        split; [auto|]. split; [intros _; right; left; exact Hp | reflexivity].
    + left. split; [left; exact Hm | reflexivity].
Qed.

Lemma is_parameter_row_fields (line : string) :
  is_parameter_row line = true ->
  exists name field1 rest,
    fields_of line = name :: field1 :: rest /\ String.eqb name "name" = false.
Proof.
  unfold is_parameter_row. intros Hrow.
  apply andb_true_iff in Hrow as [Hlen Hname].
  destruct (fields_of line) as [|name [|field1 rest]]; simpl in Hlen; try discriminate.
  exists name, field1, rest. split; [reflexivity|].
  simpl in Hname. apply negb_true_iff in Hname. exact Hname.
Qed.

(** A round of the loop over [tracecomp]'s lines. *)
Lemma tracecomp_line_skip (acc : Z * Z) (line : string) :
  is_parameter_row line = false -> tracecomp_line self acc line = Ret acc.
Proof.
  unfold is_parameter_row, tracecomp_line. fold (fields_of line).
  destruct acc as [tr_res tr_line_number]. intros Hrow.
  destruct (1 <? length (fields_of line))%nat eqn:Hlen; [|reflexivity].
  simpl in Hrow. apply negb_false_iff in Hrow.
  destruct (fields_of line) as [|name rest]; [discriminate|].
  rewrite py_index_nonneg by lia. simpl in *. munfold. rewrite Hrow. reflexivity.
Qed.

Lemma tracecomp_line_row (tr_res tr_line_number : Z) (line : string) effsize_ok reldiff_ok :
  is_parameter_row line = true ->
  row_checks self line = Some (effsize_ok, reldiff_ok) ->
  tracecomp_line self (tr_res, tr_line_number) line
  = Ret (tr_res + Z.b2z effsize_ok + Z.b2z reldiff_ok, tr_line_number + 1).
Proof.
  intros Hrow Hchecks.
  destruct (is_parameter_row_fields line Hrow) as (name & field1 & rest & Hfields & Hname).
  unfold tracecomp_line, row_checks in *. fold (fields_of line).
  rewrite Hfields in *. simpl length.
  rewrite !py_index_nonneg by lia. simpl. munfold. rewrite Hname.
  destruct rest as [|field2 rest]; [discriminate|]. simpl.
  unfold py_float.
  destruct (float_of_str field1) as [x1|]; [|discriminate].
  destruct (float_of_str field2) as [x2|]; [|discriminate].
  injection Hchecks as <- <-.
  destruct (float_le (TRCOMP_EFFSIZE self) x1), (float_le x2 (TRCOMP_RELDIFF self));
    simpl; do 2 f_equal; lia.
Qed.

Lemma tracecomp_line_malformed (acc : Z * Z) (line : string) :
  malformed_row self line ->
  exists e, tracecomp_line self acc line = Raise e
            /\ (e = ValueError \/ e = IndexError).
Proof.
  intros [Hrow Hchecks]. destruct acc as [tr_res tr_line_number].
  destruct (is_parameter_row_fields line Hrow) as (name & field1 & rest & Hfields & Hname).
  unfold tracecomp_line, row_checks in *. fold (fields_of line).
  rewrite Hfields in *. simpl length.
  rewrite !py_index_nonneg by lia. simpl. munfold. rewrite Hname.
  unfold py_float.
  destruct (float_of_str field1) as [x1|]; [|eauto].
  destruct rest as [|field2 rest]; simpl; [eauto|].
  destruct (float_of_str field2) as [x2|]; [discriminate | eauto].
Qed.

Lemma row_checks_cases (line : string) :
  is_parameter_row line = true ->
  malformed_row self line \/ exists b1 b2, row_checks self line = Some (b1, b2).
Proof.
  intros Hrow. unfold malformed_row.
  destruct (row_checks self line) as [[b1 b2]|]; eauto.
Qed.

Lemma passes_of_cons (line : string) (lines : list string) :
  passes_of self (line :: lines) = checks_passed self line + passes_of self lines.
Proof. reflexivity. Qed.

Lemma rows_of_cons (line : string) (lines : list string) :
  rows_of (line :: lines) = Z.b2z (is_parameter_row line) + rows_of lines.
Proof. reflexivity. Qed.

(** Without a malformed row the loop over [tracecomp]'s lines counts the
    parameter rows in [tr_line_number] and the checks they pass in
    [tr_res]. *)
Lemma tracecomp_loop_counts (lines : list string) :
  forall tr_res tr_line_number,
    ~ Exists (malformed_row self) lines ->
    for_pure lines (tracecomp_line self) (tr_res, tr_line_number)
    = Ret (tr_res + passes_of self lines, tr_line_number + rows_of lines).
Proof.
  induction lines as [|line lines IH]; intros tr_res tr_line_number Hwf.
  - simpl. do 2 f_equal; lia.
  - cbn [for_pure]. rewrite passes_of_cons, rows_of_cons. unfold checks_passed.
    destruct (is_parameter_row line) eqn:Hrow.
    + destruct (row_checks_cases line Hrow) as [Hbad | (b1 & b2 & Hchecks)].
      * exfalso. apply Hwf. left. exact Hbad.
      * rewrite (tracecomp_line_row _ _ _ _ _ Hrow Hchecks), Hchecks. munfold.
        rewrite IH by (intros Hex; apply Hwf; right; exact Hex).
        simpl Z.b2z. do 2 f_equal; lia.
    + rewrite (tracecomp_line_skip _ _ Hrow). munfold.
      rewrite IH by (intros Hex; apply Hwf; right; exact Hex).
      simpl Z.b2z. do 2 f_equal; lia.
Qed.

(** A malformed row makes the loop raise. *)
Lemma tracecomp_loop_malformed (lines : list string) :
  forall acc,
    Exists (malformed_row self) lines ->
    exists e, for_pure lines (tracecomp_line self) acc = Raise e
              /\ (e = ValueError \/ e = IndexError).
Proof.
  induction lines as [|line lines IH]; intros acc Hex; [inversion Hex|].
  cbn [for_pure].
  destruct (is_parameter_row line) eqn:Hrow.
  - destruct (row_checks_cases line Hrow) as [Hbad | (b1 & b2 & Hchecks)].
    + destruct (tracecomp_line_malformed acc line Hbad) as (e & -> & He).
      exists e. split; [reflexivity | exact He].
    + destruct acc as [tr_res tr_line_number].
      rewrite (tracecomp_line_row _ _ _ _ _ Hrow Hchecks). munfold.
      apply IH. inversion Hex as [? ? [_ Hnone]|]; [congruence | assumption].
  - rewrite (tracecomp_line_skip _ _ Hrow). munfold.
    apply IH. inversion Hex as [? ? [Hrow' _]|]; [congruence | assumption].
Qed.

End Reading.

(** *** The poll cycle: the decision *)

Section Evaluation.

Context `{PyFloat}.
Variable w : world.
Variable self : PBStarter.
Variables infile pb_args : string.
Variables chains processes : Z.

Lemma stop_loop (l : list Z) :
  forall st,
    for_loop l (fun _ i => os_system (stoppb_command infile pb_args processes i)) tt st
    = (Ret tt,
       mkState (clock st) (issued st ++ map (stoppb_command infile pb_args processes) l)).
Proof.
  induction l as [|i l IH]; intros st; cbn [for_loop map].
  - rewrite app_nil_r. destruct st; reflexivity.
  - erewrite bind_ret by reflexivity. rewrite IH. cbn [clock issued].
    rewrite <- app_assoc. reflexivity.
Qed.

Lemma stop_all_and_exit_spec (st : state) :
  stop_all_and_exit infile pb_args chains processes st
  = (Exit 0, all_stopped infile pb_args chains processes st).
Proof.
  unfold stop_all_and_exit. erewrite bind_ret by apply stop_loop. reflexivity.
Qed.

Lemma evaluate_diagnostics_spec (min_samples : Z) (st : state) bp_res tr_res tr_line_number :
  diagnostics_split infile pb_args chains processes min_samples ->
  for_pure (bpcomp_lines w infile pb_args chains processes min_samples (clock st))
    (bpcomp_line self) 0 = Ret bp_res ->
  for_pure (tracecomp_lines w infile pb_args chains processes min_samples (clock st))
    (tracecomp_line self) (0, 0) = Ret (tr_res, tr_line_number) ->
  evaluate_diagnostics w self infile pb_args chains processes min_samples st
  = if (bp_res =? 1) && (tr_res =? tr_line_number)
    then (Exit 0, all_stopped infile pb_args chains processes st)
    else (Ret tt, st).
Proof.
  unfold bpcomp_lines, tracecomp_lines. intros [Hsb Hst] Hbp Htr.
  unfold evaluate_diagnostics.
  erewrite bind_ret by apply popen_splits, Hsb. cbn zeta.
  erewrite bind_ret by (unfold lift; rewrite Hbp; reflexivity).
  erewrite bind_ret by apply popen_splits, Hst. cbn zeta.
  erewrite bind_ret by (unfold lift; rewrite Htr; reflexivity).
  cbn beta iota.
  destruct ((bp_res =? 1) && (tr_res =? tr_line_number));
    [apply stop_all_and_exit_spec | reflexivity].
Qed.

(** A command line that cannot be split ends the evaluation with
    [ValueError] before the tool is run. *)
Lemma evaluate_diagnostics_bpcomp_not_split (min_samples : Z) (st : state) :
  Shlex.split
    (diagnostic_command infile pb_args chains processes "bpcomp" (Z.quot min_samples 4))
  = None ->
  evaluate_diagnostics w self infile pb_args chains processes min_samples st
  = (Raise ValueError, st).
Proof.
  intros Hnone. unfold evaluate_diagnostics. apply bind_raise, popen_raises, Hnone.
Qed.

(** A malformed line ends the evaluation with an exception, in the state
    in which it began. *)
Lemma evaluate_diagnostics_malformed (min_samples : Z) (st : state) :
  Exists malformed_maxdiff
    (bpcomp_lines w infile pb_args chains processes min_samples (clock st))
  \/ Exists (malformed_row self)
       (tracecomp_lines w infile pb_args chains processes min_samples (clock st)) ->
  exists e,
    evaluate_diagnostics w self infile pb_args chains processes min_samples st
    = (Raise e, st)
    /\ (e = ValueError \/ e = IndexError).
Proof.
  unfold bpcomp_lines, tracecomp_lines. intros Hbad. unfold evaluate_diagnostics.
  destruct (popen_outcome w
              (diagnostic_command infile pb_args chains processes "bpcomp"
                 (Z.quot min_samples 4)) st) as [Hb | Hb].
  2: { exists ValueError. split; [apply bind_raise, Hb | left; reflexivity]. }
  rewrite (bind_ret _ _ _ _ _ Hb). cbn zeta.
  match goal with
  | |- context [for_pure ?lines (bpcomp_line self) 0] =>
      destruct (bpcomp_loop_outcome self lines 0)
        as [[_ Hraise] | (Hnone & r & Hr & _)]
  end.
  - exists ValueError. split; [|left; reflexivity].
    apply bind_raise. unfold lift. rewrite Hraise. reflexivity.
  - erewrite bind_ret by (unfold lift; rewrite Hr; reflexivity).
    destruct Hbad as [Hbp | Htr]; [contradiction|].
    destruct (popen_outcome w
                (diagnostic_command infile pb_args chains processes "tracecomp"
                   (Z.quot min_samples 4)) st) as [Ht | Ht].
    2: { exists ValueError. split; [apply bind_raise, Ht | left; reflexivity]. }
    rewrite (bind_ret _ _ _ _ _ Ht). cbn zeta.
    destruct (tracecomp_loop_malformed self _ (0, 0) Htr) as (e & Hraise & He).
    exists e. split; [|exact He].
    apply bind_raise. unfold lift. rewrite Hraise. reflexivity.
Qed.

(** A cycle with enough samples evaluates the diagnostics, and does nothing
    else: the sample cap of line 283 is not looked at. *)
Lemma check_convergence_evaluates (st st2 : state) (min_samples : Z) :
  reaches_evaluation self w infile pb_args chains processes st st2 min_samples ->
  check_convergence w self infile pb_args chains processes st
  = evaluate_diagnostics w self infile pb_args chains processes min_samples st2.
Proof.
  intros (st1 & num_samples & Hlive & Hcount & Hmin & Henough).
  unfold check_convergence.
  rewrite (bind_ret _ _ _ _ _ Hlive), (bind_ret _ _ _ _ _ Hcount).
  erewrite bind_ret by (unfold lift; rewrite Hmin; reflexivity).
  destruct (Z.leb_spec (MIN_SAMPLE_SIZE self) min_samples); [reflexivity | lia].
Qed.

(** The rule the script applies: converged exactly when some [maxdiff] line
    passes and the number of checks passed EQUALS the number of parameter
    rows. *)
Lemma check_convergence_decision (st st2 : state) (min_samples : Z) :
  reaches_evaluation self w infile pb_args chains processes st st2 min_samples ->
  diagnostics_split infile pb_args chains processes min_samples ->
  let bp := bpcomp_lines w infile pb_args chains processes min_samples (clock st2) in
  let tr := tracecomp_lines w infile pb_args chains processes min_samples (clock st2) in
  ~ Exists malformed_maxdiff bp ->
  ~ Exists (malformed_row self) tr ->
  (Exists (passing_maxdiff self) bp /\ passes_of self tr = rows_of tr ->
   check_convergence w self infile pb_args chains processes st
   = (Exit 0, all_stopped infile pb_args chains processes st2))
  /\ (~ (Exists (passing_maxdiff self) bp /\ passes_of self tr = rows_of tr) ->
      check_convergence w self infile pb_args chains processes st = (Ret tt, st2)).
Proof.
  intros Hreach Hsplit bp tr Hbp Htr.
  rewrite (check_convergence_evaluates _ _ _ Hreach).
  destruct (bpcomp_loop_outcome self bp 0) as [[Hex _] | (_ & r & Hr & Hcases & Hiff)];
    [contradiction|].
  pose proof (tracecomp_loop_counts self tr 0 0 Htr) as Hcount.
  rewrite (evaluate_diagnostics_spec _ _ _ _ _ Hsplit Hr Hcount).
  rewrite !Z.add_0_l.
  destruct (Z.eqb_spec r 1) as [Hr1|Hr1];
    destruct (Z.eqb_spec (passes_of self tr) (rows_of tr)) as [Heq|Hne]; simpl; split;
    try reflexivity; try tauto.
  intros Hnot. exfalso. apply Hnot. split; [|exact Heq].
  apply Hiff in Hr1 as [?|?]; [discriminate | assumption].
Qed.

Lemma passes_of_all_pass (lines : list string) :
  Forall (fun line => is_parameter_row line = true ->
                      row_checks self line = Some (true, true)) lines ->
  passes_of self lines = 2 * rows_of lines.
Proof.
  induction 1 as [|line lines Hline _ IH]; [reflexivity|].
  rewrite passes_of_cons, rows_of_cons, IH. unfold checks_passed.
  destruct (is_parameter_row line); simpl Z.b2z; [rewrite Hline by reflexivity|]; simpl; lia.
Qed.

Lemma rows_of_nonneg (lines : list string) : 0 <= rows_of lines.
Proof.
  induction lines as [|line lines IH]; [reflexivity|].
  rewrite rows_of_cons. destruct (is_parameter_row line); simpl Z.b2z; lia.
Qed.

(** In general: a report in which every parameter row passes both of its
    checks, and which has at least one row, is never taken for converged. *)
Lemma check_convergence_rejects_passing_rows (st st2 : state) (min_samples : Z) :
  reaches_evaluation self w infile pb_args chains processes st st2 min_samples ->
  diagnostics_split infile pb_args chains processes min_samples ->
  let bp := bpcomp_lines w infile pb_args chains processes min_samples (clock st2) in
  let tr := tracecomp_lines w infile pb_args chains processes min_samples (clock st2) in
  ~ Exists malformed_maxdiff bp ->
  Forall (fun line => is_parameter_row line = true ->
                      row_checks self line = Some (true, true)) tr ->
  0 < rows_of tr ->
  check_convergence w self infile pb_args chains processes st = (Ret tt, st2).
Proof.
  intros Hreach Hsplit bp tr Hbp Hall Hrows.
  apply (check_convergence_decision st st2 min_samples Hreach Hsplit Hbp).
  - intros Hex. apply Exists_exists in Hex as (line & Hin & Hrow & Hnone).
    rewrite Forall_forall in Hall. rewrite (Hall line Hin Hrow) in Hnone. discriminate.
  - intros [_ Heq]. fold tr in Heq. rewrite (passes_of_all_pass tr Hall) in Heq. lia.
Qed.

End Evaluation.

(** C1: the script compares the pass counter with the number of parameter
    rows, not with twice that number.  In scenario A (maxdiff 0.05 against
    0.3, two rows that pass both checks: 4 checks passed, 2 rows) the cycle
    returns without stopping a chain, where the chains should have been
    declared converged; and with two rows that each fail one check (2 checks
    passed, 2 rows) every chain is stopped and the process exits with code
    0, where the failed checks should have blocked convergence. *)
Theorem scenario_A_is_not_declared_converged :
  (passes_of Scenario.defaults
     (tracecomp_lines Scenario.world_A "aln.phy" "-cat -gtr" 2 1 7000 0) = 4
   /\ rows_of (tracecomp_lines Scenario.world_A "aln.phy" "-cat -gtr" 2 1 7000 0) = 2
   /\ check_convergence Scenario.world_A Scenario.defaults "aln.phy" "-cat -gtr" 2 1
        Scenario.st0 = (Ret tt, Scenario.st0))
  /\ (passes_of Scenario.defaults
        (tracecomp_lines Scenario.world_half "aln.phy" "-cat -gtr" 2 1 7000 0) = 2
      /\ rows_of (tracecomp_lines Scenario.world_half "aln.phy" "-cat -gtr" 2 1 7000 0) = 2
      /\ check_convergence Scenario.world_half Scenario.defaults "aln.phy" "-cat -gtr" 2 1
           Scenario.st0
         = (Exit 0,
            mkState 0 ["stoppb aln_cat_gtr_1_chain1"; "stoppb aln_cat_gtr_1_chain2"])).
Proof. repeat split; vm_compute; reflexivity. Qed.

(** C2: with enough samples for the evaluation the sample cap is never
    looked at.  Both chains hold 100000 samples, the cap, and have not
    converged (maxdiff 0.5): the cycle returns and the loop goes on, where
    the process should have exited with code 0. *)
Theorem sample_cap_is_skipped_after_evaluation :
  count_samples Scenario.world_cap Scenario.defaults "aln.phy" "-cat -gtr" 2 1 Scenario.st0
  = (Ret [100000; 100000], Scenario.st0)
  /\ py_min [100000; 100000] = Ret 100000
  /\ MAX_SAMPLE_SIZE Scenario.defaults <= 100000
  /\ check_convergence Scenario.world_cap Scenario.defaults "aln.phy" "-cat -gtr" 2 1
       Scenario.st0 = (Ret tt, Scenario.st0).
Proof.
  split; [vm_compute; reflexivity|]. split; [reflexivity|].
  split; [vm_compute; discriminate|]. vm_compute; reflexivity.
Qed.

(** In general: once the evaluation is reached and does not declare
    convergence, the cycle returns, whatever [MAX_SAMPLE_SIZE] is. *)
Lemma evaluation_returns_whatever_the_cap `{PyFloat} (w : world) (self : PBStarter)
    (infile pb_args : string) (chains processes : Z) (st st2 : state)
    (min_samples bp_res tr_res tr_line_number : Z) :
  reaches_evaluation self w infile pb_args chains processes st st2 min_samples ->
  diagnostics_split infile pb_args chains processes min_samples ->
  MAX_SAMPLE_SIZE self <= min_samples ->
  for_pure (bpcomp_lines w infile pb_args chains processes min_samples (clock st2))
    (bpcomp_line self) 0 = Ret bp_res ->
  for_pure (tracecomp_lines w infile pb_args chains processes min_samples (clock st2))
    (tracecomp_line self) (0, 0) = Ret (tr_res, tr_line_number) ->
  (bp_res =? 1) && (tr_res =? tr_line_number) = false ->
  check_convergence w self infile pb_args chains processes st = (Ret tt, st2).
Proof.
  intros Hreach Hsplit _ Hbp Htr Hno.
  rewrite (check_convergence_evaluates _ _ _ _ _ _ _ _ _ Hreach).
  rewrite (evaluate_diagnostics_spec _ _ _ _ _ _ _ _ _ _ _ Hsplit Hbp Htr), Hno.
  reflexivity.
Qed.

(** C4, as stated, fails: a [maxdiff] line without a number ends the cycle
    with [ValueError], and a parameter row without relative difference ends
    it with [IndexError]; neither is turned into a decision. *)
Lemma malformed_report_is_not_a_decision :
  (bpcomp_lines Scenario.world_bad_maxdiff "aln.phy" "-cat -gtr" 2 1 7000 0
   = ["maxdiff    n/a"]
   /\ check_convergence Scenario.world_bad_maxdiff Scenario.defaults "aln.phy"
        "-cat -gtr" 2 1 Scenario.st0 = (Raise ValueError, Scenario.st0))
  /\ (tracecomp_lines Scenario.world_short_row "aln.phy" "-cat -gtr" 2 1 7000 0
      = ["name      effsize   rel_diff"; "loglik 400"]
      /\ check_convergence Scenario.world_short_row Scenario.defaults "aln.phy"
           "-cat -gtr" 2 1 Scenario.st0 = (Raise IndexError, Scenario.st0)).
Proof. repeat split; vm_compute; reflexivity. Qed.

(** C4, amended.  [check_convergence] catches no exception.  In a cycle
    that reaches the evaluation, a [maxdiff] line whose last field is not a
    number, or a parameter row whose effective size is not a number or whose
    relative difference is missing or not a number, makes
    [check_convergence] raise [ValueError] or [IndexError]: the cycle ends
    with the exception, without a decision and without a command issued. *)
Theorem check_convergence_malformed_report_raises `{PyFloat}
    (w : world) (self : PBStarter) (infile pb_args : string)
    (chains processes : Z) (st st2 : state) (min_samples : Z) :
  reaches_evaluation self w infile pb_args chains processes st st2 min_samples ->
  Exists malformed_maxdiff
    (bpcomp_lines w infile pb_args chains processes min_samples (clock st2))
  \/ Exists (malformed_row self)
       (tracecomp_lines w infile pb_args chains processes min_samples (clock st2)) ->
  exists e,
    check_convergence w self infile pb_args chains processes st = (Raise e, st2)
    /\ (e = ValueError \/ e = IndexError).
Proof.
  intros Hreach Hbad.
  rewrite (check_convergence_evaluates _ _ _ _ _ _ _ _ _ Hreach).
  apply evaluate_diagnostics_malformed, Hbad.
Qed.

Lemma check_convergence_malformed_report_raises_witness :
  exists e,
    check_convergence Scenario.world_short_row Scenario.defaults "aln.phy" "-cat -gtr" 2 1
      Scenario.st0 = (Raise e, Scenario.st0)
    /\ (e = ValueError \/ e = IndexError).
Proof.
  apply (check_convergence_malformed_report_raises
           Scenario.world_short_row Scenario.defaults "aln.phy" "-cat -gtr" 2 1
           Scenario.st0 Scenario.st0 7000).
  - exists Scenario.st0, [7000; 7000].
    split; [vm_compute; reflexivity|]. split; [vm_compute; reflexivity|].
    split; [reflexivity | vm_compute; discriminate].
  - right. apply Exists_cons_tl, Exists_cons_hd. split; vm_compute; reflexivity.
Defined.

(** C10.  In a cycle that reaches the evaluation, whose two diagnostic
    command lines can be split and whose [bpcomp] report has no malformed
    [maxdiff] line: when [tracecomp] prints no line that is read as a
    parameter row (every line is the header or has fewer than two fields),
    the loop over its lines leaves the pass counter and the row counter at
    0, and the decision rests on the pairwise check alone.  If some
    [maxdiff] line has a value within [BPCOMP_MAXDIFF], [check_convergence]
    issues [stoppb <prefix>] for every chain 1..N, in that order, and exits
    with code 0, although no parameter statistics were read; if none has,
    it returns without a command. *)
Theorem check_convergence_without_parameter_rows `{PyFloat}
    (w : world) (self : PBStarter) (infile pb_args : string)
    (chains processes : Z) (st st2 : state) (min_samples : Z) :
  reaches_evaluation self w infile pb_args chains processes st st2 min_samples ->
  diagnostics_split infile pb_args chains processes min_samples ->
  ~ Exists malformed_maxdiff
      (bpcomp_lines w infile pb_args chains processes min_samples (clock st2)) ->
  Forall (fun line => (length (fields_of line) < 2)%nat
                      \/ hd EmptyString (fields_of line) = "name")
    (tracecomp_lines w infile pb_args chains processes min_samples (clock st2)) ->
  for_pure (tracecomp_lines w infile pb_args chains processes min_samples (clock st2))
    (tracecomp_line self) (0, 0) = Ret (0, 0)
  /\ (Exists (passing_maxdiff self)
        (bpcomp_lines w infile pb_args chains processes min_samples (clock st2)) ->
      check_convergence w self infile pb_args chains processes st
      = (Exit 0,
         mkState (clock st2)
           (issued st2
              ++ map (fun i => "stoppb "
                               +:+ generate_output_filename infile pb_args processes i)
                   (Py.range1 chains))))
  /\ (~ Exists (passing_maxdiff self)
          (bpcomp_lines w infile pb_args chains processes min_samples (clock st2)) ->
      check_convergence w self infile pb_args chains processes st = (Ret tt, st2)).
Proof.
  intros Hreach Hsplit Hwf Hrows.
  assert (Hloop : for_pure
            (tracecomp_lines w infile pb_args chains processes min_samples (clock st2))
            (tracecomp_line self) (0, 0) = Ret (0, 0)).
  { induction Hrows as [|line lines Hline _ IH]; [reflexivity|].
    cbn [for_pure]. rewrite tracecomp_line_skip; [exact IH|].
    unfold is_parameter_row. destruct Hline as [Hshort | Hname].
    - destruct (Nat.ltb_spec 1 (length (fields_of line))); [lia | reflexivity].
    - rewrite Hname. simpl. apply andb_false_r. }
  split; [exact Hloop|].
  rewrite (check_convergence_evaluates _ _ _ _ _ _ _ _ _ Hreach).
  destruct (bpcomp_loop_outcome self
              (bpcomp_lines w infile pb_args chains processes min_samples (clock st2)) 0)
    as [[Hex _] | (_ & r & Hr & _ & Hiff)]; [contradiction|].
  rewrite (evaluate_diagnostics_spec _ _ _ _ _ _ _ _ _ _ _ Hsplit Hr Hloop).
  rewrite Z.eqb_refl, andb_true_r.
  split.
  - intros Hpass. assert (r = 1) as -> by (apply Hiff; right; exact Hpass).
    reflexivity.
  - intros Hnone. destruct (Z.eqb_spec r 1) as [Hr1 | _]; [|reflexivity].
    apply Hiff in Hr1 as [? | ?]; [discriminate | contradiction].
Qed.

Lemma check_convergence_without_parameter_rows_witness :
  check_convergence Scenario.world_no_rows Scenario.defaults "aln.phy" "-cat -gtr" 2 1
    Scenario.st0
  = (Exit 0, mkState 0 ["stoppb aln_cat_gtr_1_chain1"; "stoppb aln_cat_gtr_1_chain2"]).
Proof.
  assert (Hlines :
    bpcomp_lines Scenario.world_no_rows "aln.phy" "-cat -gtr" 2 1 7000
      (clock Scenario.st0) = ["maxdiff    0.05"]
    /\ tracecomp_lines Scenario.world_no_rows "aln.phy" "-cat -gtr" 2 1 7000
         (clock Scenario.st0) = ["name      effsize   rel_diff"; EmptyString; "done"])
    by (split; vm_compute; reflexivity).
  destruct Hlines as [Hbp Htr].
  destruct (check_convergence_without_parameter_rows
              Scenario.world_no_rows Scenario.defaults "aln.phy" "-cat -gtr" 2 1
              Scenario.st0 Scenario.st0 7000) as (_ & Hstop & _).
  - exists Scenario.st0, [7000; 7000].
    split; [vm_compute; reflexivity|]. split; [vm_compute; reflexivity|].
    split; [reflexivity | vm_compute; discriminate].
  - split; eexists; vm_compute; reflexivity.
  - rewrite Hbp. intros Hex. inversion Hex as [? ? [_ Hnone] | ? ? Hex'].
    + vm_compute in Hnone. discriminate.
    + inversion Hex'.
  - rewrite Htr.
    constructor; [right; vm_compute; reflexivity|].
    constructor; [left; vm_compute; lia|].
    constructor; [left; vm_compute; lia|].
    constructor.
  - rewrite Hstop; [vm_compute; reflexivity|].
    rewrite Hbp. apply Exists_cons_hd.
    split; [vm_compute; reflexivity|].
    exists (Scenario.threshold "0.05"). split; vm_compute; reflexivity.
Defined.

(** *** What a run may do: time, commands and exit codes *)

Lemma evolves_refl P st : evolves P 0 st st.
Proof.
  split; [lia|]. exists []. rewrite app_nil_r. split; [reflexivity | constructor].
Qed.

Lemma evolves_trans P a b st st1 st2 :
  evolves P a st st1 -> evolves P b st1 st2 -> evolves P (a + b) st st2.
Proof.
  intros [Hc1 (cmds1 & Hi1 & Hp1)] [Hc2 (cmds2 & Hi2 & Hp2)].
  split; [lia|]. exists (cmds1 ++ cmds2).
  split; [rewrite Hi2, Hi1, app_assoc; reflexivity | apply Forall_app; split; assumption].
Qed.

Lemma evolves_weaken P a b st st' :
  (a <= b)%nat -> evolves P a st st' -> evolves P b st st'.
Proof. intros Hab [Hc Hrest]. split; [lia | exact Hrest]. Qed.

Section Bounded.

Context {A : Type}.
Variable P : string -> Prop.
Variable X : Z -> Prop.

Lemma bounded_ret (a : A) : bounded_by P X 0 (mret a : M A).
Proof.
  intros st. split; [apply evolves_refl|]. split; discriminate.
Qed.

Lemma bounded_lift (o : outcome A) : stays o -> bounded_by P X 0 (lift o).
Proof.
  intros [Hexit Hfuel] st. split; [apply evolves_refl|].
  split; [intros code Hcode; destruct (Hexit code Hcode) | exact Hfuel].
Qed.

Lemma bounded_exit (code : Z) : X code -> bounded_by P X 0 (sys_exit code : M A).
Proof.
  intros Hx st. split; [apply evolves_refl|].
  split; [intros c [= <-]; exact Hx | discriminate].
Qed.

Lemma bounded_raise (e : exn) : bounded_by P X 0 (raise e : M A).
Proof. apply bounded_lift. split; [intros code|]; discriminate. Qed.

Lemma bounded_weaken (n n' : nat) (m : M A) :
  (n <= n')%nat -> bounded_by P X n m -> bounded_by P X n' m.
Proof.
  intros Hn Hm st. destruct (Hm st) as (Hev & Hexit & Hfuel).
  split; [eapply evolves_weaken; eassumption|]. split; assumption.
Qed.

End Bounded.

Section BoundedBind.

Context {A B : Type}.
Variable P : string -> Prop.
Variable X : Z -> Prop.

Lemma bounded_bind (n n' : nat) (m : M A) (f : A -> M B) :
  bounded_by P X n m -> (forall a, bounded_by P X n' (f a)) ->
  bounded_by P X (n + n') (m ≫= f).
Proof.
  intros Hm Hf st. destruct (Hm st) as (Hev & Hexit & Hfuel).
  destruct (m st) as [o st1] eqn:Hrun. simpl in Hev, Hexit, Hfuel.
  destruct o as [a | code | e |].
  - rewrite (bind_ret _ _ _ _ _ Hrun).
    destruct (Hf a st1) as (Hev' & Hexit' & Hfuel').
    split; [eapply evolves_trans; eassumption|]. split; assumption.
  - rewrite (bind_exit _ _ _ _ _ Hrun). simpl.
    split; [eapply evolves_weaken; [|exact Hev]; lia|].
    split; [intros c [= <-]; apply Hexit; reflexivity | discriminate].
  - rewrite (bind_raise _ _ _ _ _ Hrun). simpl.
    split; [eapply evolves_weaken; [|exact Hev]; lia|].
    split; discriminate.
  - contradiction.
Qed.

End BoundedBind.

Lemma bounded_for_loop {A B} (P : string -> Prop) (X : Z -> Prop) (n : nat)
    (body : B -> A -> M B) (l : list A) :
  (forall acc x, In x l -> bounded_by P X n (body acc x)) ->
  forall acc, bounded_by P X (length l * n) (for_loop l body acc).
Proof.
  induction l as [|x l IH]; intros Hbody acc; cbn [for_loop length].
  - apply bounded_ret.
  - simpl Nat.mul. apply bounded_bind.
    + apply Hbody. left. reflexivity.
    + intros acc'. apply IH. intros acc'' y Hy. apply Hbody. right. exact Hy.
Qed.

Lemma bounded_for_loop_0 {A B} (P : string -> Prop) (X : Z -> Prop)
    (body : B -> A -> M B) (l : list A) :
  (forall acc x, In x l -> bounded_by P X 0 (body acc x)) ->
  forall acc, bounded_by P X 0 (for_loop l body acc).
Proof.
  intros Hbody acc. apply (bounded_weaken P X (length l * 0)); [lia|].
  apply bounded_for_loop, Hbody.
Qed.

Lemma bounded_os_system P X (cmd : string) : P cmd -> bounded_by P X 0 (os_system cmd).
Proof.
  intros Hp st. unfold os_system. simpl. split; [|split; discriminate].
  split; [simpl; lia|]. exists [cmd]. split; [reflexivity | repeat constructor; exact Hp].
Qed.

Lemma bounded_popen P X (w : world) (cmd : string) : bounded_by P X 0 (popen w cmd).
Proof.
  unfold popen. destruct (Shlex.split cmd); [|apply bounded_raise].
  intros st. split; [apply evolves_refl|]. split; discriminate.
Qed.

Lemma bounded_open P X (w : world) (path : string) : bounded_by P X 0 (open w path).
Proof.
  unfold open. destruct (files w !! path); [apply bounded_ret | apply bounded_raise].
Qed.

Lemma bounded_sleep_1 P X : bounded_by P X 1 sleep_1.
Proof.
  intros st. unfold sleep_1. simpl. split; [|split; discriminate].
  split; [simpl; lia|]. exists []. rewrite app_nil_r. split; [reflexivity | constructor].
Qed.

Lemma stays_ret {A} (a : A) : stays (Ret a).
Proof. split; [intros code|]; discriminate. Qed.

Lemma stays_raise {A} (e : exn) : stays (@Raise A e).
Proof. split; [intros code|]; discriminate. Qed.

Lemma stays_bind {A B} (o : outcome A) (f : A -> outcome B) :
  stays o -> (forall a, stays (f a)) -> stays (o ≫= f).
Proof.
  intros [Hexit Hfuel] Hf. destruct o as [a | code | e |].
  - apply Hf.
  - destruct (Hexit code eq_refl).
  - apply stays_raise.
  - contradiction.
Qed.

Lemma stays_for_pure {A B} (body : B -> A -> outcome B) (l : list A) :
  (forall acc x, stays (body acc x)) -> forall acc, stays (for_pure l body acc).
Proof.
  intros Hbody. induction l as [|x l IH]; intros acc; cbn [for_pure].
  - apply stays_ret.
  - apply stays_bind; [apply Hbody | exact IH].
Qed.

Lemma stays_py_index {A} (l : list A) (i : Z) : stays (py_index l i).
Proof.
  unfold py_index. destruct (_ && _); [|apply stays_raise].
  destruct (l !! _); [apply stays_ret | apply stays_raise].
Qed.

Lemma stays_py_min (l : list Z) : stays (py_min l).
Proof. destruct l; [apply stays_raise | apply stays_ret]. Qed.

Lemma stays_py_float `{PyFloat} (s : string) : stays (py_float s).
Proof. unfold py_float. destruct (float_of_str s); [apply stays_ret | apply stays_raise]. Qed.

Lemma stays_get_slurm_job_id (w : world) : stays (get_slurm_job_id w).
Proof.
  destruct (get_slurm_job_id_outcome w) as [[id ->] | ->];
    [apply stays_ret | apply stays_raise].
Qed.

Lemma stays_bpcomp_line `{PyFloat} (self : PBStarter) (bp_res : Z) (line : string) :
  stays (bpcomp_line self bp_res line).
Proof.
  unfold bpcomp_line. destruct (Py.startswith line "maxdiff"); [|apply stays_ret].
  apply stays_bind; [apply stays_py_index|]. intros last_field.
  apply stays_bind; [apply stays_py_float|]. intros maxdiff.
  destruct (float_le _ _); apply stays_ret.
Qed.

Lemma stays_tracecomp_line `{PyFloat} (self : PBStarter) (acc : Z * Z) (line : string) :
  stays (tracecomp_line self acc line).
Proof.
  unfold tracecomp_line. destruct acc as [tr_res tr_line_number].
  destruct (_ <? _)%nat; [|apply stays_ret].
  apply stays_bind; [apply stays_py_index|]. intros name.
  destruct (String.eqb name "name"); [apply stays_ret|].
  apply stays_bind; [apply stays_py_index|]. intros field1.
  apply stays_bind; [apply stays_py_float|]. intros effsize.
  apply stays_bind; [apply stays_py_index|]. intros field2.
  apply stays_bind; [apply stays_py_float|]. intros reldiff.
  apply stays_ret.
Qed.

Section PollCycle.

Context `{PyFloat}.
Variable w : world.
Variable self : PBStarter.
Variables infile pb_args : string.
Variables chains processes : Z.

Lemma bounded_check_chains_running :
  bounded_by (is_stop_command infile pb_args chains processes)
    (fun code => code = 0 \/ code = 4) 0 (check_chains_running w chains).
Proof.
  unfold check_chains_running.
  apply (bounded_bind _ _ 0 0); [apply bounded_lift, stays_get_slurm_job_id|].
  intros slurm_job_id. destruct (scheduler_id slurm_job_id) as [id|]; [|apply bounded_ret].
  apply (bounded_bind _ _ 0 0).
  - apply bounded_for_loop_0. intros acc i _.
    apply (bounded_bind _ _ 0 0); [apply bounded_popen|]. intros out. cbn zeta.
    destruct (chain_is_running _); apply bounded_ret.
  - intros running. destruct (negb running); [apply bounded_exit | apply bounded_ret].
    right. reflexivity.
Qed.

Lemma bounded_count_samples :
  bounded_by (is_stop_command infile pb_args chains processes)
    (fun code => code = 0 \/ code = 4) 0 (count_samples w self infile pb_args chains processes).
Proof.
  unfold count_samples. apply bounded_for_loop_0. intros num_samples i Hi.
  unfold count_round.
  apply (bounded_bind _ _ 0 0); [apply bounded_open|]. intros trace. cbn zeta.
  apply (bounded_bind _ _ 0 0); [apply bounded_lift, stays_py_index|]. intros n.
  apply (bounded_bind _ _ 0 0); [|intros _; apply bounded_ret].
  destruct (_ <? _); [|apply bounded_ret].
  apply bounded_os_system. exists i. split; [apply elem_of_range1, Hi | reflexivity].
Qed.

Lemma bounded_stop_all_and_exit :
  bounded_by (is_stop_command infile pb_args chains processes)
    (fun code => code = 0 \/ code = 4) 0 (stop_all_and_exit infile pb_args chains processes).
Proof.
  unfold stop_all_and_exit. apply (bounded_bind _ _ 0 0).
  - apply bounded_for_loop_0. intros acc i Hi.
    apply bounded_os_system. exists i. split; [apply elem_of_range1, Hi | reflexivity].
  - intros _. apply bounded_exit. left. reflexivity.
Qed.

Lemma bounded_evaluate_diagnostics (min_samples : Z) :
  bounded_by (is_stop_command infile pb_args chains processes)
    (fun code => code = 0 \/ code = 4) 0
    (evaluate_diagnostics w self infile pb_args chains processes min_samples).
Proof.
  unfold evaluate_diagnostics. cbn zeta.
  apply (bounded_bind _ _ 0 0); [apply bounded_popen|]. intros bp_proc_out.
  apply (bounded_bind _ _ 0 0).
  { apply bounded_lift, stays_for_pure. intros acc x. apply stays_bpcomp_line. }
  intros bp_res.
  apply (bounded_bind _ _ 0 0); [apply bounded_popen|]. intros trc_proc_out.
  apply (bounded_bind _ _ 0 0).
  { apply bounded_lift, stays_for_pure. intros acc x. apply stays_tracecomp_line. }
  intros [tr_res tr_line_number].
  destruct (_ && _); [apply bounded_stop_all_and_exit | apply bounded_ret].
Qed.

Lemma bounded_check_run_flags :
  bounded_by (is_stop_command infile pb_args chains processes)
    (fun code => code = 0 \/ code = 4) 0 (check_run_flags w infile pb_args chains processes).
Proof.
  unfold check_run_flags. apply (bounded_bind _ _ 0 0).
  - apply bounded_for_loop_0. intros acc i _.
    apply (bounded_bind _ _ 0 0); [apply bounded_open|]. intros content.
    destruct (String.eqb content "1"); apply bounded_ret.
  - intros all_running. destruct (negb all_running); [apply bounded_exit | apply bounded_ret].
    left. reflexivity.
Qed.

Lemma bounded_check_convergence :
  bounded_by (is_stop_command infile pb_args chains processes)
    (fun code => code = 0 \/ code = 4) 0 (check_convergence w self infile pb_args chains processes).
Proof.
  unfold check_convergence.
  apply (bounded_bind _ _ 0 0); [apply bounded_check_chains_running|]. intros _.
  apply (bounded_bind _ _ 0 0); [apply bounded_count_samples|]. intros num_samples.
  apply (bounded_bind _ _ 0 0); [apply bounded_lift, stays_py_min|]. intros min_samples.
  destruct (_ <=? _); [apply bounded_evaluate_diagnostics|].
  destruct (_ <=? _); [apply bounded_exit; left; reflexivity|].
  apply bounded_check_run_flags.
Qed.

End PollCycle.

(** X1. Whatever the world and the thresholds, a poll cycle sleeps no
    second, issues nothing but [stoppb] commands for chains 1..N (it never
    launches or restarts a chain), leaves through [sys.exit] only with code
    0 or 4, and ends. *)
Theorem check_convergence_only_stops_chains `{PyFloat}
    (w : world) (self : PBStarter) (infile pb_args : string)
    (chains processes : Z) (st : state) :
  clock (check_convergence w self infile pb_args chains processes st).2 = clock st
  /\ (exists cmds,
        issued (check_convergence w self infile pb_args chains processes st).2
        = issued st ++ cmds
        /\ Forall (is_stop_command infile pb_args chains processes) cmds)
  /\ (forall code,
        (check_convergence w self infile pb_args chains processes st).1 = Exit code ->
        code = 0 \/ code = 4)
  /\ (check_convergence w self infile pb_args chains processes st).1 <> OutOfFuel.
Proof.
  destruct (bounded_check_convergence w self infile pb_args chains processes st)
    as ([Hclock Hcmds] & Hexit & Hfuel).
  split; [lia|]. split; [exact Hcmds|]. split; assumption.
Qed.

(** *** Launch: time and exit code *)

Lemma wait_for_srun_step fuel w subtask_id max_wait waited :
  wait_for_srun (S fuel) w subtask_id max_wait waited
  = (sleep_1;;
     srun_proc_out ← popen w (sacct_command subtask_id);
     if negb (Nat.eqb (String.length (Py.rstrip (first_line_of srun_proc_out))) 0)
     then mret tt
     else if max_wait <? waited + 1 then sys_exit 3
     else wait_for_srun fuel w subtask_id max_wait (waited + 1)).
Proof. reflexivity. Qed.

Lemma bounded_wait_for_srun P w subtask_id max_wait :
  forall (fuel : nat) waited,
    (1 <= fuel)%nat -> max_wait - waited < Z.of_nat fuel ->
    bounded_by P (fun code => code = 3) fuel
      (wait_for_srun fuel w subtask_id max_wait waited).
Proof.
  induction fuel as [|fuel IH]; intros waited Hpos Hfuel; [lia|].
  rewrite wait_for_srun_step.
  apply (bounded_bind _ _ 1 fuel); [apply bounded_sleep_1|]. intros _.
  apply (bounded_bind _ _ 0 fuel); [apply bounded_popen|]. intros out.
  destruct (negb _).
  - apply (bounded_weaken _ _ 0); [lia | apply bounded_ret].
  - destruct (Z.ltb_spec max_wait (waited + 1)).
    + apply (bounded_weaken _ _ 0); [lia | apply bounded_exit; reflexivity].
    + apply IH; lia.
Qed.

Lemma bounded_start_chain w infile pb_args chains processes i :
  1 <= i <= chains ->
  bounded_by (is_launch_command infile pb_args chains processes) (fun code => code = 3) 61
    (start_chain w infile pb_args processes tt i).
Proof.
  intros Hi. unfold start_chain. cbn zeta.
  apply (bounded_bind _ _ 0 61).
  { destruct (path_exists w _); apply bounded_os_system; exists i; auto. }
  intros _.
  apply (bounded_bind _ _ 0 61); [apply bounded_lift, stays_get_slurm_job_id|].
  intros slurm_job_id. destruct (scheduler_id slurm_job_id) as [id|].
  - apply (bounded_wait_for_srun _ w _ 60 61 0); lia.
  - apply (bounded_weaken _ _ 0); [lia | apply bounded_ret].
Qed.

Lemma bounded_start_pb_jobs w infile pb_args chains processes :
  bounded_by (is_launch_command infile pb_args chains processes)
    (fun code => code = 3) (length (Py.range1 chains) * 61)
    (start_pb_jobs w infile pb_args chains processes).
Proof.
  unfold start_pb_jobs. apply bounded_for_loop. intros [] i Hi.
  apply bounded_start_chain, elem_of_range1, Hi.
Qed.

(** X2. The launch is bounded in time and in what it can do: for N chains
    [start_pb_jobs] sleeps at most 61 seconds per chain, issues only launch
    commands of chains 1..N (never a [stoppb]), leaves through [sys.exit]
    only with code 3, and ends. *)
Theorem start_pb_jobs_time_and_exit_code
    (w : world) (infile pb_args : string) (chains processes : Z) (st : state) :
  (clock st <= clock (start_pb_jobs w infile pb_args chains processes st).2
            <= clock st + 61 * Z.to_nat chains)%nat
  /\ (exists cmds,
        issued (start_pb_jobs w infile pb_args chains processes st).2 = issued st ++ cmds
        /\ Forall (is_launch_command infile pb_args chains processes) cmds)
  /\ (forall code,
        (start_pb_jobs w infile pb_args chains processes st).1 = Exit code -> code = 3)
  /\ (start_pb_jobs w infile pb_args chains processes st).1 <> OutOfFuel.
Proof.
  destruct (bounded_start_pb_jobs w infile pb_args chains processes st)
    as ([Hclock Hcmds] & Hexit & Hfuel).
  unfold Py.range1 in Hclock. rewrite length_map, length_seq in Hclock.
  split; [lia|]. split; [exact Hcmds|]. split; assumption.
Qed.

(** *** Launch: the confirmation of one chain *)

(** X3. Under a scheduler, a chain whose status first shows at round [k] of
    the wait (rounds are one second apart, [k <= 61]) is confirmed: the
    launch of the chain returns after exactly [k] seconds, having issued
    its one launch command.  That is so whenever the [sacct] command line
    of the chain can be split into arguments; when it cannot, the launch of
    the chain raises [ValueError] in the first round, after one second. *)
Theorem start_chain_confirmed_at_first_status
    (w : world) (infile pb_args : string) (processes i : Z) (st : state)
    (slurm_job_id : option string) (id : string) (k : nat) :
  get_slurm_job_id w = Ret slurm_job_id ->
  scheduler_id slurm_job_id = Some id ->
  (1 <= k <= 61)%nat ->
  (forall j, (1 <= j < k)%nat -> no_status w (subtask_id_of id i) (clock st + j)) ->
  ~ no_status w (subtask_id_of id i) (clock st + k) ->
  exists cmd,
    launches_as_expected w infile pb_args processes i cmd
    /\ (Shlex.splits (sacct_command (subtask_id_of id i)) ->
        start_chain w infile pb_args processes tt i st
        = (Ret tt, mkState (clock st + k) (issued st ++ [cmd])))
    /\ (Shlex.split (sacct_command (subtask_id_of id i)) = None ->
        start_chain w infile pb_args processes tt i st
        = (Raise ValueError, mkState (clock st + 1) (issued st ++ [cmd]))).
Proof.
  intros Hid Hsid Hk Hblank Hstatus.
  destruct (start_chain_spec w infile pb_args processes i st) as (cmd & Hcmd & Hissued & _).
  exists cmd. split; [exact Hcmd|].
  revert Hissued. unfold start_chain. cbn zeta.
  set (launch := if path_exists w _ then _ else _).
  assert (Hlaunch : exists c, launch st = (Ret tt, mkState (clock st) (issued st ++ [c]))).
  { subst launch. destruct (path_exists w _); eexists; reflexivity. }
  destruct Hlaunch as [c Hlaunch].
  rewrite (bind_ret _ _ _ _ _ Hlaunch).
  erewrite bind_ret by (unfold lift; rewrite Hid; reflexivity).
  rewrite Hsid. change (S (Z.to_nat 60)) with 61%nat.
  intros Hissued.
  assert (c = cmd) as ->.
  { rewrite wait_for_srun_issued in Hissued. simpl in Hissued.
    apply app_inv_head in Hissued. injection Hissued as ->. reflexivity. }
  split.
  - intros Hsplit.
    rewrite (wait_for_srun_confirmed w (subtask_id_of id i) 60 Hsplit k 61 0
               (mkState (clock st) (issued st ++ [cmd]))); try (simpl; lia); try assumption.
    reflexivity.
  - intros Hnone. apply wait_for_srun_not_split, Hnone.
Qed.

Lemma start_chain_confirmed_at_first_status_witness :
  exists cmd,
    launches_as_expected Scenario.world_slow_srun "aln.phy" "-cat -gtr" 1 1 cmd
    /\ start_chain Scenario.world_slow_srun "aln.phy" "-cat -gtr" 1 tt 1 Scenario.st0
       = (Ret tt, mkState (clock Scenario.st0 + 61) (issued Scenario.st0 ++ [cmd])).
Proof.
  destruct (start_chain_confirmed_at_first_status
              Scenario.world_slow_srun "aln.phy" "-cat -gtr" 1 1 Scenario.st0
              (Some "42") "42" 61) as (cmd & Hcmd & Hconfirmed & _).
  - reflexivity.
  - reflexivity.
  - lia.
  - intros j Hj. unfold no_status, Scenario.world_slow_srun. simpl proc_stdout.
    simpl clock. change (0 + j)%nat with j.
    destruct (Nat.ltb_spec 60 j); [lia | reflexivity].
  - vm_compute. discriminate.
  - exists cmd. split; [exact Hcmd|]. apply Hconfirmed.
    eexists. vm_compute. reflexivity.
Defined.

(** X4. Under a scheduler, a chain without status during 61 rounds ends the
    process with exit code 3 after 61 seconds; only its own launch command
    has been issued by then, and no later chain is launched.  That is so
    whenever the [sacct] command line of the chain can be split into
    arguments; when it cannot, the launch raises [ValueError] in the first
    round, after one second, and no later chain is launched either. *)
Theorem start_chain_exits_3_without_status
    (w : world) (infile pb_args : string) (processes i : Z) (st : state)
    (slurm_job_id : option string) (id : string) :
  get_slurm_job_id w = Ret slurm_job_id ->
  scheduler_id slurm_job_id = Some id ->
  (forall j, (1 <= j <= 61)%nat -> no_status w (subtask_id_of id i) (clock st + j)) ->
  exists cmd,
    launches_as_expected w infile pb_args processes i cmd
    /\ (Shlex.splits (sacct_command (subtask_id_of id i)) ->
        start_chain w infile pb_args processes tt i st
        = (Exit 3, mkState (clock st + 61) (issued st ++ [cmd]))
        /\ forall later,
             for_loop (i :: later) (start_chain w infile pb_args processes) tt st
             = (Exit 3, mkState (clock st + 61) (issued st ++ [cmd])))
    /\ (Shlex.split (sacct_command (subtask_id_of id i)) = None ->
        forall later,
          for_loop (i :: later) (start_chain w infile pb_args processes) tt st
          = (Raise ValueError, mkState (clock st + 1) (issued st ++ [cmd]))).
Proof.
  intros Hid Hsid Hblank.
  destruct (start_chain_spec w infile pb_args processes i st) as (cmd & Hcmd & Hissued & _).
  exists cmd. split; [exact Hcmd|].
  revert Hissued. unfold start_chain at 1. cbn zeta.
  set (launch := if path_exists w _ then _ else _).
  assert (Hlaunch : exists c, launch st = (Ret tt, mkState (clock st) (issued st ++ [c]))).
  { subst launch. destruct (path_exists w _); eexists; reflexivity. }
  destruct Hlaunch as [c Hlaunch].
  rewrite (bind_ret _ _ _ _ _ Hlaunch).
  erewrite bind_ret by (unfold lift; rewrite Hid; reflexivity).
  rewrite Hsid. change (S (Z.to_nat 60)) with 61%nat.
  intros Hissued.
  assert (c = cmd) as ->.
  { rewrite wait_for_srun_issued in Hissued. simpl in Hissued.
    apply app_inv_head in Hissued. injection Hissued as ->. reflexivity. }
  assert (Hstep : start_chain w infile pb_args processes tt i st
                  = wait_for_srun 61 w (subtask_id_of id i) 60 0
                      (mkState (clock st) (issued st ++ [cmd]))).
  { unfold start_chain. cbn zeta. fold launch.
    rewrite (bind_ret _ _ _ _ _ Hlaunch).
    erewrite bind_ret by (unfold lift; rewrite Hid; reflexivity).
    rewrite Hsid. reflexivity. }
  split.
  - intros Hsplit.
    assert (Hrun : start_chain w infile pb_args processes tt i st
                   = (Exit 3, mkState (clock st + 61) (issued st ++ [cmd]))).
    { rewrite Hstep.
      rewrite (wait_for_srun_timeout w (subtask_id_of id i) 60 Hsplit 61 61 0
                 (mkState (clock st) (issued st ++ [cmd])));
        try (simpl; lia); try assumption.
      reflexivity. }
    split; [exact Hrun|].
    intros later. cbn [for_loop]. apply bind_exit, Hrun.
  - intros Hnone later. cbn [for_loop]. apply bind_raise.
    rewrite Hstep. apply wait_for_srun_not_split, Hnone.
Qed.

Lemma start_chain_exits_3_without_status_witness :
  exists cmd,
    launches_as_expected Scenario.world_no_srun "aln.phy" "-cat -gtr" 1 1 cmd
    /\ start_chain Scenario.world_no_srun "aln.phy" "-cat -gtr" 1 tt 1 Scenario.st0
       = (Exit 3, mkState (clock Scenario.st0 + 61) (issued Scenario.st0 ++ [cmd]))
    /\ forall later,
         for_loop (1 :: later) (start_chain Scenario.world_no_srun "aln.phy" "-cat -gtr" 1)
           tt Scenario.st0
         = (Exit 3, mkState (clock Scenario.st0 + 61) (issued Scenario.st0 ++ [cmd])).
Proof.
  destruct (start_chain_exits_3_without_status
              Scenario.world_no_srun "aln.phy" "-cat -gtr" 1 1 Scenario.st0
              (Some "42") "42") as (cmd & Hcmd & Hexit & _).
  - reflexivity.
  - reflexivity.
  - intros j Hj. reflexivity.
  - exists cmd. split; [exact Hcmd|]. apply Hexit.
    eexists. vm_compute. reflexivity.
Defined.

(** *** The poll cycle: counts and stop-on-cap *)

Section CountingAll.

Context `{PyFloat}.
Variable w : world.
Variable self : PBStarter.
Variables infile pb_args : string.
Variable processes : Z.

Lemma count_round_counts num_samples i st n :
  samples_of w infile pb_args processes i = Some n ->
  Z.of_nat (length num_samples) = i - 1 ->
  count_round w self infile pb_args processes num_samples i st
  = (Ret (num_samples ++ [n]),
     mkState (clock st)
       (issued st ++ map (stoppb_command infile pb_args processes)
                       (over_cap w infile pb_args processes (MAX_SAMPLE_SIZE self) [i]))).
Proof.
  unfold samples_of, over_cap, count_round, open. intros Hn Hlen. cbn [List.filter].
  unfold samples_of.
  destruct (files w !! trace_file infile pb_args processes i) as [content|];
    [|discriminate].
  injection Hn as <-. simpl fmap.
  munfold. cbn beta iota zeta. rewrite (py_index_app_last _ _ _ Hlen).
  destruct (MAX_SAMPLE_SIZE self <? Py.count_lines content); simpl.
  - reflexivity.
  - rewrite app_nil_r. destruct st; reflexivity.
Qed.

Lemma over_cap_cons cap i l :
  over_cap w infile pb_args processes cap (i :: l)
  = over_cap w infile pb_args processes cap [i]
    ++ over_cap w infile pb_args processes cap l.
Proof.
  unfold over_cap. cbn [List.filter].
  destruct (samples_of w infile pb_args processes i) as [n|]; [|reflexivity].
  destruct (cap <? n); reflexivity.
Qed.

Lemma count_loop_counts (k : nat) :
  forall num_samples st,
    (forall i, In i (map Z.of_nat (seq (S (length num_samples)) k)) ->
               is_Some (samples_of w infile pb_args processes i)) ->
    exists counted,
      Forall2 (fun i n => samples_of w infile pb_args processes i = Some n)
        (map Z.of_nat (seq (S (length num_samples)) k)) counted
      /\ for_loop (map Z.of_nat (seq (S (length num_samples)) k))
           (count_round w self infile pb_args processes) num_samples st
         = (Ret (num_samples ++ counted),
            mkState (clock st)
              (issued st
                 ++ map (stoppb_command infile pb_args processes)
                      (over_cap w infile pb_args processes (MAX_SAMPLE_SIZE self)
                         (map Z.of_nat (seq (S (length num_samples)) k))))).
Proof.
  induction k as [|k IH]; intros num_samples st Hall.
  - exists []. split; [constructor|]. simpl. rewrite !app_nil_r. destruct st; reflexivity.
  - cbn [seq map for_loop].
    destruct (Hall (Z.of_nat (S (length num_samples)))) as [n Hn];
      [cbn [seq map In]; left; reflexivity|].
    rewrite (bind_ret _ _ _ _ _
               (count_round_counts num_samples _ st n Hn ltac:(lia))).
    specialize (IH (num_samples ++ [n])). rewrite length_app in IH. simpl length in IH.
    replace (length num_samples + 1)%nat with (S (length num_samples)) in IH by lia.
    destruct (IH (mkState (clock st)
                    (issued st ++ map (stoppb_command infile pb_args processes)
                       (over_cap w infile pb_args processes (MAX_SAMPLE_SIZE self)
                          [Z.of_nat (S (length num_samples))]))))
      as (counted & Hcounted & Hrun).
    { intros i Hi. apply Hall. cbn [seq map In]. right. exact Hi. }
    exists (n :: counted). split; [constructor; assumption|].
    rewrite Hrun. cbn [clock issued].
    rewrite (over_cap_cons _ (Z.of_nat (S (length num_samples)))
               (map Z.of_nat (seq (S (S (length num_samples))) k))).
    rewrite map_app, <- !app_assoc. reflexivity.
Qed.

End CountingAll.

Lemma count_samples_counts_and_stops_over_cap_aux `{PyFloat}
    (w : world) (self : PBStarter) (infile pb_args : string)
    (chains processes : Z) (st : state) :
  (forall i, In i (Py.range1 chains) ->
             is_Some (files w !! trace_file infile pb_args processes i)) ->
  exists num_samples,
    Forall2 (fun i n => samples_of w infile pb_args processes i = Some n)
      (Py.range1 chains) num_samples
    /\ count_samples w self infile pb_args chains processes st
       = (Ret num_samples,
          mkState (clock st)
            (issued st
               ++ map (stoppb_command infile pb_args processes)
                    (over_cap w infile pb_args processes (MAX_SAMPLE_SIZE self)
                       (Py.range1 chains)))).
Proof.
  intros Hall. unfold count_samples, Py.range1.
  destruct (count_loop_counts w self infile pb_args processes (Z.to_nat chains) [] st)
    as (counted & Hcounted & Hrun).
  - intros i Hi. unfold samples_of.
    destruct (Hall i Hi) as [content ->]. eexists; reflexivity.
  - exists counted. split; [exact Hcounted | exact Hrun].
Qed.

(** X5. When the sample file of every chain 1..N exists, the counting step
    returns the line counts of the files in chain order and sends [stoppb]
    to exactly the chains whose count is over [MAX_SAMPLE_SIZE], in chain
    order; it does not stop the cycle for them. *)
Theorem count_samples_counts_and_stops_over_cap `{PyFloat}
    (w : world) (self : PBStarter) (infile pb_args : string)
    (chains processes : Z) (st : state) :
  (forall i, 1 <= i <= chains -> is_Some (files w !! trace_file infile pb_args processes i)) ->
  exists num_samples,
    Forall2 (fun i n => samples_of w infile pb_args processes i = Some n)
      (Py.range1 chains) num_samples
    /\ count_samples w self infile pb_args chains processes st
       = (Ret num_samples,
          mkState (clock st)
            (issued st
               ++ map (stoppb_command infile pb_args processes)
                    (over_cap w infile pb_args processes (MAX_SAMPLE_SIZE self)
                       (Py.range1 chains)))).
Proof.
  intros Hall. apply count_samples_counts_and_stops_over_cap_aux.
  intros i Hi. apply Hall, elem_of_range1, Hi.
Qed.

Lemma count_samples_counts_and_stops_over_cap_witness :
  exists num_samples,
    Forall2 (fun i n => samples_of Scenario.world_uneven "aln.phy" "-cat -gtr" 1 i = Some n)
      (Py.range1 2) num_samples
    /\ count_samples Scenario.world_uneven Scenario.short_runs "aln.phy" "-cat -gtr" 2 1
         Scenario.st0
       = (Ret num_samples,
          mkState (clock Scenario.st0)
            (issued Scenario.st0
               ++ map (stoppb_command "aln.phy" "-cat -gtr" 1)
                    (over_cap Scenario.world_uneven "aln.phy" "-cat -gtr" 1
                       (MAX_SAMPLE_SIZE Scenario.short_runs) (Py.range1 2)))).
Proof.
  apply (count_samples_counts_and_stops_over_cap
           Scenario.world_uneven Scenario.short_runs "aln.phy" "-cat -gtr" 2 1
           Scenario.st0).
  intros i Hi. assert (i = 1 \/ i = 2) as [-> | ->] by lia;
    eexists; vm_compute; reflexivity.
Defined.

Example count_samples_uneven :
  count_samples Scenario.world_uneven Scenario.short_runs "aln.phy" "-cat -gtr" 2 1
    Scenario.st0
  = (Ret [8; 3], mkState 0 ["stoppb aln_cat_gtr_1_chain1"]).
Proof. vm_compute. reflexivity. Qed.

(** *** The poll cycle: too few samples *)

Section RunFlags.

Variable w : world.
Variables infile pb_args : string.
Variable processes : Z.

Lemma run_flags_round (all_running : bool) (i : Z) (st : state) (content : string) :
  run_flag w infile pb_args processes i = Some content ->
  (pb_chain_run ← open w (generate_output_filename infile pb_args processes i +:+ ".run");
   if String.eqb pb_chain_run "1" then mret true else mret all_running) st
  = (Ret (all_running || String.eqb content "1"), st).
Proof.
  unfold run_flag, open. intros ->. munfold.
  destruct (String.eqb content "1"); [rewrite orb_true_r | rewrite orb_false_r];
    reflexivity.
Qed.

Lemma run_flags_loop (l : list Z) :
  forall all_running st,
    (forall i, In i l -> is_Some (run_flag w infile pb_args processes i)) ->
    for_loop l
      (fun all_running i =>
         pb_chain_run ← open w (generate_output_filename infile pb_args processes i +:+ ".run");
         if String.eqb pb_chain_run "1" then mret true else mret all_running)
      all_running st
    = (Ret (all_running || existsb (flag_is_1 w infile pb_args processes) l), st).
Proof.
  induction l as [|i l IH]; intros all_running st Hall; cbn [for_loop existsb].
  - rewrite orb_false_r. reflexivity.
  - destruct (Hall i) as [content Hcontent]; [left; reflexivity|].
    rewrite (bind_ret _ _ _ _ _ (run_flags_round all_running i st content Hcontent)).
    rewrite IH by (intros j Hj; apply Hall; right; exact Hj).
    unfold flag_is_1. rewrite Hcontent, orb_assoc. reflexivity.
Qed.

End RunFlags.

(** X6. When the [.run] file of every chain 1..N exists, the flag check
    returns as soon as ONE chain's file reads exactly ["1"], and exits with
    code 0 only when none does; it touches neither the clock nor the
    chains. *)
Theorem check_run_flags_one_running_chain_suffices
    (w : world) (infile pb_args : string) (chains processes : Z) (st : state) :
  (forall i, 1 <= i <= chains -> is_Some (run_flag w infile pb_args processes i)) ->
  ((exists i, 1 <= i <= chains /\ run_flag w infile pb_args processes i = Some "1") ->
   check_run_flags w infile pb_args chains processes st = (Ret tt, st))
  /\ ((forall i, 1 <= i <= chains -> run_flag w infile pb_args processes i <> Some "1") ->
      check_run_flags w infile pb_args chains processes st = (Exit 0, st)).
Proof.
  intros Hall.
  assert (Hrun : check_run_flags w infile pb_args chains processes st
                 = (if existsb (flag_is_1 w infile pb_args processes) (Py.range1 chains)
                    then Ret tt else Exit 0, st)).
  { unfold check_run_flags. erewrite bind_ret.
    2:{ apply run_flags_loop. intros i Hi. apply Hall, elem_of_range1, Hi. }
    simpl. destruct (existsb _ _); reflexivity. }
  rewrite Hrun. split.
  - intros (i & Hi & Hflag).
    replace (existsb _ _) with true; [reflexivity|].
    symmetry. apply existsb_exists. exists i. split; [apply elem_of_range1, Hi|].
    unfold flag_is_1. rewrite Hflag. reflexivity.
  - intros Hnone.
    replace (existsb _ _) with false; [reflexivity|].
    symmetry. apply not_true_is_false. intros Hex.
    apply existsb_exists in Hex as (i & Hi & Hflag).
    apply (Hnone i); [apply elem_of_range1, Hi|].
    unfold flag_is_1 in Hflag.
    destruct (run_flag w infile pb_args processes i) as [content|]; [|discriminate].
    apply String.eqb_eq in Hflag. congruence.
Qed.

Lemma check_run_flags_one_running_chain_suffices_witness :
  ((exists i, 1 <= i <= 2
              /\ run_flag Scenario.world_flags "aln.phy" "-cat -gtr" 1 i = Some "1") ->
   check_run_flags Scenario.world_flags "aln.phy" "-cat -gtr" 2 1 Scenario.st0
   = (Ret tt, Scenario.st0))
  /\ ((forall i, 1 <= i <= 2 ->
                 run_flag Scenario.world_flags "aln.phy" "-cat -gtr" 1 i <> Some "1") ->
      check_run_flags Scenario.world_flags "aln.phy" "-cat -gtr" 2 1 Scenario.st0
      = (Exit 0, Scenario.st0)).
Proof.
  apply (check_run_flags_one_running_chain_suffices
           Scenario.world_flags "aln.phy" "-cat -gtr" 2 1 Scenario.st0).
  intros i Hi. assert (i = 1 \/ i = 2) as [-> | ->] by lia;
    eexists; vm_compute; reflexivity.
Defined.

Example check_run_flags_ex :
  check_run_flags Scenario.world_flags "aln.phy" "-cat -gtr" 2 1 Scenario.st0
  = (Ret tt, Scenario.st0).
Proof. vm_compute. reflexivity. Qed.

(** X7. Below the evaluation threshold the diagnostics are not run and the
    sample cap decides: in a cycle that passes the liveness check and counts
    [min_samples < MIN_SAMPLE_SIZE] in the shortest chain, the process
    exits with code 0 right after counting when
    [MAX_SAMPLE_SIZE <= min_samples], without reading a [.run] file; when
    [min_samples < MAX_SAMPLE_SIZE] the cycle goes on to the flag check,
    whose outcome is the outcome of the cycle. *)
Theorem check_convergence_cap_exit `{PyFloat}
    (w : world) (self : PBStarter) (infile pb_args : string)
    (chains processes : Z) (st st1 st2 : state) (num_samples : list Z)
    (min_samples : Z) :
  check_chains_running w chains st = (Ret tt, st1) ->
  count_samples w self infile pb_args chains processes st1 = (Ret num_samples, st2) ->
  py_min num_samples = Ret min_samples ->
  min_samples < MIN_SAMPLE_SIZE self ->
  (MAX_SAMPLE_SIZE self <= min_samples ->
   check_convergence w self infile pb_args chains processes st = (Exit 0, st2))
  /\ (min_samples < MAX_SAMPLE_SIZE self ->
      check_convergence w self infile pb_args chains processes st
      = check_run_flags w infile pb_args chains processes st2).
Proof.
  intros Hlive Hcount Hmin Hfew. unfold check_convergence.
  rewrite (bind_ret _ _ _ _ _ Hlive), (bind_ret _ _ _ _ _ Hcount).
  erewrite bind_ret by (unfold lift; rewrite Hmin; reflexivity).
  destruct (Z.leb_spec (MIN_SAMPLE_SIZE self) min_samples); [lia|].
  destruct (Z.leb_spec (MAX_SAMPLE_SIZE self) min_samples);
    split; intros; try reflexivity; lia.
Qed.

Lemma check_convergence_cap_exit_witness :
  check_convergence Scenario.world_uneven Scenario.cap_below_min "aln.phy" "-cat -gtr" 2 1
    Scenario.st0
  = (Exit 0, mkState 0 ["stoppb aln_cat_gtr_1_chain1"; "stoppb aln_cat_gtr_1_chain2"]).
Proof.
  destruct (check_convergence_cap_exit
              Scenario.world_uneven Scenario.cap_below_min "aln.phy" "-cat -gtr" 2 1
              Scenario.st0 Scenario.st0
              (mkState 0 ["stoppb aln_cat_gtr_1_chain1"; "stoppb aln_cat_gtr_1_chain2"])
              [8; 3] 3) as [Hcap _].
  - vm_compute. reflexivity.
  - vm_compute. reflexivity.
  - reflexivity.
  - vm_compute. reflexivity.
  - apply Hcap. vm_compute. discriminate.
Defined.

(** X8. With a chain count of 0 or less nothing is launched and the poll
    cycle cannot take a minimum: [start_pb_jobs] returns at once, and
    [check_convergence] raises [ValueError] (from [min] of an empty list)
    as soon as the scheduler identifier has been read. *)
Theorem no_chains_nothing_launched_cycle_raises `{PyFloat}
    (w : world) (self : PBStarter) (infile pb_args : string)
    (chains processes : Z) (st : state) (slurm_job_id : option string) :
  chains <= 0 ->
  get_slurm_job_id w = Ret slurm_job_id ->
  start_pb_jobs w infile pb_args chains processes st = (Ret tt, st)
  /\ check_convergence w self infile pb_args chains processes st
     = (Raise ValueError, st).
Proof.
  intros Hchains Hid.
  assert (Hrange : Py.range1 chains = []).
  { unfold Py.range1. replace (Z.to_nat chains) with 0%nat by lia. reflexivity. }
  split.
  - unfold start_pb_jobs. rewrite Hrange. reflexivity.
  - assert (Hlive : check_chains_running w chains st = (Ret tt, st)).
    { unfold check_chains_running. rewrite Hrange.
      erewrite bind_ret by (unfold lift; rewrite Hid; reflexivity).
      destruct (scheduler_id slurm_job_id); reflexivity. }
    unfold check_convergence. rewrite (bind_ret _ _ _ _ _ Hlive).
    unfold count_samples. rewrite Hrange. reflexivity.
Qed.

Lemma no_chains_nothing_launched_cycle_raises_witness :
  start_pb_jobs Scenario.world_A "aln.phy" "-cat -gtr" 0 1 Scenario.st0
  = (Ret tt, Scenario.st0)
  /\ check_convergence Scenario.world_A Scenario.defaults "aln.phy" "-cat -gtr" 0 1
       Scenario.st0 = (Raise ValueError, Scenario.st0).
Proof.
  apply (no_chains_nothing_launched_cycle_raises
           Scenario.world_A Scenario.defaults "aln.phy" "-cat -gtr" 0 1
           Scenario.st0 None).
  - lia.
  - reflexivity.
Defined.

(** *** The scheduler identifier *)

Lemma append_is_underscore (a b : string) :
  a +:+ "_" +:+ b = "_" <-> a = EmptyString /\ b = EmptyString.
Proof.
  split.
  - destruct a as [|c a]; rewrite ?append_cons, ?append_nil.
    + intros [= ->]. split; reflexivity.
    + intros [= -> Hrest]. destruct a; discriminate.
  - intros [-> ->]. reflexivity.
Qed.

(** X9. The script runs without scheduler exactly when neither
    [SLURM_ARRAY_JOB_ID] nor [SLURM_JOB_ID] is set, or [SLURM_JOB_ID] alone
    is set to ["_"], or the array job and task identifiers are both set to
    the empty string (the composite identifier is then ["_"]); an array job
    identifier takes precedence over [SLURM_JOB_ID]. *)
Theorem no_scheduler_iff (w : world) :
  no_scheduler w
  <-> (environ w !! "SLURM_ARRAY_JOB_ID" = None
       /\ (environ w !! "SLURM_JOB_ID" = None \/ environ w !! "SLURM_JOB_ID" = Some "_"))
      \/ (environ w !! "SLURM_ARRAY_JOB_ID" = Some EmptyString
          /\ environ w !! "SLURM_ARRAY_TASK_ID" = Some EmptyString).
Proof.
  unfold no_scheduler, get_slurm_job_id, scheduler_id.
  destruct (environ w !! "SLURM_ARRAY_JOB_ID") as [array_job|];
    [destruct (environ w !! "SLURM_ARRAY_TASK_ID") as [array_task|]|].
  - split.
    + intros (id & [= <-] & Hnone). right.
      destruct (String.eqb_spec (array_job +:+ "_" +:+ array_task) "_") as [Heq|];
        [|discriminate].
      apply append_is_underscore in Heq as [-> ->]. split; reflexivity.
    + intros [[? _] | [[= ->] [= ->]]]; [discriminate|].
      eexists. split; reflexivity.
  - split.
    + intros (id & ? & _). discriminate.
    + intros [[? _] | [_ ?]]; discriminate.
  - split.
    + intros (id & [= <-] & Hnone). left. split; [reflexivity|].
      destruct (environ w !! "SLURM_JOB_ID") as [job|]; [|left; reflexivity].
      right. destruct (String.eqb_spec job "_") as [Heq|]; [|discriminate].
      rewrite Heq. reflexivity.
    + intros [[_ [-> | ->]] | [? _]]; [| |discriminate]; eexists; split; reflexivity.
Qed.

(** X10. With [SLURM_ARRAY_JOB_ID] set and [SLURM_ARRAY_TASK_ID] unset the
    string concatenation fails: a poll cycle raises [TypeError] before
    anything else happens, and the launch raises [TypeError] right after
    the launch command of the first chain has been issued. *)
Theorem array_job_without_task_raises `{PyFloat}
    (w : world) (self : PBStarter) (infile pb_args : string)
    (chains processes : Z) (st : state) (array_job : string) :
  environ w !! "SLURM_ARRAY_JOB_ID" = Some array_job ->
  environ w !! "SLURM_ARRAY_TASK_ID" = None ->
  1 <= chains ->
  check_convergence w self infile pb_args chains processes st = (Raise TypeError, st)
  /\ exists cmd,
       launches_as_expected w infile pb_args processes 1 cmd
       /\ start_pb_jobs w infile pb_args chains processes st
          = (Raise TypeError, mkState (clock st) (issued st ++ [cmd])).
Proof.
  intros Harray Htask Hchains.
  assert (Hid : get_slurm_job_id w = Raise TypeError).
  { unfold get_slurm_job_id. rewrite Harray, Htask. reflexivity. }
  split.
  - unfold check_convergence, check_chains_running.
    erewrite bind_raise; [reflexivity|].
    erewrite bind_raise; [reflexivity|]. unfold lift. rewrite Hid. reflexivity.
  - destruct (start_chain_spec w infile pb_args processes 1 st)
      as (cmd & Hcmd & Hissued & _).
    exists cmd. split; [exact Hcmd|].
    assert (Hrange : exists later, Py.range1 chains = 1 :: later).
    { unfold Py.range1. destruct (Z.to_nat chains) as [|k] eqn:Hk; [lia|].
      eexists. reflexivity. }
    destruct Hrange as [later Hrange].
    unfold start_pb_jobs. rewrite Hrange. cbn [for_loop].
    apply bind_raise. revert Hissued. unfold start_chain. cbn zeta.
    set (launch := if path_exists w _ then _ else _).
    assert (Hlaunch : exists c, launch st = (Ret tt, mkState (clock st) (issued st ++ [c]))).
    { subst launch. destruct (path_exists w _); eexists; reflexivity. }
    destruct Hlaunch as [c Hlaunch].
    rewrite (bind_ret _ _ _ _ _ Hlaunch).
    erewrite bind_raise by (unfold lift; rewrite Hid; reflexivity).
    simpl. intros Heq. apply app_inv_head in Heq. injection Heq as ->. reflexivity.
Qed.

Lemma array_job_without_task_raises_witness :
  check_convergence Scenario.world_array_job Scenario.defaults "aln.phy" "-cat -gtr" 2 1
    Scenario.st0 = (Raise TypeError, Scenario.st0)
  /\ exists cmd,
       launches_as_expected Scenario.world_array_job "aln.phy" "-cat -gtr" 1 1 cmd
       /\ start_pb_jobs Scenario.world_array_job "aln.phy" "-cat -gtr" 2 1 Scenario.st0
          = (Raise TypeError,
             mkState (clock Scenario.st0) (issued Scenario.st0 ++ [cmd])).
Proof.
  apply (array_job_without_task_raises
           Scenario.world_array_job Scenario.defaults "aln.phy" "-cat -gtr" 2 1
           Scenario.st0 "7").
  - vm_compute. reflexivity.
  - vm_compute. reflexivity.
  - lia.
Defined.

(** *** The poll cycle: what the two loops compute *)

(** X11. When the loop over [bpcomp]'s lines ends normally, no [maxdiff]
    line was malformed, [bp_res] is 0 or 1, and it is 1 exactly when SOME
    [maxdiff] line is within the threshold: a passing line is not undone by
    a failing one before or after it. *)
Theorem bpcomp_loop_latches `{PyFloat} (self : PBStarter) (lines : list string)
    (bp_res : Z) :
  for_pure lines (bpcomp_line self) 0 = Ret bp_res ->
  ~ Exists malformed_maxdiff lines
  /\ (bp_res = 0 \/ bp_res = 1)
  /\ (bp_res = 1 <-> Exists (passing_maxdiff self) lines).
Proof.
  intros Hloop.
  destruct (bpcomp_loop_outcome self lines 0) as [[_ Hraise] | (Hnone & r & Hr & Hcases & Hiff)].
  - congruence.
  - assert (r = bp_res) as -> by congruence.
    split; [exact Hnone|]. split; [exact Hcases|].
    rewrite Hiff. split; [intros [?|?]; [discriminate | assumption] | auto].
Qed.

Lemma bpcomp_loop_latches_witness :
  ~ Exists (@malformed_maxdiff Binary64.py_float64) ["maxdiff 0.05"; "maxdiff 0.9"]
  /\ (1 = 0 \/ 1 = 1)
  /\ (1 = 1 <-> Exists (passing_maxdiff Scenario.defaults) ["maxdiff 0.05"; "maxdiff 0.9"]).
Proof.
  apply (bpcomp_loop_latches Scenario.defaults ["maxdiff 0.05"; "maxdiff 0.9"] 1).
  vm_compute. reflexivity.
Defined.

Section Counters.

Context `{PyFloat}.
Variable self : PBStarter.

Lemma checks_passed_bounds (line : string) :
  0 <= checks_passed self line <= 2 * Z.b2z (is_parameter_row line).
Proof.
  unfold checks_passed. destruct (is_parameter_row line); [|simpl; lia].
  destruct (row_checks self line) as [[[] []]|]; simpl; lia.
Qed.

Lemma passes_of_bounds (lines : list string) :
  0 <= passes_of self lines <= 2 * rows_of lines.
Proof.
  induction lines as [|line lines IH]; [simpl; lia|].
  rewrite passes_of_cons, rows_of_cons.
  pose proof (checks_passed_bounds line). lia.
Qed.

Lemma passes_of_full (lines : list string) :
  ~ Exists (malformed_row self) lines ->
  passes_of self lines = 2 * rows_of lines ->
  Forall (fun line => is_parameter_row line = true ->
                      row_checks self line = Some (true, true)) lines.
Proof.
  induction lines as [|line lines IH]; intros Hwf Hfull; [constructor|].
  rewrite passes_of_cons, rows_of_cons in Hfull.
  pose proof (checks_passed_bounds line) as Hline.
  pose proof (passes_of_bounds lines) as Hrest.
  constructor.
  - intros Hrow. rewrite Hrow in Hline, Hfull. simpl Z.b2z in Hline, Hfull.
    assert (Hc : checks_passed self line = 2) by lia.
    unfold checks_passed in Hc. rewrite Hrow in Hc.
    destruct (row_checks self line) as [[[] []]|]; simpl in Hc; try lia. reflexivity.
  - apply IH; [intros Hex; apply Hwf; right; exact Hex | lia].
Qed.

End Counters.

(** X12. When the loop over [tracecomp]'s lines ends normally, the row
    counter is the number of parameter rows, the pass counter lies between
    0 and twice the row counter, and it reaches twice the row counter
    exactly when every parameter row passes both of its checks. *)
Theorem tracecomp_loop_counters `{PyFloat} (self : PBStarter) (lines : list string)
    (tr_res tr_line_number : Z) :
  for_pure lines (tracecomp_line self) (0, 0) = Ret (tr_res, tr_line_number) ->
  tr_line_number = rows_of lines
  /\ 0 <= tr_res <= 2 * tr_line_number
  /\ (tr_res = 2 * tr_line_number
      <-> Forall (fun line => is_parameter_row line = true ->
                              row_checks self line = Some (true, true)) lines).
Proof.
  intros Hloop.
  assert (Hwf : ~ Exists (malformed_row self) lines).
  { intros Hex. destruct (tracecomp_loop_malformed self lines (0, 0) Hex) as (e & He & _).
    congruence. }
  rewrite (tracecomp_loop_counts self lines 0 0 Hwf) in Hloop.
  injection Hloop as <- <-. rewrite !Z.add_0_l.
  split; [reflexivity|]. split; [apply passes_of_bounds|].
  split; [apply passes_of_full, Hwf | apply passes_of_all_pass].
Qed.

Lemma tracecomp_loop_counters_witness :
  2 = rows_of ["name effsize rel_diff"; "loglik 400 0.05"; "length 40 0.05"]
  /\ 0 <= 3 <= 2 * 2
  /\ (3 = 2 * 2
      <-> Forall (fun line => is_parameter_row line = true ->
                              row_checks Scenario.defaults line = Some (true, true))
            ["name effsize rel_diff"; "loglik 400 0.05"; "length 40 0.05"]).
Proof.
  apply (tracecomp_loop_counters Scenario.defaults
           ["name effsize rel_diff"; "loglik 400 0.05"; "length 40 0.05"] 3 2).
  vm_compute. reflexivity.
Defined.

(** *** A whole converging cycle *)

Lemma Forall2_functional {A B} (R : A -> B -> Prop) (l : list A) :
  (forall a b b', R a b -> R a b' -> b = b') ->
  forall k k', Forall2 R l k -> Forall2 R l k' -> k = k'.
Proof.
  intros Hfun k k' Hk. revert k'.
  induction Hk as [|a b l k Hab _ IH]; intros k' Hk'; inversion Hk'; subst;
    [reflexivity|]. f_equal; [eapply Hfun; eassumption | apply IH; assumption].
Qed.

Lemma Forall2_In_l {A B} (R : A -> B -> Prop) (l : list A) (k : list B) (a : A) :
  Forall2 R l k -> In a l -> exists b, R a b.
Proof.
  induction 1 as [|a' b l k Hab _ IH]; intros Hin; [destruct Hin|].
  destruct Hin as [<- | Hin]; [eauto | apply IH, Hin].
Qed.

(** X13. A cycle without scheduler in which every chain has its sample
    file, the shortest chain has at least [MIN_SAMPLE_SIZE] samples, the
    two diagnostic command lines can be split and the two loops end with
    [bp_res = 1] and equal counters: first the chains over
    [MAX_SAMPLE_SIZE] are sent [stoppb], then all chains 1..N are, and the
    process exits with code 0.  A chain over the cap is thus stopped twice
    in that cycle.  When the [bpcomp] command line cannot be split, the
    same cycle ends with [ValueError] after the first round of [stoppb]. *)
Theorem check_convergence_converging_cycle `{PyFloat}
    (w : world) (self : PBStarter) (infile pb_args : string)
    (chains processes : Z) (st : state) (num_samples : list Z)
    (min_samples counter : Z) :
  no_scheduler w ->
  Forall2 (fun i n => samples_of w infile pb_args processes i = Some n)
    (Py.range1 chains) num_samples ->
  py_min num_samples = Ret min_samples ->
  MIN_SAMPLE_SIZE self <= min_samples ->
  (diagnostics_split infile pb_args chains processes min_samples ->
   for_pure (bpcomp_lines w infile pb_args chains processes min_samples (clock st))
     (bpcomp_line self) 0 = Ret 1 ->
   for_pure (tracecomp_lines w infile pb_args chains processes min_samples (clock st))
     (tracecomp_line self) (0, 0) = Ret (counter, counter) ->
   check_convergence w self infile pb_args chains processes st
   = (Exit 0,
      mkState (clock st)
        (issued st
           ++ map (stoppb_command infile pb_args processes)
                (over_cap w infile pb_args processes (MAX_SAMPLE_SIZE self)
                   (Py.range1 chains))
           ++ map (stoppb_command infile pb_args processes) (Py.range1 chains))))
  /\ (Shlex.split
        (diagnostic_command infile pb_args chains processes "bpcomp"
           (Z.quot min_samples 4)) = None ->
      check_convergence w self infile pb_args chains processes st
      = (Raise ValueError,
         mkState (clock st)
           (issued st
              ++ map (stoppb_command infile pb_args processes)
                   (over_cap w infile pb_args processes (MAX_SAMPLE_SIZE self)
                      (Py.range1 chains))))).
Proof.
  intros Hns Hsamples Hmin Henough.
  destruct (count_samples_counts_and_stops_over_cap_aux w self infile pb_args chains
              processes st) as (counted & Hcounted & Hcount).
  { intros i Hi. destruct (Forall2_In_l _ _ _ _ Hsamples Hi) as [n Hn].
    unfold samples_of in Hn.
    destruct (files w !! trace_file infile pb_args processes i); [eauto | discriminate]. }
  assert (counted = num_samples) as ->.
  { eapply Forall2_functional; [|exact Hcounted | exact Hsamples].
    intros i n n' Hn Hn'. congruence. }
  set (st2 := mkState (clock st) _) in Hcount.
  assert (Hreach : reaches_evaluation self w infile pb_args chains processes st st2
                     min_samples).
  { exists st, num_samples. split; [apply check_chains_running_no_scheduler, Hns|].
    split; [exact Hcount|]. split; assumption. }
  rewrite (check_convergence_evaluates _ _ _ _ _ _ _ _ _ Hreach).
  split.
  - intros Hsplit Hbp Htr.
    rewrite (evaluate_diagnostics_spec w self infile pb_args chains processes min_samples
               st2 1 counter counter Hsplit Hbp Htr).
    rewrite !Z.eqb_refl. simpl. unfold all_stopped, st2. simpl.
    rewrite <- app_assoc. reflexivity.
  - intros Hnone. apply evaluate_diagnostics_bpcomp_not_split, Hnone.
Qed.

Lemma check_convergence_converging_cycle_witness :
  check_convergence Scenario.world_uneven Scenario.short_runs "aln.phy" "-cat -gtr" 2 1
    Scenario.st0
  = (Exit 0,
     mkState (clock Scenario.st0)
       (issued Scenario.st0
          ++ map (stoppb_command "aln.phy" "-cat -gtr" 1)
               (over_cap Scenario.world_uneven "aln.phy" "-cat -gtr" 1
                  (MAX_SAMPLE_SIZE Scenario.short_runs) (Py.range1 2))
          ++ map (stoppb_command "aln.phy" "-cat -gtr" 1) (Py.range1 2))).
Proof.
  destruct (check_convergence_converging_cycle
              Scenario.world_uneven Scenario.short_runs "aln.phy" "-cat -gtr" 2 1
              Scenario.st0 [8; 3] 3 2) as [Hconverged _].
  - exists None. split; reflexivity.
  - repeat constructor.
  - reflexivity.
  - vm_compute. discriminate.
  - apply Hconverged.
    + split; eexists; vm_compute; reflexivity.
    + vm_compute. reflexivity.
    + vm_compute. reflexivity.
Defined.

(** The alignment [it's.phy]: with two chains the [bpcomp] command line
    holds three quotes, [shlex.split] raises and the cycle ends there. *)
Example converging_cycle_unbalanced_quote :
  Shlex.split
    (diagnostic_command "it's.phy" "-cat -gtr" 2 1 "bpcomp" (Z.quot 3 4)) = None
  /\ check_convergence
       (mkWorld ∅
          {[ "it's_cat_gtr_1_chain1.trace" := Scenario.sample_rows 8;
             "it's_cat_gtr_1_chain2.trace" := Scenario.sample_rows 3 ]}
          (proc_stdout Scenario.world_uneven))
       Scenario.short_runs "it's.phy" "-cat -gtr" 2 1 Scenario.st0
     = (Raise ValueError, mkState 0 ["stoppb it's_cat_gtr_1_chain1"]).
Proof. split; vm_compute; reflexivity. Qed.

Example converging_cycle_stops_twice :
  check_convergence Scenario.world_uneven Scenario.short_runs "aln.phy" "-cat -gtr" 2 1
    Scenario.st0
  = (Exit 0,
     mkState 0
       ["stoppb aln_cat_gtr_1_chain1";
        "stoppb aln_cat_gtr_1_chain1"; "stoppb aln_cat_gtr_1_chain2"]).
Proof. vm_compute. reflexivity. Qed.

(** *** Output prefixes of different chains and argument strings *)

Lemma str_inj (a b : Z) : Py.str a = Py.str b -> a = b.
Proof.
  unfold Py.str. intros Heq. apply DecimalZ.to_int_inj.
  apply (f_equal NilZero.int_of_string) in Heq.
  assert (Hnz : forall n, Z.to_int n <> Decimal.Pos Decimal.Nil
                          /\ Z.to_int n <> Decimal.Neg Decimal.Nil).
  { intros [|p|p]; simpl; split; try discriminate;
      intros [= Hp]; exact (DecimalPos.Unsigned.to_uint_nonnil p Hp). }
  rewrite !NilZero.isi in Heq by apply Hnz. congruence.
Qed.

Lemma append_inv_head (a x y : string) : a +:+ x = a +:+ y -> x = y.
Proof.
  induction a as [|c a IH]; [exact (fun Heq => Heq)|].
  rewrite !append_cons. intros [= Heq]. apply IH, Heq.
Qed.

Lemma append_not_self (a x : string) : x <> EmptyString -> a <> a +:+ x.
Proof.
  intros Hx Heq. apply (f_equal String.length) in Heq.
  rewrite string_length_app in Heq. destruct x; [contradiction | simpl in Heq; lia].
Qed.

(** X14. For a fixed alignment, argument string and process count the
    output prefix determines the chain index: two different chain indices
    (0 for the group included) never get the same prefix, hence never the
    same [.trace], [.run] or [.out] file. *)
Theorem generate_output_filename_chain_injective
    (filepath pb_args : string) (processes i j : Z) :
  i <> j ->
  generate_output_filename filepath pb_args processes i
  <> generate_output_filename filepath pb_args processes j.
Proof.
  intros Hij. unfold generate_output_filename.
  destruct (create_tokens_from_filepath filepath) as [[dirbase filename] basename].
  set (return_path := if negb _ then _ else _).
  destruct (Z.eqb_spec i 0) as [->|Hi]; destruct (Z.eqb_spec j 0) as [->|Hj].
  - contradiction.
  - apply append_not_self. discriminate.
  - intros Heq. symmetry in Heq. revert Heq. apply append_not_self. discriminate.
  - intros Heq. apply append_inv_head in Heq.
    apply (append_inv_head "_chain") in Heq. apply Hij, str_inj, Heq.
Qed.

Lemma generate_output_filename_chain_injective_witness :
  generate_output_filename "data/aln.phy" "-cat -gtr" 4 1
  <> generate_output_filename "data/aln.phy" "-cat -gtr" 4 11.
Proof.
  apply (generate_output_filename_chain_injective "data/aln.phy" "-cat -gtr" 4 1 11).
  lia.
Defined.

Lemma remove_spaces_app (a b : string) :
  Py.remove_spaces (a +:+ b) = Py.remove_spaces a +:+ Py.remove_spaces b.
Proof.
  induction a as [|c a IH]; [reflexivity|].
  rewrite append_cons. cbn [Py.remove_spaces].
  destruct (Py.is_space c); [exact IH | rewrite append_cons, IH; reflexivity].
Qed.

Lemma dash_to_underscore_app (a b : string) :
  Py.dash_to_underscore (a +:+ b)
  = Py.dash_to_underscore a +:+ Py.dash_to_underscore b.
Proof.
  induction a as [|c a IH]; [reflexivity|].
  rewrite append_cons. cbn [Py.dash_to_underscore]. rewrite append_cons, IH. reflexivity.
Qed.

Lemma remove_spaces_blank (ws : string) :
  (forall c, In c (list_ascii_of_string ws) -> Py.is_space c = true) ->
  Py.remove_spaces ws = EmptyString.
Proof.
  induction ws as [|c ws IH]; intros Hws; [reflexivity|].
  cbn [Py.remove_spaces]. rewrite (Hws c) by (left; reflexivity).
  apply IH. intros d Hd. apply Hws. right. exact Hd.
Qed.

(** X15. The output prefix does not tell argument strings apart that
    differ in whitespace only, nor a dash from an underscore: inserting
    whitespace anywhere in the sampler arguments, or replacing a ["-"] by
    ["_"], leaves the prefix of every chain unchanged, so that such runs
    share their output files. *)
Theorem generate_output_filename_conflates_arguments
    (filepath a ws b : string) (processes i : Z) :
  (forall c, In c (list_ascii_of_string ws) -> Py.is_space c = true) ->
  generate_output_filename filepath (a +:+ ws +:+ b) processes i
  = generate_output_filename filepath (a +:+ b) processes i
  /\ generate_output_filename filepath (a +:+ "-" +:+ b) processes i
     = generate_output_filename filepath (a +:+ "_" +:+ b) processes i.
Proof.
  intros Hws. unfold generate_output_filename.
  destruct (create_tokens_from_filepath filepath) as [[dirbase filename] basename].
  split.
  - rewrite !remove_spaces_app, (remove_spaces_blank ws Hws). reflexivity.
  - rewrite !remove_spaces_app, !dash_to_underscore_app. reflexivity.
Qed.

Lemma generate_output_filename_conflates_arguments_witness :
  generate_output_filename "aln.phy" ("-cat" +:+ "  " +:+ "-gtr") 1 1
  = generate_output_filename "aln.phy" ("-cat" +:+ "-gtr") 1 1
  /\ generate_output_filename "aln.phy" ("-cat" +:+ "-" +:+ "-gtr") 1 1
     = generate_output_filename "aln.phy" ("-cat" +:+ "_" +:+ "-gtr") 1 1.
Proof.
  apply (generate_output_filename_conflates_arguments "aln.phy" "-cat" "  " "-gtr" 1 1).
  intros c Hc. simpl in Hc. destruct Hc as [<- | [<- | []]]; reflexivity.
Defined.

(** *** [main] *)

(** X16. With fewer allocated tasks than chains (and a request other than
    [chains * n]) the process count becomes 0.  The launch made with that
    count issues at least one command, and every command it issues is
    [srun --cpu_bind=v,threads -c 1 -n 0 -o <prefix>.out pb ... &]: no
    process is asked for and the sequential sampler [pb] is named. *)
Theorem adjust_processes_fewer_tasks_than_chains
    (w : world) (infile pb_args : string) (chains processes : Z)
    (slurm_ntasks : string) (n : Z) (st : state) :
  environ w !! "SLURM_NTASKS" = Some slurm_ntasks ->
  Numeral.int_of_str slurm_ntasks = Some n ->
  0 <= n < chains ->
  chains < 2 ^ 53 ->
  processes <> chains * n ->
  adjust_processes w chains processes = Ret 0
  /\ exists cmds,
       issued (start_pb_jobs w infile pb_args chains 0 st).2 = issued st ++ cmds
       /\ cmds <> []
       /\ Forall
            (fun cmd =>
               exists prefix arguments,
                 cmd = "srun --cpu_bind=v,threads -c 1 -n 0 -o " +:+ prefix
                         +:+ ".out pb " +:+ arguments +:+ " &")
            cmds.
Proof.
  intros Henv Hint Hn Hc Hne. split.
  { unfold adjust_processes. rewrite Henv, Hint.
    destruct (Z.eqb_spec processes (chains * n)) as [?|_]; [contradiction|].
    destruct (Z.eqb_spec chains 0) as [?|_]; [lia|]. simpl.
    rewrite Z.quot_small by lia. reflexivity. }
  destruct (start_pb_jobs_launches w infile pb_args chains 0 st)
    as (launched & cmds & _ & His & Hall & _ & Hsome & _).
  exists cmds. split; [exact His|]. split.
  - intros ->. apply Forall2_nil_inv_r in Hall. apply Hsome; [|exact Hall].
    unfold Py.range1. destruct (Z.to_nat chains) as [|k] eqn:Hk; [lia | discriminate].
  - clear His Hsome. induction Hall as [|i cmd launched cmds Hcmd _ IH]; constructor;
      [|exact IH].
    destruct Hcmd as [Hresume Hfresh].
    rewrite resume_command_text in Hresume. rewrite fresh_command_text in Hfresh.
    destruct (files w !! (generate_output_filename infile pb_args 0 i +:+ ".trace"))
      as [content|] eqn:Hfile.
    + exists (generate_output_filename infile pb_args 0 i),
             (generate_output_filename infile pb_args 0 i).
      rewrite (proj2 Hresume) by eauto.
      rewrite !append_assoc. reflexivity.
    + exists (generate_output_filename infile pb_args 0 i),
             (pb_args +:+ " -d " +:+ infile +:+ " "
                +:+ generate_output_filename infile pb_args 0 i).
      rewrite (proj2 Hfresh) by reflexivity.
      rewrite !append_assoc. reflexivity.
Qed.

Lemma adjust_processes_fewer_tasks_than_chains_witness :
  adjust_processes Scenario.world_1_task 2 1 = Ret 0
  /\ exists cmds,
       issued (start_pb_jobs Scenario.world_1_task "aln.phy" "-cat -gtr" 2 0
                 Scenario.st0).2 = issued Scenario.st0 ++ cmds
       /\ cmds <> []
       /\ Forall
            (fun cmd =>
               exists prefix arguments,
                 cmd = "srun --cpu_bind=v,threads -c 1 -n 0 -o " +:+ prefix
                         +:+ ".out pb " +:+ arguments +:+ " &")
            cmds.
Proof.
  apply (adjust_processes_fewer_tasks_than_chains
           Scenario.world_1_task "aln.phy" "-cat -gtr" 2 1 "1" 1 Scenario.st0).
  - vm_compute. reflexivity.
  - vm_compute. reflexivity.
  - lia.
  - lia.
  - lia.
Defined.

Example start_pb_jobs_without_processes :
  adjust_processes Scenario.world_1_task 2 1 = Ret 0
  /\ start_pb_jobs Scenario.world_1_task "aln.phy" "-cat -gtr" 2 0 Scenario.st0
     = (Ret tt,
        mkState 0
          ["srun --cpu_bind=v,threads -c 1 -n 0 -o aln_cat_gtr_0_chain1.out pb -cat -gtr -d aln.phy aln_cat_gtr_0_chain1 &";
           "srun --cpu_bind=v,threads -c 1 -n 0 -o aln_cat_gtr_0_chain2.out pb -cat -gtr -d aln.phy aln_cat_gtr_0_chain2 &"]).
Proof. split; vm_compute; reflexivity. Qed.

Section MainLoop.

Context `{PyFloat}.
Variable w : world.
Variable files_at : nat -> gmap string string.
Variable random : nat -> Z -> Z -> Z.
Variable args : arguments.

Lemma poll_loop_step (fuel : nat) (processes : Z) (k : nat) :
  poll_loop w files_at random args (S fuel) processes k
  = (seconds ← lift (randint (random k (arg_sleep_range_min args) (arg_sleep_range_max args))
                       (arg_sleep_range_min args) (arg_sleep_range_max args));
     sleep seconds;;
     check_convergence (cycle_world w files_at k) (pb_starter_of args) (arg_input args)
       (arg_pb_args args) (arg_chains args) processes;;
     poll_loop w files_at random args fuel processes (S k)).
Proof. reflexivity. Qed.

Lemma sleep_outcome (seconds : Z) (st : state) :
  (exists st', sleep seconds st = (Ret tt, st'))
  \/ sleep seconds st = (Raise ValueError, st).
Proof.
  unfold sleep. destruct (seconds <? 0); [right; reflexivity | left; eexists; reflexivity].
Qed.

(** The poll loop has no way out but [sys.exit] (with code 0 or 4) or an
    exception. *)
Lemma poll_loop_never_returns (fuel : nat) :
  forall processes k st,
    (poll_loop w files_at random args fuel processes k st).1 <> Ret tt
    /\ forall code,
         (poll_loop w files_at random args fuel processes k st).1 = Exit code ->
         code = 0 \/ code = 4.
Proof.
  induction fuel as [|fuel IH]; intros processes k st.
  - simpl. split; [discriminate | intros code; discriminate].
  - rewrite poll_loop_step.
    unfold randint. destruct (_ <? _).
    { erewrite bind_raise by reflexivity. split; [discriminate | intros code; discriminate]. }
    erewrite bind_ret by reflexivity.
    destruct (sleep_outcome
                (random k (arg_sleep_range_min args) (arg_sleep_range_max args)) st)
      as [[st1 Hsleep] | Hsleep].
    2:{ rewrite (bind_raise _ _ _ _ _ Hsleep).
        split; [discriminate | intros code; discriminate]. }
    rewrite (bind_ret _ _ _ _ _ Hsleep).
    destruct (bounded_check_convergence (cycle_world w files_at k) (pb_starter_of args)
                (arg_input args) (arg_pb_args args) (arg_chains args) processes st1)
      as (_ & Hexit & Hfuel).
    destruct (check_convergence (cycle_world w files_at k) (pb_starter_of args)
                (arg_input args) (arg_pb_args args) (arg_chains args) processes st1)
      as [o st2] eqn:Hcycle.
    simpl in Hexit, Hfuel. destruct o as [[] | code | e |].
    + rewrite (bind_ret _ _ _ _ _ Hcycle). apply IH.
    + rewrite (bind_exit _ _ _ _ _ Hcycle).
      split; [discriminate | intros c [= <-]; apply Hexit; reflexivity].
    + rewrite (bind_raise _ _ _ _ _ Hcycle).
      split; [discriminate | intros c; discriminate].
    + contradiction.
Qed.

End MainLoop.

(** X17. [main] never returns: whatever files the chains have written when
    a poll cycle looks, and however many cycles are followed, it ends
    through [sys.exit] or an uncaught exception, or is still polling; and
    whenever it ends through [sys.exit], the exit code is 0, 3 or 4. *)
Theorem main_never_returns_and_exit_codes `{PyFloat}
    (w : world) (files_at : nat -> gmap string string)
    (random : nat -> Z -> Z -> Z) (args : arguments)
    (fuel : nat) (st : state) :
  (main w files_at random args fuel st).1 <> Ret tt
  /\ forall code,
       (main w files_at random args fuel st).1 = Exit code ->
       code = 0 \/ code = 3 \/ code = 4.
Proof.
  unfold main.
  destruct (adjust_processes w (arg_chains args) (arg_processes args))
    as [processes | code | e |] eqn:Hadjust.
  - erewrite bind_ret by reflexivity.
    destruct (bounded_start_pb_jobs w (arg_input args) (arg_pb_args args)
                (arg_chains args) processes st) as (_ & Hexit & Hfuel).
    destruct (start_pb_jobs w (arg_input args) (arg_pb_args args) (arg_chains args)
                processes st) as [o st1] eqn:Hlaunch.
    simpl in Hexit, Hfuel. destruct o as [[] | code | e |].
    + rewrite (bind_ret _ _ _ _ _ Hlaunch).
      destruct (poll_loop_never_returns w files_at random args fuel processes 0%nat st1)
        as [Hret Hcodes].
      split; [exact Hret|]. intros code Hcode.
      destruct (Hcodes code Hcode); auto.
    + rewrite (bind_exit _ _ _ _ _ Hlaunch).
      split; [discriminate|]. intros c [= <-]. right. left. apply Hexit. reflexivity.
    + rewrite (bind_raise _ _ _ _ _ Hlaunch).
      split; [discriminate | intros c; discriminate].
    + contradiction.
  - exfalso. revert Hadjust. unfold adjust_processes.
    repeat (match goal with |- context [match ?x with _ => _ end] => destruct x end);
      discriminate.
  - erewrite bind_raise by reflexivity. split; [discriminate | intros c; discriminate].
  - exfalso. revert Hadjust. unfold adjust_processes.
    repeat (match goal with |- context [match ?x with _ => _ end] => destruct x end);
      discriminate.
Qed.

(** A run in which the chains write their files while [main] sleeps: the
    launch finds no sample file and starts both chains afresh, the first
    cycle finds 3 samples and a raised flag and goes on, the second finds 8
    samples, takes the chains for converged, stops them and exits. *)
Example main_with_growing_files :
  main Scenario.world_at_launch Scenario.growing_files Scenario.draw_min
    Scenario.args_short_runs 2 Scenario.st0
  = (Exit 0,
     mkState 20
       ["srun --cpu_bind=v,threads -c 1 -n 1 -o aln_cat_gtr_1_chain1.out pb -cat -gtr -d aln.phy aln_cat_gtr_1_chain1 &";
        "srun --cpu_bind=v,threads -c 1 -n 1 -o aln_cat_gtr_1_chain2.out pb -cat -gtr -d aln.phy aln_cat_gtr_1_chain2 &";
        "stoppb aln_cat_gtr_1_chain1"; "stoppb aln_cat_gtr_1_chain2"])
  /\ main Scenario.world_at_launch Scenario.growing_files Scenario.draw_min
       Scenario.args_short_runs 1 Scenario.st0
     = (OutOfFuel,
        mkState 10
          ["srun --cpu_bind=v,threads -c 1 -n 1 -o aln_cat_gtr_1_chain1.out pb -cat -gtr -d aln.phy aln_cat_gtr_1_chain1 &";
           "srun --cpu_bind=v,threads -c 1 -n 1 -o aln_cat_gtr_1_chain2.out pb -cat -gtr -d aln.phy aln_cat_gtr_1_chain2 &"]).
Proof. split; vm_compute; reflexivity. Qed.

(** X18. A launch that ends the process ends [main]: when the process
    count has been set and [start_pb_jobs] leaves through [sys.exit], the
    code is 3 and [main] leaves with it in the same state, without a single
    poll cycle, however long the run is followed. *)
Theorem main_stops_at_failed_launch `{PyFloat}
    (w : world) (files_at : nat -> gmap string string)
    (random : nat -> Z -> Z -> Z) (args : arguments)
    (processes code : Z) (st st' : state) :
  adjust_processes w (arg_chains args) (arg_processes args) = Ret processes ->
  start_pb_jobs w (arg_input args) (arg_pb_args args) (arg_chains args) processes st
  = (Exit code, st') ->
  code = 3 /\ forall fuel, main w files_at random args fuel st = (Exit 3, st').
Proof.
  intros Hadjust Hlaunch.
  destruct (bounded_start_pb_jobs w (arg_input args) (arg_pb_args args)
              (arg_chains args) processes st) as (_ & Hexit & _).
  rewrite Hlaunch in Hexit. specialize (Hexit code eq_refl). subst code.
  split; [reflexivity|]. intros fuel. unfold main.
  erewrite bind_ret by (unfold lift; rewrite Hadjust; reflexivity).
  apply bind_exit, Hlaunch.
Qed.

Lemma main_stops_at_failed_launch_witness :
  3 = 3
  /\ forall fuel,
       main Scenario.world_no_srun (fun _ => ∅) Scenario.draw_min
         Scenario.args_one_chain fuel Scenario.st0
       = (Exit 3,
          mkState 61 [fresh_command "aln.phy" "-cat -gtr" 1 "aln_cat_gtr_1_chain1"]).
Proof.
  apply (main_stops_at_failed_launch
           Scenario.world_no_srun (fun _ => ∅) Scenario.draw_min
           Scenario.args_one_chain 1 3 Scenario.st0).
  - vm_compute. reflexivity.
  - vm_compute. reflexivity.
Defined.

(** X19. An empty sleep range, or a negative sleep, is found only after the
    launch: when the chains have been launched and [--sleep-range-max] is
    below [--sleep-range-min], or the first drawn duration is negative,
    [main] raises [ValueError] before its first poll cycle, leaving the
    launched chains running unattended. *)
Theorem main_raises_on_bad_sleep_range `{PyFloat}
    (w : world) (files_at : nat -> gmap string string)
    (random : nat -> Z -> Z -> Z) (args : arguments)
    (processes : Z) (fuel : nat) (st st' : state) :
  adjust_processes w (arg_chains args) (arg_processes args) = Ret processes ->
  start_pb_jobs w (arg_input args) (arg_pb_args args) (arg_chains args) processes st
  = (Ret tt, st') ->
  arg_sleep_range_max args < arg_sleep_range_min args
  \/ random 0%nat (arg_sleep_range_min args) (arg_sleep_range_max args) < 0 ->
  main w files_at random args (S fuel) st = (Raise ValueError, st').
Proof.
  intros Hadjust Hlaunch Hbad. unfold main.
  erewrite bind_ret by (unfold lift; rewrite Hadjust; reflexivity).
  rewrite (bind_ret _ _ _ _ _ Hlaunch), poll_loop_step.
  unfold randint.
  destruct (Z.ltb_spec (arg_sleep_range_max args) (arg_sleep_range_min args)).
  - erewrite bind_raise by reflexivity. reflexivity.
  - destruct Hbad as [? | Hneg]; [lia|].
    erewrite bind_ret by reflexivity.
    erewrite bind_raise; [reflexivity|].
    unfold sleep. destruct (Z.ltb_spec (random 0%nat (arg_sleep_range_min args)
                                          (arg_sleep_range_max args)) 0); [reflexivity | lia].
Qed.

Lemma main_raises_on_bad_sleep_range_witness :
  main Scenario.world_resume (fun _ => files Scenario.world_resume) Scenario.draw_min
    Scenario.args_empty_range 1 Scenario.st0
  = (Raise ValueError,
     mkState 0
       [fresh_command "aln.phy" "-cat -gtr" 1 "aln_cat_gtr_1_chain1";
        fresh_command "aln.phy" "-cat -gtr" 1 "aln_cat_gtr_1_chain2"]).
Proof.
  apply (main_raises_on_bad_sleep_range
           Scenario.world_resume (fun _ => files Scenario.world_resume) Scenario.draw_min
           Scenario.args_empty_range 1 0 Scenario.st0).
  - vm_compute. reflexivity.
  - vm_compute. reflexivity.
  - left. vm_compute. reflexivity.
Defined.

(** *** The tokens of a path without directory *)

Lemma rfind_from_absent (c : ascii) (s : string) :
  absent c s -> forall i acc, Py.rfind_from c s i acc = acc.
Proof.
  induction s as [|d s IH]; intros Habs i acc; [reflexivity|].
  cbn [Py.rfind_from]. destruct (Ascii.eqb_spec d c) as [->|_].
  - exfalso. apply Habs. left. reflexivity.
  - apply IH. intros Hin. apply Habs. right. exact Hin.
Qed.

Lemma rfind_from_last (c : ascii) (a b : string) :
  absent c b ->
  forall i acc,
    Py.rfind_from c (a +:+ String c b) i acc = i + Z.of_nat (String.length a).
Proof.
  intros Habs. induction a as [|d a IH]; intros i acc.
  - rewrite append_nil. cbn [Py.rfind_from]. rewrite Ascii.eqb_refl.
    rewrite rfind_from_absent by exact Habs. simpl. lia.
  - rewrite append_cons. cbn [Py.rfind_from]. rewrite IH. simpl String.length. lia.
Qed.

Lemma absent_app (c : ascii) (a b : string) :
  absent c a -> absent c b -> absent c (a +:+ b).
Proof.
  intros Ha Hb. induction a as [|d a IH]; [exact Hb|].
  rewrite append_cons. intros [Heq | Hin].
  - apply Ha. left. exact Heq.
  - apply IH; [|exact Hin]. intros Hin'. apply Ha. right. exact Hin'.
Qed.

Lemma substring_empty (s : string) : String.substring 0 0 s = EmptyString.
Proof. destruct s; reflexivity. Qed.

Lemma substring_whole (s : string) : String.substring 0 (String.length s) s = s.
Proof. induction s as [|c s IH]; [reflexivity | simpl; rewrite IH; reflexivity]. Qed.

Lemma substring_head (a b : string) :
  String.substring 0 (String.length a) (a +:+ b) = a.
Proof.
  induction a as [|c a IH]; [destruct b; reflexivity|].
  rewrite append_cons. simpl. rewrite IH. reflexivity.
Qed.

Lemma all_char_absent (c : ascii) (s : string) :
  s <> EmptyString -> absent c s -> Py.all_char c s = false.
Proof.
  destruct s as [|d s]; [contradiction|]. intros _ Habs. cbn [Py.all_char].
  destruct (Ascii.eqb_spec d c) as [->|_]; [|reflexivity].
  exfalso. apply Habs. left. reflexivity.
Qed.

(** X20. For an alignment given without directory as [stem.ext], where the
    stem is not empty and neither part contains a slash or a dot, the
    tokens are the empty directory, the file name and the stem: the
    extension is dropped, and the output prefix of chain [i >= 1] is the
    stem, the normalised arguments, ["_"], the process count and the chain
    suffix, in the working directory. *)
Theorem create_tokens_of_plain_file_name
    (stem ext pb_args : string) (processes i : Z) :
  stem <> EmptyString ->
  absent "/"%char stem -> absent "."%char stem ->
  absent "/"%char ext -> absent "."%char ext ->
  1 <= i ->
  create_tokens_from_filepath (stem +:+ "." +:+ ext)
  = (EmptyString, stem +:+ "." +:+ ext, stem)
  /\ generate_output_filename (stem +:+ "." +:+ ext) pb_args processes i
     = stem +:+ Py.dash_to_underscore (Py.remove_spaces pb_args)
         +:+ "_" +:+ Py.str processes +:+ "_chain" +:+ Py.str i.
Proof.
  intros Hstem Hslash Hdot Hslash' Hdot' Hi.
  assert (Hnoslash : absent "/"%char (stem +:+ "." +:+ ext)).
  { apply absent_app; [exact Hslash|]. change ("." +:+ ext) with (String "." ext).
    intros [Heq | Hin]; [discriminate | exact (Hslash' Hin)]. }
  assert (Hdir : PosixPath.dirname (stem +:+ "." +:+ ext) = EmptyString).
  { unfold PosixPath.dirname, Py.rfind.
    rewrite (rfind_from_absent "/" _ Hnoslash). unfold Py.slice_to.
    change (Z.to_nat (-1 + 1)) with 0%nat. rewrite substring_empty. reflexivity. }
  assert (Hbase : PosixPath.basename (stem +:+ "." +:+ ext) = stem +:+ "." +:+ ext).
  { unfold PosixPath.basename, Py.rfind, Py.slice_from.
    rewrite (rfind_from_absent "/" _ Hnoslash).
    change (Z.to_nat (-1 + 1)) with 0%nat. rewrite Nat.sub_0_r.
    apply substring_whole. }
  assert (Hroot : PosixPath.splitext_root (stem +:+ "." +:+ ext) = stem).
  { unfold PosixPath.splitext_root, Py.rfind.
    rewrite (rfind_from_absent "/" _ Hnoslash).
    change ("." +:+ ext) with (String "." ext).
    rewrite (rfind_from_last "." stem ext Hdot'), Z.add_0_l.
    destruct (Z.ltb_spec (-1) (Z.of_nat (String.length stem))); [|lia].
    unfold Py.slice, Py.slice_to.
    change (Z.to_nat (-1 + 1)) with 0%nat. rewrite Nat2Z.id, Nat.sub_0_r.
    rewrite substring_head, (all_char_absent "." stem Hstem Hdot). reflexivity. }
  assert (Htokens : create_tokens_from_filepath (stem +:+ "." +:+ ext)
                    = (EmptyString, stem +:+ "." +:+ ext, stem)).
  { unfold create_tokens_from_filepath. rewrite Hdir, Hbase, Hroot. reflexivity. }
  split; [exact Htokens|].
  unfold generate_output_filename. rewrite Htokens. simpl negb. cbn iota.
  destruct (Z.eqb_spec i 0); [lia|].
  rewrite !append_assoc. reflexivity.
Qed.

Lemma create_tokens_of_plain_file_name_witness :
  create_tokens_from_filepath ("aln" +:+ "." +:+ "phy")
  = (EmptyString, "aln" +:+ "." +:+ "phy", "aln")
  /\ generate_output_filename ("aln" +:+ "." +:+ "phy") "-cat -gtr" 1 2
     = "aln" +:+ Py.dash_to_underscore (Py.remove_spaces "-cat -gtr")
         +:+ "_" +:+ Py.str 1 +:+ "_chain" +:+ Py.str 2.
Proof.
  apply (create_tokens_of_plain_file_name "aln" "phy" "-cat -gtr" 1 2).
  - discriminate.
  - simpl. intros [H | [H | [H | []]]]; discriminate.
  - simpl. intros [H | [H | [H | []]]]; discriminate.
  - simpl. intros [H | [H | [H | []]]]; discriminate.
  - simpl. intros [H | [H | [H | []]]]; discriminate.
  - lia.
Defined.

